(** * Scaleway provider: server and IP reconcilers

    A shallow embedding of [scaleway/resource_server.go] and
    [scaleway/resource_ip.go].  The Scaleway SDK is an external
    collaborator: it is a record of state transformers over an abstract
    provider state [W].  Every SDK invocation and every operation on the
    process-wide mutex [mu] is recorded in a trace, so that statements
    about which provider calls a verb issues can be made and proved. *)

From Stdlib Require Import ZArith List String.
From stdpp Require Import base tactics option list strings pretty gmap fin_maps.

Local Open Scope string_scope.
Local Open Scope Z_scope.
Local Open Scope list_scope.

(** ** Errors *)

(** The errors the code handles: the structured error of the SDK, any other
    failure of a call, and the errors built with [fmt.Errorf], whose verbs
    are not expanded (the error keeps its format string and its argument).

    [Panic] is not a value of Go's [error] type: it is the outcome of a
    function whose run panicked.  A panic unwinds the function and runs its
    deferred calls.  Read of a server panics when it dereferences a nil
    [server.IPV6]; Create and Update call that Read as their last statement,
    so the panic is their outcome too, after the deferred [mu.Unlock()]. *)
Inductive error : Type :=
  | APIError (StatusCode : Z) (APIMessage : string)
      (* api.APIError: a structured error of the SDK *)
  | TransportError (msg : string)
      (* any other error the SDK surfaces: network failure, timeout *)
  | ErrorfStr (format : string) (arg : string)
      (* fmt.Errorf(format, arg) with a string argument *)
  | ErrorfErr (format : string) (arg : error)
      (* fmt.Errorf(format, err) *)
  | Panic (reason : string).
      (* a run-time panic *)

(** The panic of Go's run time on the dereference of a nil pointer. *)
Definition nil_dereference : error :=
  Panic "runtime error: invalid memory address or nil pointer dereference".

(** A Go result [(T, error)]. *)
Inductive res (A : Type) : Type :=
  | Ok (a : A)
  | Err (e : error).
Arguments Ok {A} a.
Arguments Err {A} e.

(** ** SDK types (github.com/nicolai86/scaleway-sdk), the fields the code reads *)

(** [server.IPV6] is a pointer: [None] is nil, which is what the SDK
    decodes when the provider reports no ipv6 object; [Some address] carries
    [server.IPV6.Address]. *)
Record Server := {
  Identifier : string;
  Name : string;
  Image_Identifier : string;
  CommercialType : string;
  EnableIPV6 : bool;
  PrivateIP : string;
  PublicAddress_IP : string;
  IPV6 : option string;
  State : string;
  StateDetail : string;
  Tags : list string
}.

(** [ip.Server] is a pointer: [None] is nil, [Some id] carries
    [ip.Server.Identifier]. *)
Record IPAddress := {
  IP_ID : string;
  IP_Address : string;
  IP_Server : option string
}.

Record VolumeDefinition := {
  VD_Size : Z;
  VD_Type : string;
  VD_Name : string
}.

Record ServerDefinition := {
  SD_Name : string;
  SD_Image : option string;
  SD_Organization : string;
  SD_EnableIPV6 : bool;
  SD_SecurityGroup : string;
  SD_DynamicIPRequired : option bool;
  SD_CommercialType : string;
  SD_Bootscript : option string;
  SD_Volumes : gmap string string;
  SD_Tags : list string
}.

Record ServerPatchDefinition := {
  SP_Name : option string;
  SP_Tags : option (list string);
  SP_EnableIPV6 : option bool;
  SP_DynamicIPRequired : option bool;
  SP_SecurityGroup : option string
}.

(** ** Traces *)

Inductive Call : Type :=
  | CGetServer (id : string)
  | CPostServer (def : ServerDefinition)
  | CPatchServer (id : string) (req : ServerPatchDefinition)
  | CPostVolume (def : VolumeDefinition)
  | CGetIPS
  | CGetIP (id : string)
  | CNewIP
  | CAttachIP (ipID serverID : string)
  | CDetachIP (ipID : string)
  | CDeleteIP (ipID : string)
  | CGetUserdatas (id : string)
  | CGetUserdata (id key : string)
  | CPatchUserdata (id key value : string)
  | CDeleteUserdata (id key : string)
  | CPoweronServer (id : string)
  | CDeleteStoppedServer (id : string)
  | CDeleteRunningServer (id : string).

Inductive Event : Type :=
  | ELock
  | EUnlock
  | ECall (c : Call).

(** ** The monad: provider state and a trace of events *)

Definition M (W A : Type) : Type := W -> A * W * list Event.

Definition ret {W A} (a : A) : M W A := fun w => (a, w, []).

Definition bind {W A B} (m : M W A) (k : A -> M W B) : M W B :=
  fun w =>
    let '(a, w1, t1) := m w in
    let '(b, w2, t2) := k a w1 in
    (b, w2, t1 ++ t2).

Notation "'let*' x ':=' c 'in' k" := (bind c (fun x => k))
  (at level 10, x pattern, c at level 100, k at level 200).
Notation "'run' c 'then' k" := (bind c (fun _ => k))
  (at level 10, c at level 100, k at level 200).

Definition emit {W} (ev : Event) : M W unit := fun w => (tt, w, [ev]).

(** [mu.Lock()] and [mu.Unlock()]. *)
Definition Lock {W} : M W unit := emit ELock.
Definition Unlock {W} : M W unit := emit EUnlock.

(** [mu.Lock(); defer mu.Unlock()] at the head of a function: the mutex is
    released when the function returns, on every path. *)
Definition locked {W A} (body : M W A) : M W A :=
  run Lock then let* r := body in run Unlock then ret r.

(** One SDK invocation. *)
Definition call {W A} (c : Call) (f : W -> A * W) : M W A :=
  fun w => let '(a, w1) := f w in (a, w1, [ECall c]).

Definition val {W A} (x : A * W * list Event) : A := fst (fst x).
Definition world {W A} (x : A * W * list Event) : W := snd (fst x).
Definition trc {W A} (x : A * W * list Event) : list Event := snd x.

(** ** The environment: SDK client, and the helpers of the package that the
    two resource files call *)

Record Env (W : Type) := {
  Organization : string;
  sdk_GetServer : string -> W -> res Server * W;
  sdk_PostServer : ServerDefinition -> W -> res string * W;
  sdk_PatchServer : string -> ServerPatchDefinition -> W -> res unit * W;
  sdk_PostVolume : VolumeDefinition -> W -> res string * W;
  sdk_GetIPS : W -> res (list IPAddress) * W;
  sdk_GetIP : string -> W -> res IPAddress * W;
  sdk_NewIP : W -> res IPAddress * W;
  sdk_AttachIP : string -> string -> W -> res unit * W;
  sdk_DetachIP : string -> W -> res unit * W;
  sdk_DeleteIP : string -> W -> res unit * W;
  sdk_GetUserdatas : string -> W -> res (list string) * W;
  sdk_GetUserdata : string -> string -> W -> res string * W;
  sdk_PatchUserdata : string -> string -> string -> W -> res unit * W;
  sdk_DeleteUserdata : string -> string -> W -> res unit * W;
  (* helpers of the package, defined outside the two resource files *)
  hlp_poweronServer : string -> W -> res unit * W;
  hlp_deleteStoppedServer : Server -> W -> res unit * W;
  hlp_deleteRunningServer : Server -> W -> res unit * W;
  (* the constant [gb] *)
  gb : Z;
  (* the attempt budget of [retry] *)
  maxAttempts : nat;
  (* the order in which [range] visits a map *)
  range : gmap string string -> list (string * string)
}.

Arguments Organization {W} _.
Arguments sdk_GetServer {W} _ _ _.
Arguments sdk_PostServer {W} _ _ _.
Arguments sdk_PatchServer {W} _ _ _ _.
Arguments sdk_PostVolume {W} _ _ _.
Arguments sdk_GetIPS {W} _ _.
Arguments sdk_GetIP {W} _ _ _.
Arguments sdk_NewIP {W} _ _.
Arguments sdk_AttachIP {W} _ _ _ _.
Arguments sdk_DetachIP {W} _ _ _.
Arguments sdk_DeleteIP {W} _ _ _.
Arguments sdk_GetUserdatas {W} _ _ _.
Arguments sdk_GetUserdata {W} _ _ _ _.
Arguments sdk_PatchUserdata {W} _ _ _ _ _.
Arguments sdk_DeleteUserdata {W} _ _ _ _.
Arguments hlp_poweronServer {W} _ _ _.
Arguments hlp_deleteStoppedServer {W} _ _ _.
Arguments hlp_deleteRunningServer {W} _ _ _.
Arguments gb {W} _.
Arguments maxAttempts {W} _.
Arguments range {W} _ _.

(** Go leaves the iteration order of a map unspecified; an environment is
    well formed when [range] visits every entry of the map exactly once. *)
Definition range_ok {W} (E : Env W) : Prop :=
  forall m : gmap string string, range E m ≡ₚ map_to_list m.

(** ** Resource data (helper/schema.ResourceData)

    The schema of a resource is a record with one field per key.  A
    [ResourceData] has the three levels the Terraform helper keeps: the
    recorded state, the state with the planned diff applied, and the level
    that [d.Set] writes.  [d.Get] and [d.GetOk] read the last one,
    [d.HasChange] compares the first two. *)

Record VolumeAttrs := {
  size_in_gb : Z;
  volume_type : string;
  volume_id : string
}.

Record ServerAttrs := {
  srv_name : string;
  srv_image : string;
  srv_type : string;
  srv_bootscript : string;
  srv_tags : list string;
  srv_security_group : string;
  srv_volume : list VolumeAttrs;
  srv_enable_ipv6 : bool;
  srv_dynamic_ip_required : bool;
  srv_private_ip : string;
  srv_public_ip : string;
  srv_public_ipv6 : string;
  srv_state : string;
  srv_state_detail : string;
  srv_user_data : gmap string string
}.

Record IPAttrs := {
  ip_server : string;
  ip_ip : string
}.

Record ResourceData (A : Type) := {
  Id : string;
  prior : A;
  planned : A;
  current : A;
  ConnInfo : gmap string string
}.
Arguments Id {A} _.
Arguments prior {A} _.
Arguments planned {A} _.
Arguments current {A} _.
Arguments ConnInfo {A} _.

Definition SetId {A} (id : string) (d : ResourceData A) : ResourceData A :=
  {| Id := id; prior := prior d; planned := planned d; current := current d;
     ConnInfo := ConnInfo d |}.

Definition SetConnInfo {A} (c : gmap string string) (d : ResourceData A)
  : ResourceData A :=
  {| Id := Id d; prior := prior d; planned := planned d; current := current d;
     ConnInfo := c |}.

(** [d.Set(key, v)], the key given as the update of its field. *)
Definition SetAttr {A} (upd : A -> A) (d : ResourceData A) : ResourceData A :=
  {| Id := Id d; prior := prior d; planned := planned d;
     current := upd (current d); ConnInfo := ConnInfo d |}.

(** [d.Get(key)], the key given as its field. *)
Definition Get {A B} (key : A -> B) (d : ResourceData A) : B := key (current d).

(** [d.HasChange(key)]. *)
Definition HasChange {A B} `{EqDecision B} (key : A -> B) (d : ResourceData A)
  : bool :=
  negb (bool_decide (key (prior d) = key (planned d))).

(** [d.GetOk(key)] reports [ok] when the value is not the zero value of its
    type: the empty string, the empty list, the empty map. *)
Definition GetOk_string {A} (key : A -> string) (d : ResourceData A)
  : string * bool :=
  (Get key d, negb (bool_decide (Get key d = ""))).

Definition GetOk_list {A B} (key : A -> list B) (d : ResourceData A)
  : list B * bool :=
  (Get key d, match Get key d with [] => false | _ :: _ => true end).

Definition GetOk_map {A} (key : A -> gmap string string) (d : ResourceData A)
  : gmap string string * bool :=
  (Get key d, negb (bool_decide (Get key d = ∅))).

Definition with_name (v : string) (a : ServerAttrs) : ServerAttrs :=
  let 'Build_ServerAttrs _ x2 x3 x4 x5 x6 x7 x8 x9 x10 x11 x12 x13 x14 x15 := a in
  Build_ServerAttrs v x2 x3 x4 x5 x6 x7 x8 x9 x10 x11 x12 x13 x14 x15.
Definition with_image (v : string) (a : ServerAttrs) : ServerAttrs :=
  let 'Build_ServerAttrs x1 _ x3 x4 x5 x6 x7 x8 x9 x10 x11 x12 x13 x14 x15 := a in
  Build_ServerAttrs x1 v x3 x4 x5 x6 x7 x8 x9 x10 x11 x12 x13 x14 x15.
Definition with_type (v : string) (a : ServerAttrs) : ServerAttrs :=
  let 'Build_ServerAttrs x1 x2 _ x4 x5 x6 x7 x8 x9 x10 x11 x12 x13 x14 x15 := a in
  Build_ServerAttrs x1 x2 v x4 x5 x6 x7 x8 x9 x10 x11 x12 x13 x14 x15.
Definition with_tags (v : list string) (a : ServerAttrs) : ServerAttrs :=
  let 'Build_ServerAttrs x1 x2 x3 x4 _ x6 x7 x8 x9 x10 x11 x12 x13 x14 x15 := a in
  Build_ServerAttrs x1 x2 x3 x4 v x6 x7 x8 x9 x10 x11 x12 x13 x14 x15.
Definition with_volume (v : list VolumeAttrs) (a : ServerAttrs) : ServerAttrs :=
  let 'Build_ServerAttrs x1 x2 x3 x4 x5 x6 _ x8 x9 x10 x11 x12 x13 x14 x15 := a in
  Build_ServerAttrs x1 x2 x3 x4 x5 x6 v x8 x9 x10 x11 x12 x13 x14 x15.
Definition with_enable_ipv6 (v : bool) (a : ServerAttrs) : ServerAttrs :=
  let 'Build_ServerAttrs x1 x2 x3 x4 x5 x6 x7 _ x9 x10 x11 x12 x13 x14 x15 := a in
  Build_ServerAttrs x1 x2 x3 x4 x5 x6 x7 v x9 x10 x11 x12 x13 x14 x15.
Definition with_private_ip (v : string) (a : ServerAttrs) : ServerAttrs :=
  let 'Build_ServerAttrs x1 x2 x3 x4 x5 x6 x7 x8 x9 _ x11 x12 x13 x14 x15 := a in
  Build_ServerAttrs x1 x2 x3 x4 x5 x6 x7 x8 x9 v x11 x12 x13 x14 x15.
Definition with_public_ip (v : string) (a : ServerAttrs) : ServerAttrs :=
  let 'Build_ServerAttrs x1 x2 x3 x4 x5 x6 x7 x8 x9 x10 _ x12 x13 x14 x15 := a in
  Build_ServerAttrs x1 x2 x3 x4 x5 x6 x7 x8 x9 x10 v x12 x13 x14 x15.
Definition with_public_ipv6 (v : string) (a : ServerAttrs) : ServerAttrs :=
  let 'Build_ServerAttrs x1 x2 x3 x4 x5 x6 x7 x8 x9 x10 x11 _ x13 x14 x15 := a in
  Build_ServerAttrs x1 x2 x3 x4 x5 x6 x7 x8 x9 x10 x11 v x13 x14 x15.
Definition with_state (v : string) (a : ServerAttrs) : ServerAttrs :=
  let 'Build_ServerAttrs x1 x2 x3 x4 x5 x6 x7 x8 x9 x10 x11 x12 _ x14 x15 := a in
  Build_ServerAttrs x1 x2 x3 x4 x5 x6 x7 x8 x9 x10 x11 x12 v x14 x15.
Definition with_state_detail (v : string) (a : ServerAttrs) : ServerAttrs :=
  let 'Build_ServerAttrs x1 x2 x3 x4 x5 x6 x7 x8 x9 x10 x11 x12 x13 _ x15 := a in
  Build_ServerAttrs x1 x2 x3 x4 x5 x6 x7 x8 x9 x10 x11 x12 x13 v x15.
Definition with_user_data (v : gmap string string) (a : ServerAttrs) : ServerAttrs :=
  let 'Build_ServerAttrs x1 x2 x3 x4 x5 x6 x7 x8 x9 x10 x11 x12 x13 x14 _ := a in
  Build_ServerAttrs x1 x2 x3 x4 x5 x6 x7 x8 x9 x10 x11 x12 x13 x14 v.

Definition with_ip (v : string) (a : IPAttrs) : IPAttrs :=
  {| ip_server := ip_server a; ip_ip := v |}.
Definition with_server (v : string) (a : IPAttrs) : IPAttrs :=
  {| ip_server := v; ip_ip := ip_ip a |}.

Definition with_volume_id (v : string) (a : VolumeAttrs) : VolumeAttrs :=
  {| size_in_gb := size_in_gb a; volume_type := volume_type a; volume_id := v |}.

Definition with_Bootscript (v : option string) (s : ServerDefinition)
  : ServerDefinition :=
  {| SD_Name := SD_Name s; SD_Image := SD_Image s;
     SD_Organization := SD_Organization s; SD_EnableIPV6 := SD_EnableIPV6 s;
     SD_SecurityGroup := SD_SecurityGroup s;
     SD_DynamicIPRequired := SD_DynamicIPRequired s;
     SD_CommercialType := SD_CommercialType s; SD_Bootscript := v;
     SD_Volumes := SD_Volumes s; SD_Tags := SD_Tags s |}.
Definition with_Volumes (v : gmap string string) (s : ServerDefinition)
  : ServerDefinition :=
  {| SD_Name := SD_Name s; SD_Image := SD_Image s;
     SD_Organization := SD_Organization s; SD_EnableIPV6 := SD_EnableIPV6 s;
     SD_SecurityGroup := SD_SecurityGroup s;
     SD_DynamicIPRequired := SD_DynamicIPRequired s;
     SD_CommercialType := SD_CommercialType s; SD_Bootscript := SD_Bootscript s;
     SD_Volumes := v; SD_Tags := SD_Tags s |}.
Definition with_Tags (v : list string) (s : ServerDefinition)
  : ServerDefinition :=
  {| SD_Name := SD_Name s; SD_Image := SD_Image s;
     SD_Organization := SD_Organization s; SD_EnableIPV6 := SD_EnableIPV6 s;
     SD_SecurityGroup := SD_SecurityGroup s;
     SD_DynamicIPRequired := SD_DynamicIPRequired s;
     SD_CommercialType := SD_CommercialType s; SD_Bootscript := SD_Bootscript s;
     SD_Volumes := SD_Volumes s; SD_Tags := v |}.

(** ** The validator of [size_in_gb] (resource_server.go, lines 69-75) *)

Definition size_in_gb_ValidateFunc (v : Z) (k : string)
  : list string * list error :=
  let value := v in
  let errors := [] in
  let errors :=
    if value >? 150
    then errors ++ [ErrorfStr "%q needs to be less than 150" k]
    else errors in
  ([], errors).

(** The schema layer accepts a value when its validator reports no error. *)
Definition accepted (r : list string * list error) : bool :=
  match snd r with [] => true | _ :: _ => false end.

Definition err_of {A} (r : res A) : option error :=
  match r with
  | Ok _ => None
  | Err e => Some e
  end.

(** Modelled from the spec: the classification of gateway failures that the
    package's [retry] helper applies (the helper is defined outside the two
    resource files).  Transient network, timeout and 5xx failures are
    retryable; not found, validation and conflict errors are terminal. *)
Definition retryable (e : error) : bool :=
  match e with
  | APIError StatusCode _ => (500 <=? StatusCode) && (StatusCode <? 600)
  | TransportError _ => true
  | ErrorfStr _ _ => false
  | ErrorfErr _ _ => false
  | Panic _ => false
  end.

Section Provider.

Context {W : Type} (E : Env W).

(** Modelled from the spec: [retry], the package's retry helper (defined
    outside the two resource files).  It executes the operation; on a
    retryable error it re-invokes it, up to the attempt budget; it returns
    the last error when the budget is exhausted, and a terminal error at
    once.  The closure passed to [retry] assigns its result to captured
    variables: here the result of the last attempt is returned.  The
    backoff between attempts is a wait and leaves no event. *)
Fixpoint retry_loop {A} (reinvocations : nat) (f : M W (res A)) : M W (res A) :=
  let* r := f in
  match r with
  | Ok a => ret (Ok a)
  | Err e =>
      match reinvocations with
      | S n => if retryable e then retry_loop n f else ret (Err e)
      | O => ret (Err e)
      end
  end.

(** Modelled from the spec: [retry] makes one attempt and re-invokes the
    operation at most [maxAttempts - 1] times. *)
Definition retry {A} (f : M W (res A)) : M W (res A) :=
  retry_loop (maxAttempts E - 1)%nat f.

(** *** The SDK methods and the package helpers, traced *)

Definition GetServer (id : string) := call (CGetServer id) (sdk_GetServer E id).
Definition PostServer (def : ServerDefinition) :=
  call (CPostServer def) (sdk_PostServer E def).
Definition PatchServer (id : string) (req : ServerPatchDefinition) :=
  call (CPatchServer id req) (sdk_PatchServer E id req).
Definition PostVolume (def : VolumeDefinition) :=
  call (CPostVolume def) (sdk_PostVolume E def).
Definition GetIPS := call CGetIPS (sdk_GetIPS E).
Definition GetIP (id : string) := call (CGetIP id) (sdk_GetIP E id).
Definition NewIP := call CNewIP (sdk_NewIP E).
Definition AttachIP (ipID serverID : string) :=
  call (CAttachIP ipID serverID) (sdk_AttachIP E ipID serverID).
Definition DetachIP (ipID : string) := call (CDetachIP ipID) (sdk_DetachIP E ipID).
Definition DeleteIP (ipID : string) := call (CDeleteIP ipID) (sdk_DeleteIP E ipID).
Definition GetUserdatas (id : string) :=
  call (CGetUserdatas id) (sdk_GetUserdatas E id).
Definition GetUserdata (id key : string) :=
  call (CGetUserdata id key) (sdk_GetUserdata E id key).
Definition PatchUserdata (id key value : string) :=
  call (CPatchUserdata id key value) (sdk_PatchUserdata E id key value).
Definition DeleteUserdata (id key : string) :=
  call (CDeleteUserdata id key) (sdk_DeleteUserdata E id key).
Definition poweronServer (id : string) :=
  call (CPoweronServer id) (hlp_poweronServer E id).
Definition deleteStoppedServer (s : Server) :=
  call (CDeleteStoppedServer (Identifier s)) (hlp_deleteStoppedServer E s).
Definition deleteRunningServer (s : Server) :=
  call (CDeleteRunningServer (Identifier s)) (hlp_deleteRunningServer E s).

(** *** attachIP (resource_server.go, lines 138-150) *)

Fixpoint attachIP_range (ips : list IPAddress) (serverID IPAddress : string)
  : M W (option error) :=
  match ips with
  | [] => ret (Some (ErrorfStr "Failed to find IP with ip %q to attach" IPAddress))
  | ip :: ips' =>
      if decide (IP_Address ip = IPAddress)
      then let* r := AttachIP (IP_ID ip) serverID in ret (err_of r)
      else attachIP_range ips' serverID IPAddress
  end.

Definition attachIP (serverID IPAddress : string) : M W (option error) :=
  let* r := GetIPS in
  match r with
  | Err err => ret (Some err)
  | Ok ips => attachIP_range ips serverID IPAddress
  end.

(** *** readUserDatas (resource_server.go, lines 446-465) *)

Fixpoint readUserDatas_range (id : string) (keys : list string)
    (m : gmap string string) : M W (gmap string string * option error) :=
  match keys with
  | [] => ret (m, None)
  | k :: keys' =>
      let* r := GetUserdata id k in
      match r with
      | Err err => ret (m, Some err)
      | Ok ud => readUserDatas_range id keys' (<[k := ud]> m)
      end
  end.

Definition readUserDatas (id : string)
  : M W (gmap string string * option error) :=
  let* r := GetUserdatas id in
  match r with
  | Err err => ret (∅, Some err)
  | Ok uds => readUserDatas_range id uds ∅
  end.

(** *** resourceScalewayServerRead (resource_server.go, lines 248-300) *)

Definition resourceScalewayServerRead (d : ResourceData ServerAttrs)
  : M W (option error * ResourceData ServerAttrs) :=
  let* r := retry (GetServer (Id d)) in
  match r with
  | Err err =>
      match err with
      | APIError StatusCode _ =>
          if decide (StatusCode = 404)
          then ret (None, SetId "" d)
          else ret (Some err, d)
      | _ => ret (Some err, d)
      end
  | Ok server =>
      let d := SetAttr (with_name (Name server)) d in
      let d := SetAttr (with_image (Image_Identifier server)) d in
      let d := SetAttr (with_type (CommercialType server)) d in
      let d := SetAttr (with_enable_ipv6 (EnableIPV6 server)) d in
      let d := SetAttr (with_private_ip (PrivateIP server)) d in
      let d := SetAttr (with_public_ip (PublicAddress_IP server)) d in
      (* line 278 dereferences [server.IPV6] without a nil check *)
      match (if EnableIPV6 server
             then match IPV6 server with
                  | Some Address => Ok (SetAttr (with_public_ipv6 Address) d)
                  | None => Err nil_dereference
                  end
             else Ok d) with
      | Err panic => ret (Some panic, d)
      | Ok d =>
          let d := SetAttr (with_state (State server)) d in
          let d := SetAttr (with_state_detail (StateDetail server)) d in
          let d := SetAttr (with_tags (Tags server)) d in
          let d :=
            SetConnInfo
              (<["type" := "ssh"]> (<["host" := PublicAddress_IP server]> ∅)) d in
          let* (ud, err) := readUserDatas (Id d) in
          match err with
          | Some err => ret (Some err, d)
          | None =>
              let d :=
                if (0 <? size ud)%nat
                then SetAttr (with_user_data ud) d
                else d in
              ret (None, d)
          end
      end
  end.

(** *** resourceScalewayIPRead (resource_ip.go, lines 57-84) *)

Definition resourceScalewayIPRead (d : ResourceData IPAttrs)
  : M W (option error * ResourceData IPAttrs) :=
  let* r := retry (GetIP (Id d)) in
  match r with
  | Err err =>
      match err with
      | APIError StatusCode _ =>
          if decide (StatusCode = 404)
          then ret (None, SetId "" d)
          else ret (Some err, d)
      | _ => ret (Some err, d)
      end
  | Ok resp =>
      let d := SetAttr (with_ip (IP_Address resp)) d in
      let d :=
        match IP_Server resp with
        | Some identifier => SetAttr (with_server identifier) d
        | None => d
        end in
      ret (None, d)
  end.

(** *** resourceScalewayServerCreate (resource_server.go, lines 152-246) *)

(** [uint64(v)] of a Go [int]. *)
Definition uint64 (v : Z) : Z := v mod 2 ^ 64.

(** The loop over the declared volumes (lines 178-201): [i] is the index of
    the head of [volumes], [done] the volumes already visited, [Volumes] the
    map [server.Volumes]. *)
Fixpoint createVolumes (serverName : string) (i : nat)
    (volumes done : list VolumeAttrs) (Volumes : gmap string string)
  : M W (res (list VolumeAttrs * gmap string string)) :=
  match volumes with
  | [] => ret (Ok (done, Volumes))
  | volume :: volumes' =>
      let sizeInGB := uint64 (size_in_gb volume) in
      if 0 <? sizeInGB
      then
        let* r := retry (PostVolume
                    {| VD_Size := uint64 (sizeInGB * gb E);
                       VD_Type := volume_type volume;
                       VD_Name := serverName +:+ "-" +:+ pretty sizeInGB |}) in
        match r with
        | Err err => ret (Err err)
        | Ok volumeID =>
            createVolumes serverName (S i) volumes'
              (done ++ [with_volume_id volumeID volume])
              (<[pretty (i + 1)%nat := volumeID]> Volumes)
        end
      else createVolumes serverName (S i) volumes' (done ++ [volume]) Volumes
  end.

(** The loop writing the declared user data (lines 224-229). *)
Fixpoint createUserdata (id : string) (ud : list (string * string))
  : M W (option error) :=
  match ud with
  | [] => ret None
  | (k, v) :: ud' =>
      let* r := PatchUserdata id k v in
      match r with
      | Err err => ret (Some err)
      | Ok _ => createUserdata id ud'
      end
  end.

(** Lines 232-245: power on, attach the declared address, read back. *)
Definition createStart (id : string) (d : ResourceData ServerAttrs)
  : M W (option error * ResourceData ServerAttrs) :=
  let after_start (err : option error) :=
    match err with
    | Some err => ret (Some err, d)
    | None => resourceScalewayServerRead d
    end in
  if negb (bool_decide (Get srv_state d = "stopped"))
  then
    let* r := poweronServer id in
    let err := err_of r in
    let '(v, ok) := GetOk_string srv_public_ip d in
    if ok
    then
      let* err' := attachIP (Id d) v in
      match err' with
      | Some err' => ret (Some err', d)
      | None => after_start err
      end
    else after_start err
  else after_start None.

(** Lines 158-230: the volumes, the server, its identifier and its user data.
    The result carries the resource data as the step reached left it. *)
Definition createServer (d : ResourceData ServerAttrs)
  : M W (res string * ResourceData ServerAttrs) :=
  let image := Get srv_image d in
  let server :=
    {| SD_Name := Get srv_name d;
       SD_Image := Some image;
       SD_Organization := Organization E;
       SD_EnableIPV6 := Get srv_enable_ipv6 d;
       SD_SecurityGroup := Get srv_security_group d;
       SD_DynamicIPRequired := Some (Get srv_dynamic_ip_required d);
       SD_CommercialType := Get srv_type d;
       SD_Bootscript := None;
       SD_Volumes := ∅;
       SD_Tags := [] |} in
  let server :=
    let '(bootscript, ok) := GetOk_string srv_bootscript d in
    if ok then with_Bootscript (Some bootscript) server else server in
  let* rv :=
    (let '(vs, ok) := GetOk_list srv_volume d in
     if ok
     then
       let* r := createVolumes (SD_Name server) 0 vs [] ∅ in
       match r with
       | Err err => ret (Err err)
       | Ok (volumes, Volumes) =>
           ret (Ok (SetAttr (with_volume volumes) d, with_Volumes Volumes server))
       end
     else ret (Ok (d, server))) in
  match rv with
  | Err err => ret (Err err, d)
  | Ok (d, server) =>
      let server :=
        let '(raw, ok) := GetOk_list srv_tags d in
        if ok then with_Tags (SD_Tags server ++ raw) server else server in
      let* r := retry (PostServer server) in
      match r with
      | Err err => ret (Err err, d)
      | Ok id =>
          let d := SetId id d in
          let* err :=
            (let '(ud, ok) := GetOk_map srv_user_data d in
             if ok then createUserdata id (range E ud) else ret None) in
          match err with
          | Some err => ret (Err err, d)
          | None => ret (Ok id, d)
          end
      end
  end.

Definition resourceScalewayServerCreate (d : ResourceData ServerAttrs)
  : M W (option error * ResourceData ServerAttrs) :=
  locked (
    let* (r, d) := createServer d in
    match r with
    | Err err => ret (Some err, d)
    | Ok id => createStart id d
    end).

(** *** resourceScalewayServerUpdate (resource_server.go, lines 302-414) *)

(** Lines 308-336: the patch request. *)
Definition updateRequest (d : ResourceData ServerAttrs) : ServerPatchDefinition :=
  {| SP_Name := if HasChange srv_name d then Some (Get srv_name d) else None;
     SP_Tags :=
       if HasChange srv_tags d
       then let '(raw, ok) := GetOk_list srv_tags d in
            if ok then Some raw else None
       else None;
     SP_EnableIPV6 :=
       if HasChange srv_enable_ipv6 d then Some (Get srv_enable_ipv6 d) else None;
     SP_DynamicIPRequired :=
       if HasChange srv_dynamic_ip_required d
       then Some (Get srv_dynamic_ip_required d) else None;
     SP_SecurityGroup :=
       if HasChange srv_security_group d
       then Some (Get srv_security_group d) else None |}.

(** Lines 338-342. *)
Definition updatePatch (d : ResourceData ServerAttrs) : M W (option error) :=
  let* r := retry (PatchServer (Id d) (updateRequest d)) in
  match r with
  | Err err => ret (Some (ErrorfErr "Failed patching scaleway server: %q" err))
  | Ok _ => ret None
  end.

(** Lines 356-366: attach the first pool entry with the declared address. *)
Fixpoint updateAttach (ips : list IPAddress) (v id : string) : M W (option error) :=
  match ips with
  | [] => ret None
  | ip :: ips' =>
      if decide (IP_Address ip = v)
      then let* r := retry (AttachIP (IP_ID ip) id) in ret (err_of r)
      else updateAttach ips' v id
  end.

(** Lines 368-378: detach the first pool entry attached to this server. *)
Fixpoint updateDetach (ips : list IPAddress) (id : string) : M W (option error) :=
  match ips with
  | [] => ret None
  | ip :: ips' =>
      if match IP_Server ip with
         | Some identifier => bool_decide (identifier = id)
         | None => false
         end
      then let* r := retry (DetachIP (IP_ID ip)) in ret (err_of r)
      else updateDetach ips' id
  end.

(** Lines 344-380. *)
Definition updatePublicIP (d : ResourceData ServerAttrs) : M W (option error) :=
  if HasChange srv_public_ip d
  then
    let* r := retry GetIPS in
    match r with
    | Err err => ret (Some err)
    | Ok ips =>
        let '(v, ok) := GetOk_string srv_public_ip d in
        if ok then updateAttach ips v (Id d) else updateDetach ips (Id d)
    end
  else ret None.

(** Lines 393-400: delete the observed keys that are not declared. *)
Fixpoint updateUserdataDelete (id : string) (am : list (string * string))
    (m : gmap string string) : M W (option error) :=
  match am with
  | [] => ret None
  | (ak, _) :: am' =>
      match m !! ak with
      | None =>
          let* r := DeleteUserdata id ak in
          match r with
          | Err err => ret (Some err)
          | Ok _ => updateUserdataDelete id am' m
          end
      | Some _ => updateUserdataDelete id am' m
      end
  end.

(** Lines 402-410: patch the declared keys whose observed value differs
    ([am[k]] of a missing key is nil, which differs from every string). *)
Fixpoint updateUserdataPatch (id : string) (m : list (string * string))
    (am : gmap string string) : M W (option error) :=
  match m with
  | [] => ret None
  | (k, v) :: m' =>
      let av := am !! k in
      if negb (bool_decide (av = Some v))
      then
        let* r := PatchUserdata id k v in
        match r with
        | Err err => ret (Some err)
        | Ok _ => updateUserdataPatch id m' am
        end
      else updateUserdataPatch id m' am
  end.

(** Lines 382-411. *)
Definition updateUserdata (d : ResourceData ServerAttrs) : M W (option error) :=
  if HasChange srv_user_data d
  then
    let* (am, err) := readUserDatas (Id d) in
    match err with
    | Some err => ret (Some err)
    | None =>
        let m :=
          let '(om, ok) := GetOk_map srv_user_data d in
          if ok then om else ∅ in
        let* err := updateUserdataDelete (Id d) (range E am) m in
        match err with
        | Some err => ret (Some err)
        | None => updateUserdataPatch (Id d) (range E m) am
        end
    end
  else ret None.

Definition resourceScalewayServerUpdate (d : ResourceData ServerAttrs)
  : M W (option error * ResourceData ServerAttrs) :=
  locked (
    let* err := updatePatch d in
    match err with
    | Some err => ret (Some err, d)
    | None =>
        let* err := updatePublicIP d in
        match err with
        | Some err => ret (Some err, d)
        | None =>
            let* err := updateUserdata d in
            match err with
            | Some err => ret (Some err, d)
            | None => resourceScalewayServerRead d
            end
        end
    end).

(** *** resourceScalewayServerDelete (resource_server.go, lines 416-444) *)

Definition resourceScalewayServerDelete (d : ResourceData ServerAttrs)
  : M W (option error * ResourceData ServerAttrs) :=
  locked (
    let* r := retry (GetServer (Id d)) in
    match r with
    | Err err => ret (Some err, d)
    | Ok s =>
        if bool_decide (State s = "stopped")
        then let* r := deleteStoppedServer s in ret (err_of r, d)
        else
          let* r := deleteRunningServer s in
          let err := err_of r in
          let d := match err with None => SetId "" d | Some _ => d end in
          ret (err, d)
    end).

(** *** resourceScalewayIPUpdate (resource_ip.go, lines 86-109) *)

Definition resourceScalewayIPUpdate (d : ResourceData IPAttrs)
  : M W (option error * ResourceData IPAttrs) :=
  locked (
    if HasChange ip_server d
    then
      if negb (bool_decide (Get ip_server d = ""))
      then
        let* r := retry (AttachIP (Id d) (Get ip_server d)) in
        match r with
        | Err err => ret (Some err, d)
        | Ok _ => resourceScalewayIPRead d
        end
      else let* r := retry (DetachIP (Id d)) in ret (err_of r, d)
    else resourceScalewayIPRead d).

(** *** resourceScalewayIPCreate (resource_ip.go, lines 36-55) *)

Definition resourceScalewayIPCreate (d : ResourceData IPAttrs)
  : M W (option error * ResourceData IPAttrs) :=
  run Lock then
  let* r := retry NewIP in
  run Unlock then
  match r with
  | Err err => ret (Some err, d)
  | Ok resp =>
      let d := SetId (IP_ID resp) d in
      resourceScalewayIPUpdate d
  end.

(** *** resourceScalewayIPDelete (resource_ip.go, lines 111-125) *)

Definition resourceScalewayIPDelete (d : ResourceData IPAttrs)
  : M W (option error * ResourceData IPAttrs) :=
  locked (
    let* r := retry (DeleteIP (Id d)) in
    match r with
    | Err err => ret (Some err, d)
    | Ok _ => ret (None, SetId "" d)
    end).

End Provider.

(** ** A provider with canned answers

    The SDK answers every call from a fixed table and keeps the provider
    state as it is.  It gives the concrete providers of the examples. *)

Record Answers := {
  on_GetServer : res Server;
  on_PostServer : res string;
  on_PatchServer : res unit;
  on_PostVolume : res string;
  on_GetIPS : res (list IPAddress);
  on_GetIP : res IPAddress;
  on_NewIP : res IPAddress;
  on_AttachIP : res unit;
  on_DetachIP : res unit;
  on_DeleteIP : res unit;
  on_Userdata : res (gmap string string);
  on_PatchUserdata : res unit;
  on_DeleteUserdata : res unit;
  on_poweronServer : res unit;
  on_deleteStoppedServer : res unit;
  on_deleteRunningServer : res unit
}.

Definition canned (W : Type) (a : Answers) : Env W :=
  {| Organization := "org";
     sdk_GetServer := fun _ w => (on_GetServer a, w);
     sdk_PostServer := fun _ w => (on_PostServer a, w);
     sdk_PatchServer := fun _ _ w => (on_PatchServer a, w);
     sdk_PostVolume := fun _ w => (on_PostVolume a, w);
     sdk_GetIPS := fun w => (on_GetIPS a, w);
     sdk_GetIP := fun _ w => (on_GetIP a, w);
     sdk_NewIP := fun w => (on_NewIP a, w);
     sdk_AttachIP := fun _ _ w => (on_AttachIP a, w);
     sdk_DetachIP := fun _ w => (on_DetachIP a, w);
     sdk_DeleteIP := fun _ w => (on_DeleteIP a, w);
     sdk_GetUserdatas := fun _ w =>
       (match on_Userdata a with
        | Ok m => Ok (fst <$> map_to_list m)
        | Err e => Err e
        end, w);
     sdk_GetUserdata := fun _ k w =>
       (match on_Userdata a with
        | Ok m => match m !! k with
                  | Some v => Ok v
                  | None => Err (APIError 404 "no such key")
                  end
        | Err e => Err e
        end, w);
     sdk_PatchUserdata := fun _ _ _ w => (on_PatchUserdata a, w);
     sdk_DeleteUserdata := fun _ _ w => (on_DeleteUserdata a, w);
     hlp_poweronServer := fun _ w => (on_poweronServer a, w);
     hlp_deleteStoppedServer := fun _ w => (on_deleteStoppedServer a, w);
     hlp_deleteRunningServer := fun _ w => (on_deleteRunningServer a, w);
     gb := 1000000000;
     maxAttempts := 3;
     range := map_to_list |}.

Definition a_server : Server :=
  {| Identifier := "srv-1"; Name := "web"; Image_Identifier := "img-1";
     CommercialType := "C1"; EnableIPV6 := false; PrivateIP := "10.0.0.2";
     PublicAddress_IP := "51.15.0.7"; IPV6 := None; State := "running";
     StateDetail := "booted"; Tags := [] |}.

Definition all_well : Answers :=
  {| on_GetServer := Ok a_server;
     on_PostServer := Ok "srv-1";
     on_PatchServer := Ok tt;
     on_PostVolume := Ok "vol-1";
     on_GetIPS := Ok [];
     on_GetIP := Ok {| IP_ID := "ip-1"; IP_Address := "51.15.0.7"; IP_Server := None |};
     on_NewIP := Ok {| IP_ID := "ip-1"; IP_Address := "51.15.0.7"; IP_Server := None |};
     on_AttachIP := Ok tt;
     on_DetachIP := Ok tt;
     on_DeleteIP := Ok tt;
     on_Userdata := Ok ∅;
     on_PatchUserdata := Ok tt;
     on_DeleteUserdata := Ok tt;
     on_poweronServer := Ok tt;
     on_deleteStoppedServer := Ok tt;
     on_deleteRunningServer := Ok tt |}.

Definition no_attrs : ServerAttrs :=
  {| srv_name := "web"; srv_image := "img-1"; srv_type := "C1";
     srv_bootscript := ""; srv_tags := []; srv_security_group := "";
     srv_volume := []; srv_enable_ipv6 := false;
     srv_dynamic_ip_required := false; srv_private_ip := "";
     srv_public_ip := ""; srv_public_ipv6 := ""; srv_state := "";
     srv_state_detail := ""; srv_user_data := ∅ |}.

(** A resource whose recorded state is [old] and whose configuration is
    [new]. *)
Definition resource {A} (id : string) (old new : A) : ResourceData A :=
  {| Id := id; prior := old; planned := new; current := new; ConnInfo := ∅ |}.

(** [emits P m]: every event of every run of [m] satisfies [P]. *)
Definition emits {W A} (P : Event -> Prop) (m : M W A) : Prop :=
  forall w, Forall P (trc (m w)).

(** [fails_then_succeeds N f w a]: run from the provider state [w], the
    operation [f] fails with a retryable error [N] times in a row and then
    succeeds with [a]. *)
Fixpoint fails_then_succeeds {W A} (N : nat) (f : M W (res A)) (w : W) (a : A)
  : Prop :=
  match N with
  | O => val (f w) = Ok a
  | S n =>
      exists e, val (f w) = Err e /\ retryable e = true /\
                fails_then_succeeds n f (world (f w)) a
  end.

(** An operation that times out until the provider state, a counter of its
    invocations, reaches [k]. *)
Definition flaky (k : nat) : M nat (res string) :=
  fun n => (if (n <? k)%nat then Err (TransportError "timeout") else Ok "done",
            S n, []).

(** The answer of the provider carries an ipv6 object whenever it reports
    IPv6 as enabled. *)
Definition ipv6_reported (server : Server) : Prop :=
  EnableIPV6 server = true -> IPV6 server <> None.

(** A server the provider reports with IPv6 enabled and with its address,
    and one it reports with IPv6 enabled and no ipv6 object. *)
Definition an_ipv6_server : Server :=
  {| Identifier := "srv-1"; Name := "web"; Image_Identifier := "img-1";
     CommercialType := "C1"; EnableIPV6 := true; PrivateIP := "10.0.0.2";
     PublicAddress_IP := "51.15.0.7"; IPV6 := Some "2001:db8::7";
     State := "running"; StateDetail := "booted"; Tags := [] |}.

Definition a_server_without_ipv6_object : Server :=
  {| Identifier := "srv-1"; Name := "web"; Image_Identifier := "img-1";
     CommercialType := "C1"; EnableIPV6 := true; PrivateIP := "10.0.0.2";
     PublicAddress_IP := "51.15.0.7"; IPV6 := None;
     State := "running"; StateDetail := "booted"; Tags := [] |}.

(** An error that carries the status code 404. *)
Definition not_found (e : error) : Prop :=
  match e with
  | APIError StatusCode _ => StatusCode = 404
  | _ => False
  end.

(** ** Kinds of provider calls *)

Inductive Kind : Type :=
  | KRead       (* fetches and listings: no provider state is changed *)
  | KServer     (* creation, patch, power-on and deletion of servers and volumes *)
  | KIP         (* allocation, attachment, detachment and release of addresses *)
  | KUserdata.  (* patch and deletion of user-data keys *)

Definition kind (c : Call) : Kind :=
  match c with
  | CGetServer _ | CGetIPS | CGetIP _ | CGetUserdatas _ | CGetUserdata _ _ => KRead
  | CPostServer _ | CPatchServer _ _ | CPostVolume _
  | CPoweronServer _ | CDeleteStoppedServer _ | CDeleteRunningServer _ => KServer
  | CNewIP | CAttachIP _ _ | CDetachIP _ | CDeleteIP _ => KIP
  | CPatchUserdata _ _ _ | CDeleteUserdata _ _ => KUserdata
  end.

(** The event is a provider call of one of the kinds [ks]. *)
Definition kind_in (ks : list Kind) (ev : Event) : Prop :=
  match ev with
  | ECall c => In (kind c) ks
  | ELock | EUnlock => False
  end.

(** ** The mutex in a trace *)

(** [holds cur t]: the calls issued during each period in which the mutex is
    held, in order; [cur] is [Some cs] when the mutex is held at the start of
    [t] and [cs] are the calls of the current period so far. *)
Fixpoint holds (cur : option (list Call)) (t : list Event) : list (list Call) :=
  match t with
  | [] => match cur with Some cs => [cs] | None => [] end
  | ELock :: t' => holds (Some []) t'
  | EUnlock :: t' =>
      match cur with
      | Some cs => cs :: holds None t'
      | None => holds None t'
      end
  | ECall c :: t' =>
      match cur with
      | Some cs => holds (Some (cs ++ [c])) t'
      | None => holds None t'
      end
  end.

(** The mutex is held for one mutating call at a time: all the calls of a
    period that change provider state are (attempts of) one and the same
    call. *)
Definition one_mutation_per_hold (t : list Event) : Prop :=
  Forall (fun cs => exists c, Forall (fun c' => kind c' <> KRead -> c' = c) cs)
         (holds None t).

(** A server declared with one volume of 50 GB, not yet created. *)
Definition server_with_volume : ResourceData ServerAttrs :=
  resource "" no_attrs
    (with_volume [{| size_in_gb := 50; volume_type := "l_ssd"; volume_id := "" |}]
       no_attrs).

(** A server the provider reports as stopped, and a provider that holds it. *)
Definition a_stopped_server : Server :=
  {| Identifier := "srv-1"; Name := "web"; Image_Identifier := "img-1";
     CommercialType := "C1"; EnableIPV6 := false; PrivateIP := "10.0.0.2";
     PublicAddress_IP := ""; IPV6 := None; State := "stopped";
     StateDetail := ""; Tags := [] |}.

(** [all_well] with other answers to the fetch of a server, to the listing
    of the address pool, to the power-on and to the attachment of an
    address. *)
Definition answering (srv : res Server) (pool : res (list IPAddress))
    (power attach : res unit) : Answers :=
  {| on_GetServer := srv;
     on_PostServer := Ok "srv-1";
     on_PatchServer := Ok tt;
     on_PostVolume := Ok "vol-1";
     on_GetIPS := pool;
     on_GetIP := on_GetIP all_well;
     on_NewIP := on_NewIP all_well;
     on_AttachIP := attach;
     on_DetachIP := Ok tt;
     on_DeleteIP := Ok tt;
     on_Userdata := Ok ∅;
     on_PatchUserdata := Ok tt;
     on_DeleteUserdata := Ok tt;
     on_poweronServer := power;
     on_deleteStoppedServer := Ok tt;
     on_deleteRunningServer := Ok tt |}.

(** [all_well], except that every fetch of a server or of an address fails
    with [e]. *)
Definition fetch_failing (e : error) : Answers :=
  {| on_GetServer := Err e;
     on_PostServer := Ok "srv-1";
     on_PatchServer := Ok tt;
     on_PostVolume := Ok "vol-1";
     on_GetIPS := Ok [];
     on_GetIP := Err e;
     on_NewIP := on_NewIP all_well;
     on_AttachIP := Ok tt;
     on_DetachIP := Ok tt;
     on_DeleteIP := Ok tt;
     on_Userdata := Ok ∅;
     on_PatchUserdata := Ok tt;
     on_DeleteUserdata := Ok tt;
     on_poweronServer := Ok tt;
     on_deleteStoppedServer := Ok tt;
     on_deleteRunningServer := Ok tt |}.

(** The address 51.15.0.7, free in the pool. *)
Definition a_free_ip : IPAddress :=
  {| IP_ID := "ip-1"; IP_Address := "51.15.0.7"; IP_Server := None |}.

(** A server declared with the public address 51.15.0.7, not yet created. *)
Definition server_with_public_ip : ResourceData ServerAttrs :=
  resource "" no_attrs (with_public_ip "51.15.0.7" no_attrs).

(** A server whose recorded user data holds one key. *)
Definition server_with_user_data : ResourceData ServerAttrs :=
  resource "srv-1" (with_user_data {["role" := "web"]} no_attrs)
                   (with_user_data {["role" := "web"]} no_attrs).

#[global] Instance Kind_eq_dec : EqDecision Kind.
Proof. solve_decision. Defined.

(** The event is a provider call of kind [k]. *)
Definition of_kind (k : Kind) (ev : Event) : bool :=
  match ev with
  | ECall c => bool_decide (kind c = k)
  | ELock | EUnlock => false
  end.

(** The first pool entry that carries the address [v], as the loops over the
    pool find it. *)
Definition first_with_address (v : string) (ips : list IPAddress)
  : option IPAddress :=
  List.find (fun ip => bool_decide (IP_Address ip = v)) ips.

(** The address 51.15.0.7, attached to the server [srv-1]. *)
Definition an_attached_ip : IPAddress :=
  {| IP_ID := "ip-1"; IP_Address := "51.15.0.7"; IP_Server := Some "srv-1" |}.

(** The server [srv-1], recorded without a public address and now declared
    with the address 51.15.0.7. *)
Definition server_gaining_public_ip : ResourceData ServerAttrs :=
  resource "srv-1" no_attrs (with_public_ip "51.15.0.7" no_attrs).

(** A server declared as [stopped] and with the public address 51.15.0.7,
    not yet created. *)
Definition stopped_server_with_public_ip : ResourceData ServerAttrs :=
  resource "" no_attrs (with_state "stopped" (with_public_ip "51.15.0.7" no_attrs)).

(** ** The user-data diff, as a list of calls *)

(** The deletions of the diff: one for each observed key that is not
    declared; [am] is the observed set in the order it is visited. *)
Definition userdataDeletes (id : string) (am : list (string * string))
    (m : gmap string string) : list Call :=
  flat_map (fun '(ak, _) =>
              match m !! ak with
              | None => [CDeleteUserdata id ak]
              | Some _ => []
              end) am.

(** The patches of the diff: one for each declared key whose observed value
    is missing or differs; [m] is the declared map in the order it is
    visited. *)
Definition userdataPatches (id : string) (m : list (string * string))
    (am : gmap string string) : list Call :=
  flat_map (fun '(k, v) =>
              if bool_decide (am !! k = Some v)
              then []
              else [CPatchUserdata id k v]) m.

(** The server [srv-1] recorded with no user data and declared with the key
    [role], and a provider that already holds that key. *)
Definition server_gaining_user_data : ResourceData ServerAttrs :=
  resource "srv-1" no_attrs (with_user_data {["role" := "web"]} no_attrs).

Definition holding_role : Answers :=
  {| on_GetServer := Ok a_server;
     on_PostServer := Ok "srv-1";
     on_PatchServer := Ok tt;
     on_PostVolume := Ok "vol-1";
     on_GetIPS := Ok [];
     on_GetIP := on_GetIP all_well;
     on_NewIP := on_NewIP all_well;
     on_AttachIP := Ok tt;
     on_DetachIP := Ok tt;
     on_DeleteIP := Ok tt;
     on_Userdata := Ok {["role" := "web"]};
     on_PatchUserdata := Ok tt;
     on_DeleteUserdata := Ok tt;
     on_poweronServer := Ok tt;
     on_deleteStoppedServer := Ok tt;
     on_deleteRunningServer := Ok tt |}.

(** ** The calls a verb may issue *)

(** The event is a provider call that satisfies [P]; the operations on the
    mutex do not. *)
Definition ev_calls (P : Call -> Prop) (ev : Event) : Prop :=
  match ev with
  | ECall c => P c
  | ELock | EUnlock => False
  end.

(** The fetches of Read of the server [id]. *)
Definition read_call (id : string) (c : Call) : Prop :=
  match c with
  | CGetServer i | CGetUserdatas i | CGetUserdata i _ => i = id
  | _ => False
  end.

(** The fetch of Read of the address [id]. *)
Definition ip_read_call (id : string) (c : Call) : Prop :=
  match c with
  | CGetIP i => i = id
  | _ => False
  end.

(** The calls of Update of the server [id]: every call that names a server
    names [id]. *)
Definition update_call (id : string) (c : Call) : Prop :=
  match c with
  | CPatchServer i _ | CGetServer i | CGetUserdatas i | CGetUserdata i _
  | CDeleteUserdata i _ | CPatchUserdata i _ _ | CAttachIP _ i => i = id
  | CGetIPS | CDetachIP _ => True
  | _ => False
  end.

(** The calls of Create of a server whose declared state is [stopped]. *)
Definition create_stopped_call (c : Call) : Prop :=
  match c with
  | CPostVolume _ | CPostServer _ | CPatchUserdata _ _ _
  | CGetServer _ | CGetUserdatas _ | CGetUserdata _ _ => True
  | _ => False
  end.

Definition is_PostVolume (c : Call) : Prop :=
  match c with CPostVolume _ => True | _ => False end.

Definition is_PostVolume_or_PostServer (c : Call) : Prop :=
  match c with CPostVolume _ | CPostServer _ => True | _ => False end.

Definition is_DeleteUserdata (id : string) (c : Call) : Prop :=
  match c with CDeleteUserdata i _ => i = id | _ => False end.

Definition is_PatchUserdata (id : string) (c : Call) : Prop :=
  match c with CPatchUserdata i _ _ => i = id | _ => False end.

(** The first pool entry attached to the server [id], as the detach loop of
    Update finds it. *)
Definition first_attached_to (id : string) (ips : list IPAddress)
  : option IPAddress :=
  List.find (fun ip => match IP_Server ip with
                       | Some identifier => bool_decide (identifier = id)
                       | None => false
                       end) ips.

(** The patch request that changes nothing. *)
Definition empty_patch : ServerPatchDefinition :=
  {| SP_Name := None; SP_Tags := None; SP_EnableIPV6 := None;
     SP_DynamicIPRequired := None; SP_SecurityGroup := None |}.


(** A server the provider reports with IPv6 disabled, and resource data
    that still records an IPv6 address. *)
Definition server_with_stale_ipv6 : ResourceData ServerAttrs :=
  resource "srv-1" (with_public_ipv6 "2001:db8::1" no_attrs)
                   (with_public_ipv6 "2001:db8::1" no_attrs).

(** The server [srv-1], recorded with one tag and now declared without
    tags. *)
Definition server_losing_tags : ResourceData ServerAttrs :=
  resource "srv-1" (with_tags ["blue"] no_attrs) no_attrs.

(** The server [srv-1], recorded with the public address 51.15.0.7 and now
    declared without one. *)
Definition server_losing_public_ip : ResourceData ServerAttrs :=
  resource "srv-1" (with_public_ip "51.15.0.7" no_attrs) no_attrs.

(** [all_well], except that the patch of a server fails with [e]. *)
Definition patch_failing (e : error) : Answers :=
  {| on_GetServer := Ok a_server;
     on_PostServer := Ok "srv-1";
     on_PatchServer := Err e;
     on_PostVolume := Ok "vol-1";
     on_GetIPS := Ok [];
     on_GetIP := on_GetIP all_well;
     on_NewIP := on_NewIP all_well;
     on_AttachIP := Ok tt;
     on_DetachIP := Ok tt;
     on_DeleteIP := Ok tt;
     on_Userdata := Ok ∅;
     on_PatchUserdata := Ok tt;
     on_DeleteUserdata := Ok tt;
     on_poweronServer := Ok tt;
     on_deleteStoppedServer := Ok tt;
     on_deleteRunningServer := Ok tt |}.

(** [all_well], except that the creation of a volume fails with [ev] and the
    creation of a server with [es]. *)
Definition creation_failing (ev es : res string) : Answers :=
  {| on_GetServer := Ok a_server;
     on_PostServer := es;
     on_PatchServer := Ok tt;
     on_PostVolume := ev;
     on_GetIPS := Ok [];
     on_GetIP := on_GetIP all_well;
     on_NewIP := on_NewIP all_well;
     on_AttachIP := Ok tt;
     on_DetachIP := Ok tt;
     on_DeleteIP := Ok tt;
     on_Userdata := Ok ∅;
     on_PatchUserdata := Ok tt;
     on_DeleteUserdata := Ok tt;
     on_poweronServer := Ok tt;
     on_deleteStoppedServer := Ok tt;
     on_deleteRunningServer := Ok tt |}.

(** A volume declared with the size [-1]. *)
Definition a_negative_volume : VolumeAttrs :=
  {| size_in_gb := -1; volume_type := "l_ssd"; volume_id := "" |}.

(** Two declared volumes, the first of size zero. *)
Definition two_volumes : list VolumeAttrs :=
  [{| size_in_gb := 0; volume_type := "l_ssd"; volume_id := "" |};
   {| size_in_gb := 50; volume_type := "l_ssd"; volume_id := "" |}].

(** The address [ip-1], recorded as attached to [srv-1] and now declared
    without a server. *)
Definition ip_losing_server : ResourceData IPAttrs :=
  resource "ip-1" {| ip_server := "srv-1"; ip_ip := "51.15.0.7" |}
                  {| ip_server := ""; ip_ip := "51.15.0.7" |}.

(** [all_well], except that deletions end as [r]. *)
Definition deletion_ending (r : res unit) : Answers :=
  {| on_GetServer := Ok a_server;
     on_PostServer := Ok "srv-1";
     on_PatchServer := Ok tt;
     on_PostVolume := Ok "vol-1";
     on_GetIPS := Ok [];
     on_GetIP := on_GetIP all_well;
     on_NewIP := on_NewIP all_well;
     on_AttachIP := Ok tt;
     on_DetachIP := Ok tt;
     on_DeleteIP := r;
     on_Userdata := Ok ∅;
     on_PatchUserdata := Ok tt;
     on_DeleteUserdata := Ok tt;
     on_poweronServer := Ok tt;
     on_deleteStoppedServer := r;
     on_deleteRunningServer := r |}.

(** A server declared with two user-data entries, not yet created. *)
Definition server_with_two_entries : ResourceData ServerAttrs :=
  resource "" no_attrs
    (with_user_data (<["role" := "web"]> (<["zone" := "par1"]> ∅)) no_attrs).

(** The call that writes the user-data entry [kv] of the server [id]. *)
Definition patch_entry (id : string) (kv : string * string) : Event :=
  ECall (CPatchUserdata id (fst kv) (snd kv)).

(** The address [ip-1], recorded as attached to [srv-1]. *)
Definition ip_recorded_attached : ResourceData IPAttrs :=
  resource "ip-1" {| ip_server := "srv-1"; ip_ip := "51.15.0.7" |}
                  {| ip_server := "srv-1"; ip_ip := "51.15.0.7" |}.

(** * Properties *)

(** ** Reasoning about runs *)

Section Runs.

Context {W : Type}.

Lemma bind_trc {A B} (m : M W A) (k : A -> M W B) w :
  trc (bind m k w) = trc (m w) ++ trc (k (val (m w)) (world (m w))).
Proof.
  unfold bind. destruct (m w) as [[a w1] t1]. cbn.
  destruct (k a w1) as [[b w2] t2]. reflexivity.
Qed.

Lemma bind_val {A B} (m : M W A) (k : A -> M W B) w :
  val (bind m k w) = val (k (val (m w)) (world (m w))).
Proof.
  unfold bind. destruct (m w) as [[a w1] t1]. cbn.
  destruct (k a w1) as [[b w2] t2]. reflexivity.
Qed.

Lemma bind_world {A B} (m : M W A) (k : A -> M W B) w :
  world (bind m k w) = world (k (val (m w)) (world (m w))).
Proof.
  unfold bind. destruct (m w) as [[a w1] t1]. cbn.
  destruct (k a w1) as [[b w2] t2]. reflexivity.
Qed.

Lemma emits_ret {A} P (a : A) : emits P (ret (W:=W) a).
Proof. intros w. constructor. Qed.

Lemma emits_bind {A B} P (m : M W A) (k : A -> M W B) :
  emits P m -> (forall a, emits P (k a)) -> emits P (bind m k).
Proof.
  intros Hm Hk w. rewrite bind_trc. apply Forall_app. split; [apply Hm | apply Hk].
Qed.

Lemma emits_call {A} (P : Event -> Prop) c (f : W -> A * W) :
  P (ECall c) -> emits P (call c f).
Proof.
  intros Hc w. unfold call. destruct (f w) as [a w1]. cbn.
  constructor; [exact Hc | constructor].
Qed.

Lemma emits_retry_loop {A} P n (f : M W (res A)) :
  emits P f -> emits P (retry_loop n f).
Proof.
  intros Hf. induction n as [|n IH]; cbn [retry_loop].
  - apply emits_bind; [exact Hf|]. intros [a|e]; apply emits_ret.
  - apply emits_bind; [exact Hf|]. intros [a|e]; [apply emits_ret|].
    destruct (retryable e); [exact IH | apply emits_ret].
Qed.

Lemma emits_retry {A} P (E : Env W) (f : M W (res A)) :
  emits P f -> emits P (retry E f).
Proof. apply emits_retry_loop. Qed.

End Runs.

(** ** The volume size validator *)

(** C6, as stated, fails: the validator accepts a size of zero, which is
    outside the range 1 to 150. *)
Lemma size_validator_accepts_zero :
  ~ (accepted (size_in_gb_ValidateFunc 0 "size_in_gb") = true <-> 1 <= 0 <= 150).
Proof. cbn. intros [H _]. specialize (H eq_refl). lia. Qed.

(** C6, amended: the validator accepts a size if and only if it is at most
    150; it accepts 150, rejects 151, and accepts zero and negative sizes. *)
Theorem size_validator_upper_bound_only :
  (forall v k, accepted (size_in_gb_ValidateFunc v k) = true <-> v <= 150) /\
  accepted (size_in_gb_ValidateFunc 150 "size_in_gb") = true /\
  accepted (size_in_gb_ValidateFunc 151 "size_in_gb") = false /\
  accepted (size_in_gb_ValidateFunc 0 "size_in_gb") = true /\
  accepted (size_in_gb_ValidateFunc (-1) "size_in_gb") = true.
Proof.
  split; [|repeat split].
  intros v k. unfold size_in_gb_ValidateFunc, accepted.
  rewrite Z.gtb_ltb. destruct (Z.ltb_spec 150 v) as [Hv|Hv]; cbn.
  - split; [discriminate | lia].
  - split; [intros _; exact Hv | reflexivity].
Qed.

(** ** The retry helper *)

Section Retry.

Context {W A : Type} (f : M W (res A)) (count : W -> nat).
Hypothesis count_invocation : forall w, count (world (f w)) = S (count w).

Lemma retry_loop_succeeds N : forall n w a,
  (N <= n)%nat ->
  fails_then_succeeds N f w a ->
  val (retry_loop n f w) = Ok a /\
  count (world (retry_loop n f w)) = (count w + N + 1)%nat.
Proof.
  induction N as [|N IH]; intros n w a Hn Hrun.
  - cbn in Hrun.
    assert (Hone : val (retry_loop n f w) = Ok a /\
                   world (retry_loop n f w) = world (f w)).
    { destruct n; cbn [retry_loop]; rewrite bind_val, bind_world, Hrun; auto. }
    destruct Hone as [-> ->]. rewrite count_invocation. split; [reflexivity | lia].
  - destruct Hrun as (e & He & Hre & Hrun).
    destruct n as [|n]; [lia|].
    cbn [retry_loop]. rewrite bind_val, bind_world, He, Hre.
    destruct (IH n (world (f w)) a ltac:(lia) Hrun) as [-> ->].
    rewrite count_invocation. split; [reflexivity | lia].
Qed.

Lemma retry_loop_terminal n w e :
  val (f w) = Err e ->
  retryable e = false ->
  val (retry_loop n f w) = Err e /\
  count (world (retry_loop n f w)) = (count w + 1)%nat.
Proof.
  intros He Hre.
  assert (Hone : val (retry_loop n f w) = Err e /\
                 world (retry_loop n f w) = world (f w)).
  { destruct n; cbn [retry_loop]; rewrite bind_val, bind_world, He, ?Hre; auto. }
  destruct Hone as [-> ->]. rewrite count_invocation. split; [reflexivity | lia].
Qed.

Lemma retry_loop_bounded n : forall w,
  (count (world (retry_loop n f w)) <= count w + S n)%nat.
Proof.
  induction n as [|n IH]; intros w; cbn [retry_loop]; rewrite bind_world.
  - destruct (val (f w)); cbn; rewrite count_invocation; lia.
  - destruct (val (f w)) as [a|e]; cbn; [rewrite count_invocation; lia|].
    destruct (retryable e); cbn.
    + specialize (IH (world (f w))). rewrite count_invocation in IH. lia.
    + rewrite count_invocation. lia.
Qed.

End Retry.

(** C5: an operation that fails with a retryable error [N] times, [N] below
    the attempt budget, and then succeeds: [retry] returns that success
    after exactly [N + 1] invocations, which is within the budget.  An
    operation that returns a terminal error is invoked exactly once and
    [retry] returns that error.  No run of [retry] invokes the operation
    more often than the budget allows (and at least once).  Invocations are
    counted by any observation [count] of the provider state that every
    invocation increases by one. *)
Theorem retry_attempt_count :
  forall (W A : Type) (E : Env W) (f : M W (res A)) (count : W -> nat),
    (forall w, count (world (f w)) = S (count w)) ->
    (forall N w a,
        (N < maxAttempts E)%nat ->
        fails_then_succeeds N f w a ->
        val (retry E f w) = Ok a /\
        count (world (retry E f w)) = (count w + N + 1)%nat /\
        (N + 1 <= maxAttempts E)%nat) /\
    (forall w e,
        val (f w) = Err e ->
        retryable e = false ->
        val (retry E f w) = Err e /\
        count (world (retry E f w)) = (count w + 1)%nat) /\
    (forall w,
        (count (world (retry E f w)) <= count w + Nat.max 1 (maxAttempts E))%nat).
Proof.
  intros W A E f count Hcount. split; [|split].
  - intros N w a HN Hrun.
    destruct (retry_loop_succeeds f count Hcount N (maxAttempts E - 1) w a
                ltac:(lia) Hrun) as [Hval Hcnt].
    split; [exact Hval | split; [exact Hcnt | lia]].
  - intros w e He Hre.
    apply (retry_loop_terminal f count Hcount); assumption.
  - intros w. unfold retry.
    pose proof (retry_loop_bounded f count Hcount (maxAttempts E - 1) w). lia.
Qed.

(** With a budget of three attempts, an operation that times out twice is
    invoked three times and its result is returned. *)
Lemma retry_attempt_count_witness :
  val (retry (canned nat all_well) (flaky 2) 0%nat) = Ok "done" /\
  world (retry (canned nat all_well) (flaky 2) 0%nat) = 3%nat.
Proof.
  destruct (retry_attempt_count nat string (canned nat all_well) (flaky 2) id
              (fun w => eq_refl)) as [Hok _].
  destruct (Hok 2%nat 0%nat "done") as (Hval & Hcount & _).
  - cbn. lia.
  - cbn. eexists. split; [reflexivity|]. split; [reflexivity|].
    eexists. split; [reflexivity|]. split; reflexivity.
  - split; [exact Hval | exact Hcount].
Defined.

(** ** Read and the status code 404 *)

Lemma retry_terminal_run {W A} (E : Env W) (f : M W (res A)) w e w' t :
  f w = (Err e, w', t) ->
  retryable e = false ->
  retry E f w = (Err e, w', t).
Proof.
  intros Hf He. unfold retry.
  destruct (maxAttempts E - 1)%nat; cbn [retry_loop]; unfold bind;
    rewrite Hf, ?He; cbn; rewrite app_nil_r; reflexivity.
Qed.

Lemma not_found_terminal e : not_found e -> retryable e = false.
Proof. destruct e; cbn; try tauto. intros ->. reflexivity. Qed.

Lemma call_run {W A} c (f : W -> A * W) w a w' :
  f w = (a, w') -> call c f w = (a, w', [ECall c]).
Proof. intros Hf. unfold call. rewrite Hf. reflexivity. Qed.

Section ReadErrors.

Context {W : Type} (E : Env W).

Lemma server_read_fetch_error d w e w' t :
  retry E (GetServer E (Id d)) w = (Err e, w', t) ->
  (not_found e -> resourceScalewayServerRead E d w = (None, SetId "" d, w', t)) /\
  (~ not_found e -> resourceScalewayServerRead E d w = (Some e, d, w', t)).
Proof.
  intros Hfetch. unfold resourceScalewayServerRead, bind. rewrite Hfetch.
  destruct e as [code msg| | | |]; cbn; rewrite ?app_nil_r; try tauto.
  destruct (decide (code = 404)); cbn; rewrite app_nil_r; tauto.
Qed.

Lemma ip_read_fetch_error d w e w' t :
  retry E (GetIP E (Id d)) w = (Err e, w', t) ->
  (not_found e -> resourceScalewayIPRead E d w = (None, SetId "" d, w', t)) /\
  (~ not_found e -> resourceScalewayIPRead E d w = (Some e, d, w', t)).
Proof.
  intros Hfetch. unfold resourceScalewayIPRead, bind. rewrite Hfetch.
  destruct e as [code msg| | | |]; cbn; rewrite ?app_nil_r; try tauto.
  destruct (decide (code = 404)); cbn; rewrite app_nil_r; tauto.
Qed.

End ReadErrors.

(** C1: when the fetch of the identifier reports an error with status code
    404, Read clears the identifier, which is the empty string on return,
    and returns no error, for the server and for the IP resource, whether
    the SDK reports the 404 at once or [retry] surfaces it; when the fetch
    ends in any other error, Read returns that error and leaves the resource
    data, the identifier included, as it was. *)
Theorem read_not_found_clears_identifier :
  forall (W : Type) (E : Env W) (e : error) (w w' : W),
    (forall d, sdk_GetServer E (Id d) w = (Err e, w') -> not_found e ->
       resourceScalewayServerRead E d w
       = (None, SetId "" d, w', [ECall (CGetServer (Id d))]) /\
       fst (val (resourceScalewayServerRead E d w)) = None /\
       Id (snd (val (resourceScalewayServerRead E d w))) = "") /\
    (forall d, sdk_GetIP E (Id d) w = (Err e, w') -> not_found e ->
       resourceScalewayIPRead E d w
       = (None, SetId "" d, w', [ECall (CGetIP (Id d))]) /\
       fst (val (resourceScalewayIPRead E d w)) = None /\
       Id (snd (val (resourceScalewayIPRead E d w))) = "") /\
    (forall d t, retry E (GetServer E (Id d)) w = (Err e, w', t) ->
       (not_found e ->
        resourceScalewayServerRead E d w = (None, SetId "" d, w', t) /\
        fst (val (resourceScalewayServerRead E d w)) = None /\
        Id (snd (val (resourceScalewayServerRead E d w))) = "") /\
       (~ not_found e ->
        resourceScalewayServerRead E d w = (Some e, d, w', t) /\
        fst (val (resourceScalewayServerRead E d w)) = Some e /\
        Id (snd (val (resourceScalewayServerRead E d w))) = Id d)) /\
    (forall d t, retry E (GetIP E (Id d)) w = (Err e, w', t) ->
       (not_found e ->
        resourceScalewayIPRead E d w = (None, SetId "" d, w', t) /\
        fst (val (resourceScalewayIPRead E d w)) = None /\
        Id (snd (val (resourceScalewayIPRead E d w))) = "") /\
       (~ not_found e ->
        resourceScalewayIPRead E d w = (Some e, d, w', t) /\
        fst (val (resourceScalewayIPRead E d w)) = Some e /\
        Id (snd (val (resourceScalewayIPRead E d w))) = Id d)).
Proof.
  intros W E e w w'. repeat apply conj.
  - intros d Hsdk Hnf.
    assert (Hrun : resourceScalewayServerRead E d w
                   = (None, SetId "" d, w', [ECall (CGetServer (Id d))])).
    { apply (server_read_fetch_error E d w e w'); [|exact Hnf].
      apply retry_terminal_run; [|apply not_found_terminal, Hnf].
      apply call_run, Hsdk. }
    rewrite Hrun. repeat split.
  - intros d Hsdk Hnf.
    assert (Hrun : resourceScalewayIPRead E d w
                   = (None, SetId "" d, w', [ECall (CGetIP (Id d))])).
    { apply (ip_read_fetch_error E d w e w'); [|exact Hnf].
      apply retry_terminal_run; [|apply not_found_terminal, Hnf].
      apply call_run, Hsdk. }
    rewrite Hrun. repeat split.
  - intros d t Hfetch.
    destruct (server_read_fetch_error E d w e w' t Hfetch) as [Hgone Hother].
    split; [intros Hnf; rewrite (Hgone Hnf) | intros Hnf; rewrite (Hother Hnf)];
      repeat split.
  - intros d t Hfetch.
    destruct (ip_read_fetch_error E d w e w' t Hfetch) as [Hgone Hother].
    split; [intros Hnf; rewrite (Hgone Hnf) | intros Hnf; rewrite (Hother Hnf)];
      repeat split.
Qed.

(** A provider that answers every fetch with a 404: both Reads report no
    error and return an empty identifier.  A provider that answers with a
    403: both Reads return the 403 and the identifier is the one they were
    called with. *)
Lemma read_not_found_clears_identifier_witness :
  let gone := APIError 404 "not found" in
  let denied := APIError 403 "forbidden" in
  let dS := resource "srv-1" no_attrs no_attrs in
  let dI := resource "ip-1" {| ip_server := ""; ip_ip := "51.15.0.7" |}
                            {| ip_server := ""; ip_ip := "51.15.0.7" |} in
  ((fst (val (resourceScalewayServerRead (canned unit (fetch_failing gone)) dS tt))
    = None /\
    Id (snd (val (resourceScalewayServerRead (canned unit (fetch_failing gone)) dS tt)))
    = "") /\
   (fst (val (resourceScalewayIPRead (canned unit (fetch_failing gone)) dI tt))
    = None /\
    Id (snd (val (resourceScalewayIPRead (canned unit (fetch_failing gone)) dI tt)))
    = "")) /\
  ((fst (val (resourceScalewayServerRead (canned unit (fetch_failing denied)) dS tt))
    = Some denied /\
    Id (snd (val (resourceScalewayServerRead (canned unit (fetch_failing denied)) dS tt)))
    = "srv-1") /\
   (fst (val (resourceScalewayIPRead (canned unit (fetch_failing denied)) dI tt))
    = Some denied /\
    Id (snd (val (resourceScalewayIPRead (canned unit (fetch_failing denied)) dI tt)))
    = "ip-1")).
Proof.
  intros gone denied dS dI. split.
  - destruct (read_not_found_clears_identifier unit
                (canned unit (fetch_failing gone)) gone tt tt)
      as (HS & HI & _ & _).
    split.
    + destruct (HS dS eq_refl eq_refl) as (_ & Herr & Hid). split; assumption.
    + destruct (HI dI eq_refl eq_refl) as (_ & Herr & Hid). split; assumption.
  - destruct (read_not_found_clears_identifier unit
                (canned unit (fetch_failing denied)) denied tt tt)
      as (_ & _ & HS & HI).
    split.
    + destruct (HS dS [ECall (CGetServer "srv-1")] eq_refl) as [_ Hother].
      destruct (Hother ltac:(cbn; discriminate)) as (_ & Herr & Hid).
      split; assumption.
    + destruct (HI dI [ECall (CGetIP "ip-1")] eq_refl) as [_ Hother].
      destruct (Hother ltac:(cbn; discriminate)) as (_ & Herr & Hid).
      split; assumption.
Defined.

(** ** The calls each function can issue *)

Ltac emits_step :=
  lazymatch goal with
  | |- emits _ (ret _) => apply emits_ret
  | |- emits _ (bind _ _) => apply emits_bind; [|intros ?]
  | |- emits _ (retry _ _) => apply emits_retry
  | |- emits _ (call _ _) => apply emits_call; cbn; assumption
  | |- emits _ (match ?x with _ => _ end) => destruct x
  end.

Ltac emits_calls :=
  unfold GetServer, PostServer, PatchServer, PostVolume, GetIPS, GetIP, NewIP,
    AttachIP, DetachIP, DeleteIP, GetUserdatas, GetUserdata, PatchUserdata,
    DeleteUserdata, poweronServer, deleteStoppedServer, deleteRunningServer;
  repeat emits_step.

Section Emits.

Context {W : Type} (E : Env W) (ks : list Kind).

Lemma emits_attachIP serverID address :
  In KRead ks -> In KIP ks -> emits (kind_in ks) (attachIP E serverID address).
Proof.
  intros HR HI. unfold attachIP. emits_calls.
  induction a as [|ip ips IH]; cbn [attachIP_range]; emits_calls. exact IH.
Qed.

Lemma emits_readUserDatas id :
  In KRead ks -> emits (kind_in ks) (readUserDatas E id).
Proof.
  intros HR. unfold readUserDatas. emits_calls.
  generalize (∅ : gmap string string).
  induction a as [|k keys IH]; intros m; cbn [readUserDatas_range]; emits_calls.
  apply IH.
Qed.

Lemma emits_ServerRead d :
  In KRead ks -> emits (kind_in ks) (resourceScalewayServerRead E d).
Proof.
  intros HR. unfold resourceScalewayServerRead. emits_calls.
  apply emits_readUserDatas, HR.
Qed.

Lemma emits_IPRead d :
  In KRead ks -> emits (kind_in ks) (resourceScalewayIPRead E d).
Proof. intros HR. unfold resourceScalewayIPRead. emits_calls. Qed.

Lemma emits_createVolumes serverName volumes : forall i done Volumes,
  In KServer ks ->
  emits (kind_in ks) (createVolumes E serverName i volumes done Volumes).
Proof.
  induction volumes as [|volume volumes IH]; intros i done Volumes HS;
    cbn [createVolumes]; emits_calls; apply IH, HS.
Qed.

Lemma emits_createUserdata id ud :
  In KUserdata ks -> emits (kind_in ks) (createUserdata E id ud).
Proof.
  intros HU. induction ud as [|[k v] ud IH]; cbn [createUserdata]; emits_calls.
  exact IH.
Qed.

Lemma emits_createServer d :
  In KServer ks -> In KUserdata ks -> emits (kind_in ks) (createServer E d).
Proof.
  intros HS HU. unfold createServer. emits_calls.
  - apply emits_createVolumes, HS.
  - apply emits_createUserdata, HU.
Qed.

Lemma emits_createStart id d :
  In KRead ks -> In KServer ks -> In KIP ks ->
  emits (kind_in ks) (createStart E id d).
Proof.
  intros HR HS HI. unfold createStart. emits_calls;
    first [apply emits_attachIP; assumption | apply emits_ServerRead, HR].
Qed.

Lemma emits_updatePatch d :
  In KServer ks -> emits (kind_in ks) (updatePatch E d).
Proof. intros HS. unfold updatePatch. emits_calls. Qed.

Lemma emits_updateAttach ips v id :
  In KIP ks -> emits (kind_in ks) (updateAttach E ips v id).
Proof.
  intros HI. induction ips as [|ip ips IH]; cbn [updateAttach]; emits_calls.
  exact IH.
Qed.

Lemma emits_updateDetach ips id :
  In KIP ks -> emits (kind_in ks) (updateDetach E ips id).
Proof.
  intros HI. induction ips as [|ip ips IH]; cbn [updateDetach]; emits_calls;
    exact IH.
Qed.

Lemma emits_updatePublicIP d :
  In KRead ks -> In KIP ks -> emits (kind_in ks) (updatePublicIP E d).
Proof.
  intros HR HI. unfold updatePublicIP. emits_calls;
    first [apply emits_updateAttach, HI | apply emits_updateDetach, HI].
Qed.

Lemma emits_updateUserdataDelete id am m :
  In KUserdata ks -> emits (kind_in ks) (updateUserdataDelete E id am m).
Proof.
  intros HU. induction am as [|[ak av] am IH]; cbn [updateUserdataDelete];
    emits_calls; exact IH.
Qed.

Lemma emits_updateUserdataPatch id m am :
  In KUserdata ks -> emits (kind_in ks) (updateUserdataPatch E id m am).
Proof.
  intros HU. induction m as [|[k v] m IH]; cbn [updateUserdataPatch];
    emits_calls; exact IH.
Qed.

Lemma emits_updateUserdata d :
  In KRead ks -> In KUserdata ks -> emits (kind_in ks) (updateUserdata E d).
Proof.
  intros HR HU. unfold updateUserdata. emits_calls;
    first [ apply emits_readUserDatas, HR
          | apply emits_updateUserdataDelete, HU
          | apply emits_updateUserdataPatch, HU ].
Qed.

End Emits.

(** ** The mutex *)

Lemma locked_run {W A} (body : M W A) w :
  locked body w
  = (val (body w), world (body w), ELock :: trc (body w) ++ [EUnlock]).
Proof.
  unfold locked, bind, Lock, Unlock, emit, ret.
  destruct (body w) as [[a w1] t1]. reflexivity.
Qed.

Lemma calls_of_trace ks (t : list Event) :
  Forall (kind_in ks) t ->
  exists cs, t = map ECall cs /\ Forall (fun c => In (kind c) ks) cs.
Proof.
  induction 1 as [|ev t Hev _ (cs & -> & Hcs)].
  - exists []. split; [reflexivity | constructor].
  - destruct ev as [| |c]; cbn in Hev; try contradiction.
    exists (c :: cs). split; [reflexivity | constructor; assumption].
Qed.

Lemma locked_calls {W A} ks (body : M W A) w :
  emits (kind_in ks) body ->
  exists cs, trc (locked body w) = ELock :: map ECall cs ++ [EUnlock] /\
             Forall (fun c => In (kind c) ks) cs.
Proof.
  intros Hbody. rewrite locked_run. cbn.
  destruct (calls_of_trace ks _ (Hbody w)) as (cs & -> & Hcs).
  exists cs. split; [reflexivity | exact Hcs].
Qed.


Section Mutex.

Context {W : Type} (E : Env W).

Lemma ServerCreate_trace d w :
  exists cs,
    trc (resourceScalewayServerCreate E d w) = ELock :: map ECall cs ++ [EUnlock] /\
    Forall (fun c => In (kind c) [KRead; KServer; KIP; KUserdata]) cs.
Proof.
  unfold resourceScalewayServerCreate. apply locked_calls.
  apply emits_bind; [apply emits_createServer; cbn; tauto|].
  intros [[id|err] d']; [apply emits_createStart; cbn; tauto | apply emits_ret].
Qed.

Lemma ServerUpdate_trace d w :
  exists cs,
    trc (resourceScalewayServerUpdate E d w) = ELock :: map ECall cs ++ [EUnlock] /\
    Forall (fun c => In (kind c) [KRead; KServer; KIP; KUserdata]) cs.
Proof.
  unfold resourceScalewayServerUpdate. apply locked_calls.
  apply emits_bind; [apply emits_updatePatch; cbn; tauto|].
  intros [err|]; [apply emits_ret|].
  apply emits_bind; [apply emits_updatePublicIP; cbn; tauto|].
  intros [err|]; [apply emits_ret|].
  apply emits_bind; [apply emits_updateUserdata; cbn; tauto|].
  intros [err|]; [apply emits_ret|].
  apply emits_ServerRead; cbn; tauto.
Qed.

Lemma ServerDelete_trace d w :
  exists cs,
    trc (resourceScalewayServerDelete E d w) = ELock :: map ECall cs ++ [EUnlock] /\
    Forall (fun c => In (kind c) [KRead; KServer]) cs.
Proof.
  unfold resourceScalewayServerDelete. apply locked_calls.
  assert (HR : In KRead [KRead; KServer]) by (cbn; tauto).
  assert (HS : In KServer [KRead; KServer]) by (cbn; tauto).
  emits_calls.
Qed.

Lemma IPUpdate_trace d w :
  exists cs,
    trc (resourceScalewayIPUpdate E d w) = ELock :: map ECall cs ++ [EUnlock] /\
    Forall (fun c => In (kind c) [KRead; KIP]) cs.
Proof.
  unfold resourceScalewayIPUpdate. apply locked_calls.
  assert (HR : In KRead [KRead; KIP]) by (cbn; tauto).
  assert (HI : In KIP [KRead; KIP]) by (cbn; tauto).
  emits_calls; apply emits_IPRead, HR.
Qed.

Lemma IPDelete_trace d w :
  exists cs,
    trc (resourceScalewayIPDelete E d w) = ELock :: map ECall cs ++ [EUnlock] /\
    Forall (fun c => In (kind c) [KIP]) cs.
Proof.
  unfold resourceScalewayIPDelete. apply locked_calls.
  assert (HI : In KIP [KIP]) by (cbn; tauto).
  emits_calls.
Qed.

End Mutex.

Lemma Forall_eq_repeat {A} (x : A) (l : list A) :
  Forall (fun y => y = x) l -> l = repeat x (length l).
Proof. induction 1 as [|y l -> _ IH]; cbn; [reflexivity | f_equal; exact IH]. Qed.

Lemma IPCreate_trace {W} (E : Env W) d w :
  exists n rest,
    trc (resourceScalewayIPCreate E d w)
    = ELock :: repeat (ECall CNewIP) n ++ EUnlock :: rest /\
    (rest = [] \/ exists cs, rest = ELock :: map ECall cs ++ [EUnlock]).
Proof.
  assert (Hnew : emits (fun ev => ev = ECall CNewIP) (retry E (NewIP E))).
  { apply emits_retry, emits_call. reflexivity. }
  specialize (Hnew w). apply Forall_eq_repeat in Hnew.
  unfold resourceScalewayIPCreate, bind, Lock, Unlock, emit.
  destruct (retry E (NewIP E) w) as [[r w1] t1]. cbn [trc snd] in Hnew.
  exists (length t1).
  destruct r as [resp|err].
  - destruct (IPUpdate_trace E (SetId (IP_ID resp) d) w1) as (cs & Hcs & _).
    destruct (resourceScalewayIPUpdate E (SetId (IP_ID resp) d) w1)
      as [[r2 w2] t2].
    cbn in Hcs. rewrite Hcs. eexists. cbn. rewrite <- Hnew.
    split; [reflexivity|]. right. exists cs. reflexivity.
  - exists []. cbn. rewrite <- Hnew. split; [reflexivity | left; reflexivity].
Qed.

(** C8, as stated, fails: creating a server with one volume, the mutex is
    taken once and the volume creation and the server creation are both
    issued before it is released. *)
Lemma create_holds_mutex_across_calls :
  ~ one_mutation_per_hold
      (trc (resourceScalewayServerCreate (canned unit all_well)
              server_with_volume tt)).
Proof.
  unfold one_mutation_per_hold. vm_compute. intros H.
  inversion H as [|cs l [c Hc] _]; subst.
  inversion Hc as [|c1 l1 H1 Hc1]; subst.
  inversion Hc1 as [|c2 l2 H2 _]; subst.
  assert (E1 : CPostVolume
                 {| VD_Size := 50000000000; VD_Type := "l_ssd"; VD_Name := "web-50" |}
               = c) by (apply H1; discriminate).
  rewrite <- E1 in H2. discriminate H2. discriminate.
Qed.

(** C8, amended: Create, Update and Delete of a server and Update and Delete
    of an IP take the mutex once, on entry, and release it once, on return:
    every provider call of the invocation, the closing Read included, is
    issued while it is held.  Create of an IP holds it for the attempts of
    the allocation call only and releases it before it delegates to Update,
    which takes it again for the whole update. *)
Theorem mutex_held_for_whole_invocation :
  forall (W : Type) (E : Env W),
    (forall d w, exists cs,
        trc (resourceScalewayServerCreate E d w) = ELock :: map ECall cs ++ [EUnlock]) /\
    (forall d w, exists cs,
        trc (resourceScalewayServerUpdate E d w) = ELock :: map ECall cs ++ [EUnlock]) /\
    (forall d w, exists cs,
        trc (resourceScalewayServerDelete E d w) = ELock :: map ECall cs ++ [EUnlock]) /\
    (forall d w, exists cs,
        trc (resourceScalewayIPUpdate E d w) = ELock :: map ECall cs ++ [EUnlock]) /\
    (forall d w, exists cs,
        trc (resourceScalewayIPDelete E d w) = ELock :: map ECall cs ++ [EUnlock]) /\
    (forall d w, exists n rest,
        trc (resourceScalewayIPCreate E d w)
        = ELock :: repeat (ECall CNewIP) n ++ EUnlock :: rest /\
        (rest = [] \/ exists cs, rest = ELock :: map ECall cs ++ [EUnlock])).
Proof.
  intros W E. repeat apply conj; intros d w.
  - destruct (ServerCreate_trace E d w) as (cs & Hcs & _). exists cs. exact Hcs.
  - destruct (ServerUpdate_trace E d w) as (cs & Hcs & _). exists cs. exact Hcs.
  - destruct (ServerDelete_trace E d w) as (cs & Hcs & _). exists cs. exact Hcs.
  - destruct (IPUpdate_trace E d w) as (cs & Hcs & _). exists cs. exact Hcs.
  - destruct (IPDelete_trace E d w) as (cs & Hcs & _). exists cs. exact Hcs.
  - apply IPCreate_trace.
Qed.

(** ** Delete of a server *)

Section Delete.

Context {W : Type} (E : Env W).

Lemma ServerDelete_run d w s w1 t1 r w2 :
  retry E (GetServer E (Id d)) w = (Ok s, w1, t1) ->
  (if bool_decide (State s = "stopped")
   then hlp_deleteStoppedServer E s w1
   else hlp_deleteRunningServer E s w1) = (r, w2) ->
  resourceScalewayServerDelete E d w
  = (err_of r,
     if bool_decide (State s = "stopped") then d
     else match r with Ok _ => SetId "" d | Err _ => d end,
     w2,
     ELock :: t1 ++
       [ECall (if bool_decide (State s = "stopped")
               then CDeleteStoppedServer (Identifier s)
               else CDeleteRunningServer (Identifier s)); EUnlock]).
Proof.
  intros Hget Hdel. unfold resourceScalewayServerDelete.
  rewrite locked_run. unfold bind. rewrite Hget.
  destruct (bool_decide (State s = "stopped")).
  - unfold deleteStoppedServer, call. rewrite Hdel. cbn.
    rewrite <- app_assoc. reflexivity.
  - unfold deleteRunningServer, call. rewrite Hdel. cbn.
    rewrite <- app_assoc. destruct r; reflexivity.
Qed.

Lemma ServerDelete_fetch_error d w e w1 t1 :
  retry E (GetServer E (Id d)) w = (Err e, w1, t1) ->
  resourceScalewayServerDelete E d w = (Some e, d, w1, ELock :: t1 ++ [EUnlock]).
Proof.
  intros Hget. unfold resourceScalewayServerDelete.
  rewrite locked_run. unfold bind. rewrite Hget. cbn.
  rewrite app_nil_r. reflexivity.
Qed.

End Delete.

(** C3 does not hold of the code: the Delete of a server that the provider
    reports as [stopped] succeeds and returns with the identifier still
    set; only the path for a server that is not stopped clears it. *)
Theorem delete_stopped_server_keeps_identifier :
  let E := canned unit (answering (Ok a_stopped_server) (Ok []) (Ok tt) (Ok tt)) in
  let d := resource "srv-1" no_attrs no_attrs in
  resourceScalewayServerDelete E d tt
  = (None, d, tt,
     [ELock; ECall (CGetServer "srv-1"); ECall (CDeleteStoppedServer "srv-1");
      EUnlock]) /\
  Id d = "srv-1".
Proof. split; reflexivity. Qed.

(** ** Create of a server *)

Section Create.

Context {W : Type} (E : Env W).

Lemma ServerCreate_run d w r d1 w1 t1 :
  createServer E d w = (r, d1, w1, t1) ->
  resourceScalewayServerCreate E d w
  = match r with
    | Err err => (Some err, d1, w1, ELock :: t1 ++ [EUnlock])
    | Ok id =>
        (val (createStart E id d1 w1), world (createStart E id d1 w1),
         ELock :: t1 ++ trc (createStart E id d1 w1) ++ [EUnlock])
    end.
Proof.
  intros Hcreate. unfold resourceScalewayServerCreate.
  rewrite locked_run. unfold bind. rewrite Hcreate.
  destruct r as [id|err]; cbn.
  - destruct (createStart E id d1 w1) as [[x w2] t2]. cbn.
    rewrite <- app_assoc. reflexivity.
  - rewrite app_nil_r. reflexivity.
Qed.

Lemma attachIP_lists_pool serverID address w :
  exists t, trc (attachIP E serverID address w) = ECall CGetIPS :: t.
Proof.
  unfold attachIP, bind, GetIPS, call.
  destruct (sdk_GetIPS E w) as [r w1].
  destruct r as [ips|err]; cbn.
  - destruct (attachIP_range E ips serverID address w1) as [[x w2] t2].
    cbn. eexists. reflexivity.
  - eexists. reflexivity.
Qed.

(** The last step of Create when the declared state is not [stopped] and the
    power-on fails. *)
Lemma createStart_poweron_error id d w e1 w2 :
  Get srv_state d <> "stopped" ->
  hlp_poweronServer E id w = (Err e1, w2) ->
  createStart E id d w
  = if snd (GetOk_string srv_public_ip d)
    then
      (match val (attachIP E (Id d) (Get srv_public_ip d) w2) with
       | Some e2 => Some e2
       | None => Some e1
       end, d,
       world (attachIP E (Id d) (Get srv_public_ip d) w2),
       ECall (CPoweronServer id)
         :: trc (attachIP E (Id d) (Get srv_public_ip d) w2))
    else (Some e1, d, w2, [ECall (CPoweronServer id)]).
Proof.
  intros Hstate Hpower. unfold createStart.
  rewrite bool_decide_eq_false_2 by exact Hstate. cbn [negb].
  unfold bind, poweronServer, call. rewrite Hpower.
  unfold GetOk_string. cbn [snd err_of].
  destruct (negb (bool_decide (Get srv_public_ip d = ""))).
  - destruct (attachIP E (Id d) (Get srv_public_ip d) w2) as [[r2 w3] t3].
    cbn. destruct r2; cbn; rewrite app_nil_r; reflexivity.
  - reflexivity.
Qed.

End Create.

(** C7: in Create, once the server is created and the declared state is not
    [stopped], a failed power-on does not stop the attachment of the
    declared public address: the pool is listed right after the power-on
    call.  If the attachment fails too, Create returns the attachment error
    alone; if it succeeds, or if no public address is declared, Create
    returns the power-on error. *)
Theorem create_attach_error_shadows_poweron_error :
  forall (W : Type) (E : Env W) d w id d1 w1 t1 e1 w2,
    createServer E d w = (Ok id, d1, w1, t1) ->
    Get srv_state d1 <> "stopped" ->
    hlp_poweronServer E id w1 = (Err e1, w2) ->
    (forall v r2 w3 t3,
        GetOk_string srv_public_ip d1 = (v, true) ->
        attachIP E (Id d1) v w2 = (r2, w3, t3) ->
        (exists t3', t3 = ECall CGetIPS :: t3') /\
        resourceScalewayServerCreate E d w
        = (Some (match r2 with Some e2 => e2 | None => e1 end), d1, w3,
           ELock :: t1 ++ ECall (CPoweronServer id) :: t3 ++ [EUnlock])) /\
    (snd (GetOk_string srv_public_ip d1) = false ->
     resourceScalewayServerCreate E d w
     = (Some e1, d1, w2, ELock :: t1 ++ [ECall (CPoweronServer id); EUnlock])).
Proof.
  intros W E d w id d1 w1 t1 e1 w2 Hcreate Hstate Hpower.
  rewrite (ServerCreate_run E d w _ _ _ _ Hcreate).
  rewrite (createStart_poweron_error E id d1 w1 e1 w2 Hstate Hpower).
  split.
  - intros v r2 w3 t3 Hok Hattach.
    assert (Hv : Get srv_public_ip d1 = v) by (apply (f_equal fst) in Hok; exact Hok).
    apply (f_equal snd) in Hok. cbn [snd] in Hok. rewrite Hok, Hv, Hattach.
    split.
    + destruct (attachIP_lists_pool E (Id d1) v w2) as [t3' Ht3].
      rewrite Hattach in Ht3. exists t3'. exact Ht3.
    + cbn. destruct r2; reflexivity.
  - intros Hno. rewrite Hno. reflexivity.
Qed.

(** The power-on fails with a 500 and the attachment with a 409: Create
    returns the 409. *)
Lemma create_attach_error_shadows_poweron_error_witness :
  let E := canned unit
             (answering (Ok a_server) (Ok [a_free_ip])
                (Err (APIError 500 "power on failed"))
                (Err (APIError 409 "address in use"))) in
  fst (val (resourceScalewayServerCreate E server_with_public_ip tt))
  = Some (APIError 409 "address in use").
Proof.
  intros E.
  destruct (create_attach_error_shadows_poweron_error unit E
              server_with_public_ip tt "srv-1"
              (SetId "srv-1" server_with_public_ip) tt
              [ECall (CPostServer
                 {| SD_Name := "web"; SD_Image := Some "img-1";
                    SD_Organization := "org"; SD_EnableIPV6 := false;
                    SD_SecurityGroup := ""; SD_DynamicIPRequired := Some false;
                    SD_CommercialType := "C1"; SD_Bootscript := None;
                    SD_Volumes := ∅; SD_Tags := [] |})]
              (APIError 500 "power on failed") tt) as [Hattach _].
  - reflexivity.
  - discriminate.
  - reflexivity.
  - destruct (Hattach "51.15.0.7" (Some (APIError 409 "address in use")) tt
                [ECall CGetIPS; ECall (CAttachIP "ip-1" "srv-1")]) as [_ Hrun].
    + reflexivity.
    + reflexivity.
    + rewrite Hrun. reflexivity.
Defined.

(** ** Read of a server and its user data *)

Section ReadUserdata.

Context {W : Type} (E : Env W).

Lemma ServerRead_user_data d w server w1 t1 ud w2 t2 :
  ipv6_reported server ->
  retry E (GetServer E (Id d)) w = (Ok server, w1, t1) ->
  readUserDatas E (Id d) w1 = (ud, None, w2, t2) ->
  fst (val (resourceScalewayServerRead E d w)) = None /\
  Get srv_user_data (snd (val (resourceScalewayServerRead E d w)))
  = if (0 <? size ud)%nat then ud else Get srv_user_data d.
Proof.
  intros Hv6 Hget Hud. unfold resourceScalewayServerRead, bind. rewrite Hget.
  destruct (EnableIPV6 server) eqn:Hen;
    [destruct (IPV6 server) as [address|] eqn:Hobj;
       [|exfalso; exact (Hv6 Hen Hobj)]|];
    cbn [Id SetConnInfo SetAttr]; rewrite Hud;
    destruct (0 <? size ud)%nat; cbn; split; try reflexivity;
    clear; destruct d as [? ? ? [] ?]; reflexivity.
Qed.

Lemma ServerRead_panics d w server w1 t1 :
  retry E (GetServer E (Id d)) w = (Ok server, w1, t1) ->
  EnableIPV6 server = true ->
  IPV6 server = None ->
  exists d',
    resourceScalewayServerRead E d w = (Some nil_dereference, d', w1, t1) /\
    Id d' = Id d /\
    Get srv_user_data d' = Get srv_user_data d /\
    Get srv_public_ipv6 d' = Get srv_public_ipv6 d.
Proof.
  intros Hget Hen Hobj. unfold resourceScalewayServerRead, bind.
  rewrite Hget, Hen, Hobj. cbn. rewrite app_nil_r.
  eexists. split; [reflexivity|].
  clear. destruct d as [? ? ? [] ?]. repeat split.
Qed.

Lemma readUserDatas_no_keys id w w1 :
  sdk_GetUserdatas E id w = (Ok [], w1) ->
  readUserDatas E id w = (∅, None, w1, [ECall (CGetUserdatas id)]).
Proof.
  intros Hkeys. unfold readUserDatas, bind, GetUserdatas, call.
  rewrite Hkeys. reflexivity.
Qed.

End ReadUserdata.

(** C10: Read of a server writes the fetched user data into [user_data] only
    when the fetched map is not empty.  When the provider reports no
    user-data key, [user_data] keeps the value it had, so the deletion of
    all keys on the provider's side does not reach the resource data.  Read
    gets as far as the user data, and then succeeds, when the fetched server
    carries an ipv6 object whenever it reports IPv6 as enabled; when it
    reports IPv6 as enabled and carries none, Read panics right after the
    fetch of the server, before any user data is read, and [user_data] is
    as it was. *)
Theorem read_keeps_user_data_when_none_fetched :
  forall (W : Type) (E : Env W) d w server w1 t1,
    retry E (GetServer E (Id d)) w = (Ok server, w1, t1) ->
    (ipv6_reported server ->
     (forall ud w2 t2,
         readUserDatas E (Id d) w1 = (ud, None, w2, t2) ->
         fst (val (resourceScalewayServerRead E d w)) = None /\
         (ud <> ∅ ->
          Get srv_user_data (snd (val (resourceScalewayServerRead E d w))) = ud) /\
         (ud = ∅ ->
          Get srv_user_data (snd (val (resourceScalewayServerRead E d w)))
          = Get srv_user_data d)) /\
     (forall w2,
         sdk_GetUserdatas E (Id d) w1 = (Ok [], w2) ->
         fst (val (resourceScalewayServerRead E d w)) = None /\
         Get srv_user_data (snd (val (resourceScalewayServerRead E d w)))
         = Get srv_user_data d)) /\
    (EnableIPV6 server = true ->
     IPV6 server = None ->
     fst (val (resourceScalewayServerRead E d w)) = Some nil_dereference /\
     trc (resourceScalewayServerRead E d w) = t1 /\
     Get srv_user_data (snd (val (resourceScalewayServerRead E d w)))
     = Get srv_user_data d).
Proof.
  intros W E d w server w1 t1 Hget. split; [intros Hv6; split|].
  - intros ud w2 t2 Hud.
    destruct (ServerRead_user_data E d w server w1 t1 ud w2 t2 Hv6 Hget Hud)
      as [Herr Hdata].
    split; [exact Herr|]. rewrite Hdata. split.
    + intros Hne. destruct (size ud) eqn:Hsize; [|reflexivity].
      apply map_size_empty_iff in Hsize. contradiction.
    + intros ->. rewrite map_size_empty. reflexivity.
  - intros w2 Hkeys.
    pose proof (readUserDatas_no_keys E (Id d) w1 w2 Hkeys) as Hud.
    destruct (ServerRead_user_data E d w server w1 t1 _ _ _ Hv6 Hget Hud)
      as [Herr Hdata].
    split; [exact Herr|]. rewrite Hdata, map_size_empty. reflexivity.
  - intros Hen Hobj.
    destruct (ServerRead_panics E d w server w1 t1 Hget Hen Hobj)
      as (d' & -> & _ & Hdata & _).
    repeat split. exact Hdata.
Qed.

(** The recorded user data holds the key [role]; the provider now has no
    key: after Read the key is still recorded.  And a server reported with
    IPv6 enabled and no ipv6 object: Read panics after the one fetch, and
    the key is still recorded. *)
Lemma read_keeps_user_data_when_none_fetched_witness :
  (fst (val (resourceScalewayServerRead (canned unit all_well)
               server_with_user_data tt)) = None /\
   Get srv_user_data
     (snd (val (resourceScalewayServerRead (canned unit all_well)
                  server_with_user_data tt)))
   = {["role" := "web"]}) /\
  (let E := canned unit
              (answering (Ok a_server_without_ipv6_object) (Ok []) (Ok tt) (Ok tt)) in
   fst (val (resourceScalewayServerRead E server_with_user_data tt))
   = Some nil_dereference /\
   trc (resourceScalewayServerRead E server_with_user_data tt)
   = [ECall (CGetServer "srv-1")] /\
   Get srv_user_data (snd (val (resourceScalewayServerRead E server_with_user_data tt)))
   = {["role" := "web"]}).
Proof.
  split.
  - destruct (read_keeps_user_data_when_none_fetched unit (canned unit all_well)
                server_with_user_data tt a_server tt
                [ECall (CGetServer "srv-1")] eq_refl) as [Hnone _].
    destruct (Hnone ltac:(intros H; discriminate H)) as [_ Hnokeys].
    destruct (Hnokeys tt eq_refl) as [Herr Hdata].
    split; [exact Herr | rewrite Hdata; reflexivity].
  - intros E.
    destruct (read_keeps_user_data_when_none_fetched unit E
                server_with_user_data tt a_server_without_ipv6_object tt
                [ECall (CGetServer "srv-1")] eq_refl) as [_ Hpanic].
    destruct (Hpanic eq_refl eq_refl) as (Herr & Htrc & Hdata).
    split; [exact Herr|]. split; [exact Htrc|]. rewrite Hdata. reflexivity.
Defined.

(** ** Update of a server *)

Section Update.

Context {W : Type} (E : Env W).

Lemma ServerUpdate_run d w :
  resourceScalewayServerUpdate E d w
  = let p := updatePatch E d w in
    match val p with
    | Some err => (Some err, d, world p, ELock :: trc p ++ [EUnlock])
    | None =>
        let q := updatePublicIP E d (world p) in
        match val q with
        | Some err => (Some err, d, world q, ELock :: trc p ++ trc q ++ [EUnlock])
        | None =>
            let u := updateUserdata E d (world q) in
            match val u with
            | Some err =>
                (Some err, d, world u,
                 ELock :: trc p ++ trc q ++ trc u ++ [EUnlock])
            | None =>
                let r := resourceScalewayServerRead E d (world u) in
                (fst (val r), snd (val r), world r,
                 ELock :: trc p ++ trc q ++ trc u ++ trc r ++ [EUnlock])
            end
        end
    end.
Proof.
  unfold resourceScalewayServerUpdate. rewrite locked_run. unfold bind.
  destruct (updatePatch E d w) as [[e1 w1] t1]. cbn.
  destruct e1 as [err|]; cbn; [rewrite app_nil_r; reflexivity|].
  destruct (updatePublicIP E d w1) as [[e2 w2] t2]. cbn.
  destruct e2 as [err|]; cbn; [rewrite app_nil_r, <- app_assoc; reflexivity|].
  destruct (updateUserdata E d w2) as [[e3 w3] t3]. cbn.
  destruct e3 as [err|]; cbn;
    [rewrite app_nil_r, <- !app_assoc; reflexivity|].
  destruct (resourceScalewayServerRead E d w3) as [[[r d'] w4] t4]. cbn.
  rewrite <- !app_assoc. reflexivity.
Qed.

Lemma no_call_of_kind {A} ks k (m : M W A) w :
  emits (kind_in ks) m -> ~ In k ks ->
  List.filter (of_kind k) (trc (m w)) = [].
Proof.
  intros Hm Hk. specialize (Hm w).
  induction Hm as [|ev t Hev _ IH]; cbn; [reflexivity|].
  destruct ev as [| |c]; cbn in *; try contradiction.
  rewrite bool_decide_eq_false_2; [exact IH|]. intros <-. contradiction.
Qed.

(** The calls of kind [k] of an Update are those of its three steps. *)
Lemma ServerUpdate_calls_of_kind k d w :
  k <> KRead -> k <> KServer ->
  List.filter (of_kind k) (trc (resourceScalewayServerUpdate E d w))
  = let p := updatePatch E d w in
    match val p with
    | Some _ => []
    | None =>
        let q := updatePublicIP E d (world p) in
        List.filter (of_kind k) (trc q) ++
        match val q with
        | Some _ => []
        | None => List.filter (of_kind k) (trc (updateUserdata E d (world q)))
        end
    end.
Proof.
  intros HR HS. rewrite ServerUpdate_run. cbn zeta.
  assert (Hp : List.filter (of_kind k) (trc (updatePatch E d w)) = []).
  { apply (no_call_of_kind [KServer]); [apply emits_updatePatch; cbn; tauto|].
    cbn. intuition congruence. }
  assert (Hr : forall w', List.filter (of_kind k)
                 (trc (resourceScalewayServerRead E d w')) = []).
  { intros w'. apply (no_call_of_kind [KRead]);
      [apply emits_ServerRead; cbn; tauto|]. cbn. intuition congruence. }
  destruct (val (updatePatch E d w));
    [|destruct (val (updatePublicIP E d (world (updatePatch E d w))));
      [|destruct (val (updateUserdata E d
                  (world (updatePublicIP E d (world (updatePatch E d w)))))) ]];
    cbn [trc snd List.filter of_kind];
    rewrite !List.filter_app, ?Hp, ?Hr; cbn; rewrite ?app_nil_r; reflexivity.
Qed.

Lemma retry_loop_call_trace {A} c (f : W -> res A * W) n : forall w,
  exists k, trc (retry_loop n (call c f) w) = repeat (ECall c) k /\
            (1 <= k <= S n)%nat.
Proof.
  induction n as [|n IH]; intros w; cbn [retry_loop];
    destruct (f w) as [r w1] eqn:Hf;
    rewrite bind_trc, (call_run c f w r w1 Hf); cbn [trc val world fst snd].
  - exists 1%nat. destruct r; cbn; split; try reflexivity; lia.
  - destruct r as [a|e]; [exists 1%nat; cbn; split; [reflexivity | lia]|].
    destruct (retryable e); [|exists 1%nat; cbn; split; [reflexivity | lia]].
    destruct (IH w1) as (k & -> & Hk). exists (S k). split; [reflexivity | lia].
Qed.

Lemma retry_call_trace {A} c (f : W -> res A * W) w :
  exists k, trc (retry E (call c f) w) = repeat (ECall c) k /\
            (1 <= k <= Nat.max 1 (maxAttempts E))%nat.
Proof.
  destruct (retry_loop_call_trace c f (maxAttempts E - 1) w) as (k & Hk & Hb).
  exists k. split; [exact Hk | lia].
Qed.

Lemma filter_repeat_call k c n :
  kind c = k ->
  List.filter (of_kind k) (repeat (ECall c) n) = repeat (ECall c) n.
Proof.
  intros Hc. induction n as [|n IH]; cbn; [reflexivity|].
  rewrite bool_decide_eq_true_2 by exact Hc. f_equal. exact IH.
Qed.

Lemma updateAttach_run ips v id w :
  updateAttach E ips v id w
  = match first_with_address v ips with
    | Some ip =>
        let r := retry E (AttachIP E (IP_ID ip) id) w in
        (err_of (val r), world r, trc r)
    | None => (None, w, [])
    end.
Proof.
  induction ips as [|ip ips IH]; cbn [updateAttach first_with_address List.find];
    [reflexivity|].
  destruct (decide (IP_Address ip = v)) as [Heq|Hne].
  - rewrite bool_decide_eq_true_2 by exact Heq. unfold bind.
    destruct (retry E (AttachIP E (IP_ID ip) id) w) as [[r w1] t1]. cbn.
    rewrite app_nil_r. reflexivity.
  - rewrite bool_decide_eq_false_2 by exact Hne. exact IH.
Qed.

Lemma updateDetach_run ips id w :
  updateDetach E ips id w = (None, w, []) \/
  exists ip, updateDetach E ips id w
             = (let r := retry E (DetachIP E (IP_ID ip)) w in
                (err_of (val r), world r, trc r)).
Proof.
  induction ips as [|ip ips IH]; cbn [updateDetach]; [left; reflexivity|].
  destruct (match IP_Server ip with
            | Some identifier => bool_decide (identifier = id)
            | None => false
            end); [right | exact IH].
  exists ip. unfold bind.
  destruct (retry E (DetachIP E (IP_ID ip)) w) as [[r w1] t1]. cbn.
  rewrite app_nil_r. reflexivity.
Qed.

(** The attach/detach diff of one Update: attempts of one call. *)
Lemma updatePublicIP_actions d w :
  exists a n,
    List.filter (of_kind KIP) (trc (updatePublicIP E d w)) = repeat (ECall a) n /\
    (n <= Nat.max 1 (maxAttempts E))%nat /\
    ((exists ipID, a = CAttachIP ipID (Id d)) \/ (exists ipID, a = CDetachIP ipID)).
Proof.
  assert (Hnone : exists a n,
             @nil Event = repeat (ECall a) n /\
             (n <= Nat.max 1 (maxAttempts E))%nat /\
             ((exists ipID, a = CAttachIP ipID (Id d)) \/
              (exists ipID, a = CDetachIP ipID))).
  { exists (CDetachIP ""), 0%nat. repeat split; [lia | right; eauto]. }
  unfold updatePublicIP. destruct (HasChange srv_public_ip d); [|exact Hnone].
  rewrite bind_trc, List.filter_app.
  rewrite (no_call_of_kind [KRead] KIP (retry E (GetIPS E)) w);
    [|apply emits_retry, emits_call; cbn; tauto | cbn; intuition congruence].
  cbn [app]. destruct (val (retry E (GetIPS E) w)) as [ips|err]; [|exact Hnone].
  unfold GetOk_string. destruct (negb (bool_decide (Get srv_public_ip d = ""))).
  - rewrite updateAttach_run.
    destruct (first_with_address (Get srv_public_ip d) ips) as [ip|];
      [|exact Hnone].
    cbn [trc snd]. unfold AttachIP.
    destruct (retry_call_trace (CAttachIP (IP_ID ip) (Id d))
                (sdk_AttachIP E (IP_ID ip) (Id d))
                (world (retry E (GetIPS E) w))) as (n & -> & Hn).
    exists (CAttachIP (IP_ID ip) (Id d)), n.
    rewrite filter_repeat_call by reflexivity.
    repeat split; [lia | left; eauto].
  - destruct (updateDetach_run ips (Id d) (world (retry E (GetIPS E) w)))
      as [->|[ip ->]]; [exact Hnone|].
    cbn [trc snd]. unfold DetachIP.
    destruct (retry_call_trace (CDetachIP (IP_ID ip))
                (sdk_DetachIP E (IP_ID ip))
                (world (retry E (GetIPS E) w))) as (n & -> & Hn).
    exists (CDetachIP (IP_ID ip)), n.
    rewrite filter_repeat_call by reflexivity.
    repeat split; [lia | right; eauto].
Qed.

End Update.

(** ** The attach/detach diff of Update *)

(** C2, as stated, fails: the declared address is already attached to this
    very server in the pool, and Update issues an AttachIP all the same. *)
Lemma update_attaches_address_already_attached :
  let E := canned unit
             (answering (Ok a_server) (Ok [an_attached_ip]) (Ok tt) (Ok tt)) in
  let d := server_gaining_public_ip in
  HasChange srv_public_ip d = true /\
  IP_Address an_attached_ip = Get srv_public_ip d /\
  IP_Server an_attached_ip = Some (Id d) /\
  List.filter (of_kind KIP) (trc (resourceScalewayServerUpdate E d tt)) <> [].
Proof. repeat split. vm_compute. discriminate. Qed.

(** C2, amended: all the attach and detach calls of one Update are attempts
    of one and the same call, an AttachIP for this server or a DetachIP,
    never both, and no more attempts than [retry] allows.  When the pool
    lists an entry with the declared address, the AttachIP of the first such
    entry is issued whether or not that entry is already attached to this
    server. *)
Theorem update_ip_diff_one_action :
  forall (W : Type) (E : Env W) d w,
    (exists a n,
        List.filter (of_kind KIP) (trc (resourceScalewayServerUpdate E d w))
        = repeat (ECall a) n /\
        (n <= Nat.max 1 (maxAttempts E))%nat /\
        ((exists ipID, a = CAttachIP ipID (Id d)) \/
         (exists ipID, a = CDetachIP ipID))) /\
    (forall ips ip,
        val (updatePatch E d w) = None ->
        HasChange srv_public_ip d = true ->
        val (retry E (GetIPS E) (world (updatePatch E d w))) = Ok ips ->
        Get srv_public_ip d <> "" ->
        first_with_address (Get srv_public_ip d) ips = Some ip ->
        In (ECall (CAttachIP (IP_ID ip) (Id d)))
           (trc (resourceScalewayServerUpdate E d w))).
Proof.
  intros W E d w.
  assert (Hud : forall w', List.filter (of_kind KIP)
                  (trc (updateUserdata E d w')) = []).
  { intros w'. apply (no_call_of_kind [KRead; KUserdata]);
      [apply emits_updateUserdata; cbn; tauto | cbn; intuition congruence]. }
  split.
  - rewrite (ServerUpdate_calls_of_kind E KIP) by discriminate. cbn zeta.
    destruct (val (updatePatch E d w)).
    + exists (CDetachIP ""), 0%nat. repeat split; [lia | right; eauto].
    + destruct (updatePublicIP_actions E d (world (updatePatch E d w)))
        as (a & n & Hq & Hn & Ha).
      exists a, n. rewrite Hq.
      destruct (val (updatePublicIP E d (world (updatePatch E d w))));
        rewrite ?Hud, app_nil_r; auto.
  - intros ips ip Hpatch Hchange Hpool Hdeclared Hfirst.
    apply (List.filter_In (of_kind KIP)).
    rewrite (ServerUpdate_calls_of_kind E KIP) by discriminate. cbn zeta.
    rewrite Hpatch. apply in_or_app. left.
    unfold updatePublicIP. rewrite Hchange, bind_trc, List.filter_app, Hpool.
    apply in_or_app. right.
    unfold GetOk_string. rewrite bool_decide_eq_false_2 by exact Hdeclared.
    cbn [negb]. rewrite updateAttach_run, Hfirst. cbn [trc snd]. unfold AttachIP.
    destruct (retry_call_trace E (CAttachIP (IP_ID ip) (Id d))
                (sdk_AttachIP E (IP_ID ip) (Id d))
                (world (retry E (GetIPS E) (world (updatePatch E d w)))))
      as (n & -> & Hn).
    rewrite filter_repeat_call by reflexivity.
    destruct n as [|n]; [lia | left; reflexivity].
Qed.

(** The address declared for [srv-1] is listed as attached to [srv-1]:
    Update attaches it again. *)
Lemma update_ip_diff_one_action_witness :
  let E := canned unit
             (answering (Ok a_server) (Ok [an_attached_ip]) (Ok tt) (Ok tt)) in
  In (ECall (CAttachIP "ip-1" "srv-1"))
     (trc (resourceScalewayServerUpdate E server_gaining_public_ip tt)).
Proof.
  intros E.
  destruct (update_ip_diff_one_action unit E server_gaining_public_ip tt)
    as [_ Hattach].
  apply (Hattach [an_attached_ip] an_attached_ip).
  - reflexivity.
  - reflexivity.
  - reflexivity.
  - discriminate.
  - reflexivity.
Defined.

(** ** A declared address that the pool does not list *)

Section MissingAddress.

Context {W : Type} (E : Env W).







End MissingAddress.




(** ** The user-data diff of Update *)

Section Userdata.

Context {W : Type} (E : Env W).

Lemma updateUserdataDelete_run id am m : forall w,
  val (updateUserdataDelete E id am m w) = None ->
  trc (updateUserdataDelete E id am m w) = map ECall (userdataDeletes id am m).
Proof.
  induction am as [|[ak av] am IH]; intros w; cbn [updateUserdataDelete];
    [reflexivity|].
  unfold userdataDeletes. cbn [flat_map]. fold (userdataDeletes id am m).
  destruct (m !! ak); [exact (IH w)|].
  destruct (sdk_DeleteUserdata E id ak w) as [r w1] eqn:Hsdk.
  rewrite bind_val, bind_trc. unfold DeleteUserdata.
  rewrite (call_run _ _ w r w1 Hsdk). cbn [val world trc fst snd].
  destruct r as [[]|err]; [|discriminate].
  intros Hval. rewrite (IH w1 Hval). reflexivity.
Qed.

Lemma updateUserdataPatch_run id m am : forall w,
  val (updateUserdataPatch E id m am w) = None ->
  trc (updateUserdataPatch E id m am w) = map ECall (userdataPatches id m am).
Proof.
  induction m as [|[k v] m IH]; intros w; cbn [updateUserdataPatch];
    [reflexivity|].
  unfold userdataPatches. cbn [flat_map]. fold (userdataPatches id m am).
  destruct (bool_decide (am !! k = Some v)); cbn [negb]; [exact (IH w)|].
  destruct (sdk_PatchUserdata E id k v w) as [r w1] eqn:Hsdk.
  rewrite bind_val, bind_trc. unfold PatchUserdata.
  rewrite (call_run _ _ w r w1 Hsdk). cbn [val world trc fst snd].
  destruct r as [[]|err]; [|discriminate].
  intros Hval. rewrite (IH w1 Hval). reflexivity.
Qed.

Lemma updateUserdataDelete_noop id am m w :
  userdataDeletes id am m = [] ->
  updateUserdataDelete E id am m w = (None, w, []).
Proof.
  induction am as [|[ak av] am IH]; cbn [updateUserdataDelete]; [reflexivity|].
  unfold userdataDeletes. cbn [flat_map]. fold (userdataDeletes id am m).
  destruct (m !! ak); [exact IH | discriminate].
Qed.

Lemma updateUserdataPatch_noop id m am w :
  userdataPatches id m am = [] ->
  updateUserdataPatch E id m am w = (None, w, []).
Proof.
  induction m as [|[k v] m IH]; cbn [updateUserdataPatch]; [reflexivity|].
  unfold userdataPatches. cbn [flat_map]. fold (userdataPatches id m am).
  destruct (bool_decide (am !! k = Some v)); [exact IH | discriminate].
Qed.

Lemma declared_user_data (d : ResourceData ServerAttrs) :
  (let '(om, ok) := GetOk_map srv_user_data d in if ok then om else ∅)
  = Get srv_user_data d.
Proof.
  unfold GetOk_map. destruct (decide (Get srv_user_data d = ∅)) as [Heq|Hne].
  - rewrite bool_decide_eq_true_2 by exact Heq. cbn. symmetry. exact Heq.
  - rewrite bool_decide_eq_false_2 by exact Hne. reflexivity.
Qed.

Lemma range_entry (m : gmap string string) k v :
  range_ok E -> In (k, v) (range E m) <-> m !! k = Some v.
Proof.
  intros Hrange. rewrite <- list_elem_of_In, (Hrange m).
  apply elem_of_map_to_list.
Qed.

Lemma in_userdataDeletes id am m c :
  In c (userdataDeletes id am m) <->
  exists ak av, In (ak, av) am /\ m !! ak = None /\ c = CDeleteUserdata id ak.
Proof.
  unfold userdataDeletes. rewrite in_flat_map. split.
  - intros ([ak av] & Hin & Hc). destruct (m !! ak) eqn:Hm; cbn in Hc; [tauto|].
    destruct Hc as [<-|[]]. exists ak, av. auto.
  - intros (ak & av & Hin & Hm & ->). exists (ak, av). rewrite Hm. cbn. auto.
Qed.

Lemma in_userdataPatches id m am c :
  In c (userdataPatches id m am) <->
  exists k v, In (k, v) m /\ am !! k <> Some v /\ c = CPatchUserdata id k v.
Proof.
  unfold userdataPatches. rewrite in_flat_map. split.
  - intros ([k v] & Hin & Hc).
    destruct (decide (am !! k = Some v)) as [Heq|Hne].
    + rewrite bool_decide_eq_true_2 in Hc by exact Heq. destruct Hc.
    + rewrite bool_decide_eq_false_2 in Hc by exact Hne.
      destruct Hc as [<-|[]]. exists k, v. auto.
  - intros (k & v & Hin & Hne & ->). exists (k, v).
    rewrite bool_decide_eq_false_2 by exact Hne. cbn. auto.
Qed.

Lemma filter_userdata_calls cs :
  Forall (fun c => kind c = KUserdata) cs ->
  List.filter (of_kind KUserdata) (map ECall cs) = map ECall cs.
Proof.
  induction 1 as [|c cs Hc _ IH]; cbn; [reflexivity|].
  rewrite bool_decide_eq_true_2 by exact Hc. f_equal. exact IH.
Qed.

Lemma userdataDeletes_kind id am m :
  Forall (fun c => kind c = KUserdata) (userdataDeletes id am m).
Proof.
  apply List.Forall_forall. intros c Hc. apply in_userdataDeletes in Hc.
  destruct Hc as (ak & av & _ & _ & ->). reflexivity.
Qed.

Lemma userdataPatches_kind id m am :
  Forall (fun c => kind c = KUserdata) (userdataPatches id m am).
Proof.
  apply List.Forall_forall. intros c Hc. apply in_userdataPatches in Hc.
  destruct Hc as (k & v & _ & _ & ->). reflexivity.
Qed.

(** The user-data calls of the step, once the observed set is read. *)
Lemma updateUserdata_calls d w am w1 t1 :
  HasChange srv_user_data d = true ->
  readUserDatas E (Id d) w = (am, None, w1, t1) ->
  let m := Get srv_user_data d in
  let deletes := userdataDeletes (Id d) (range E am) m in
  let patches := userdataPatches (Id d) (range E m) am in
  (deletes = [] -> patches = [] ->
   List.filter (of_kind KUserdata) (trc (updateUserdata E d w)) = []) /\
  (val (updateUserdata E d w) = None ->
   List.filter (of_kind KUserdata) (trc (updateUserdata E d w))
   = map ECall (deletes ++ patches)).
Proof.
  intros Hchange Hread m deletes patches.
  assert (Ht1 : List.filter (of_kind KUserdata) t1 = []).
  { pose proof (no_call_of_kind [KRead] KUserdata (readUserDatas E (Id d)) w) as H.
    rewrite Hread in H. apply H;
      [apply emits_readUserDatas; cbn; tauto | cbn; intuition congruence]. }
  unfold updateUserdata. rewrite Hchange, bind_val, bind_trc, Hread.
  cbn [val world trc fst snd]. rewrite declared_user_data. fold m.
  rewrite List.filter_app, Ht1. cbn [app]. rewrite bind_val, bind_trc.
  fold deletes. split.
  - intros Hd Hp. unfold deletes in Hd. unfold patches in Hp.
    rewrite (updateUserdataDelete_noop (Id d) _ m w1 Hd).
    cbn [val world trc fst snd].
    rewrite (updateUserdataPatch_noop (Id d) _ am w1 Hp). reflexivity.
  - destruct (val (updateUserdataDelete E (Id d) (range E am) m w1)) eqn:Hdel;
      [discriminate|].
    intros Hpatch. rewrite List.filter_app.
    rewrite (updateUserdataDelete_run (Id d) _ m w1 Hdel).
    rewrite (updateUserdataPatch_run (Id d) _ am _ Hpatch).
    rewrite map_app.
    rewrite (filter_userdata_calls _ (userdataDeletes_kind _ _ _)).
    rewrite (filter_userdata_calls _ (userdataPatches_kind _ _ _)).
    reflexivity.
Qed.

End Userdata.

Lemma flat_map_nil {A B} (f : A -> list B) (l : list A) :
  (forall x, In x l -> f x = []) -> flat_map f l = [].
Proof.
  induction l as [|x l IH]; intros Hf; cbn; [reflexivity|].
  rewrite (Hf x) by (left; reflexivity). apply IH.
  intros y Hy. apply Hf. right. exact Hy.
Qed.

Lemma in_map_ECall c cs : In (ECall c) (map ECall cs) <-> In c cs.
Proof.
  rewrite in_map_iff. split.
  - intros (c' & Heq & Hin). injection Heq as <-. exact Hin.
  - intros Hin. exists c. auto.
Qed.

(** C4: when the user-data set that Update reads from the provider equals
    the declared map, the whole Update issues no DeleteUserdata and no
    PatchUserdata call.  In general, when the user-data step succeeds, it
    issues a DeleteUserdata exactly for the observed keys that are not
    declared and a PatchUserdata exactly for the declared keys whose
    observed value is missing or differs; a key with the same value on both
    sides gets neither. *)
Theorem update_user_data_idempotent :
  forall (W : Type) (E : Env W) d w,
    range_ok E ->
    let w1 := world (updatePatch E d w) in
    let w2 := world (updatePublicIP E d w1) in
    let m := Get srv_user_data d in
    forall am w3 t3,
      readUserDatas E (Id d) w2 = (am, None, w3, t3) ->
      (am = m ->
       List.filter (of_kind KUserdata) (trc (resourceScalewayServerUpdate E d w))
       = []) /\
      (val (updatePatch E d w) = None ->
       val (updatePublicIP E d w1) = None ->
       HasChange srv_user_data d = true ->
       val (updateUserdata E d w2) = None ->
       forall c,
         In (ECall c)
            (List.filter (of_kind KUserdata)
               (trc (resourceScalewayServerUpdate E d w))) <->
         (exists k, is_Some (am !! k) /\ m !! k = None /\
                    c = CDeleteUserdata (Id d) k) \/
         (exists k v, m !! k = Some v /\ am !! k <> Some v /\
                      c = CPatchUserdata (Id d) k v)).
Proof.
  intros W E d w Hrange w1 w2 m am w3 t3 Hread.
  assert (Hq : List.filter (of_kind KUserdata) (trc (updatePublicIP E d w1)) = []).
  { apply (no_call_of_kind [KRead; KIP]);
      [apply emits_updatePublicIP; cbn; tauto | cbn; intuition congruence]. }
  rewrite (ServerUpdate_calls_of_kind E KUserdata) by discriminate. cbn zeta.
  fold w1. rewrite Hq. cbn [app]. fold w2. split.
  - intros Ham.
    destruct (val (updatePatch E d w)); [reflexivity|].
    destruct (val (updatePublicIP E d w1)); [reflexivity|].
    destruct (HasChange srv_user_data d) eqn:Hchange;
      [|unfold updateUserdata; rewrite Hchange; reflexivity].
    apply (updateUserdata_calls E d w2 am w3 t3 Hchange Hread); fold m;
      apply flat_map_nil; intros [k v] Hin.
    + apply (range_entry E am k v Hrange) in Hin. rewrite <- Ham, Hin. reflexivity.
    + apply (range_entry E m k v Hrange) in Hin.
      rewrite bool_decide_eq_true_2 by (rewrite Ham; exact Hin). reflexivity.
  - intros Hpatch Hip Hchange Hud c. rewrite Hpatch, Hip.
    destruct (updateUserdata_calls E d w2 am w3 t3 Hchange Hread) as [_ Hcalls].
    rewrite (Hcalls Hud). fold m. rewrite in_map_ECall, in_app_iff.
    rewrite in_userdataDeletes, in_userdataPatches.
    split; (intros [Hdel|Hpat]; [left | right]).
    + destruct Hdel as (ak & av & Hin & Hm & ->).
      apply (range_entry E am ak av Hrange) in Hin.
      exists ak. rewrite Hin. eauto.
    + destruct Hpat as (k & v & Hin & Hne & ->).
      apply (range_entry E m k v Hrange) in Hin. eauto.
    + destruct Hdel as (k & [av Hav] & Hm & ->).
      exists k, av. split; [apply (range_entry E am k av Hrange), Hav | auto].
    + destruct Hpat as (k & v & Hm & Hne & ->).
      exists k, v. split; [apply (range_entry E m k v Hrange), Hm | auto].
Qed.

(** The provider already holds the declared key with the declared value:
    Update deletes and patches nothing. *)
Lemma update_user_data_idempotent_witness :
  let E := canned unit holding_role in
  List.filter (of_kind KUserdata)
    (trc (resourceScalewayServerUpdate E server_gaining_user_data tt)) = [].
Proof.
  intros E.
  assert (Hrange : range_ok E) by (intros m; reflexivity).
  destruct (update_user_data_idempotent unit E server_gaining_user_data tt
              Hrange {["role" := "web"]} tt
              [ECall (CGetUserdatas "srv-1"); ECall (CGetUserdata "srv-1" "role")])
    as [Hsame _].
  - vm_compute. reflexivity.
  - apply Hsame. reflexivity.
Defined.

(** * Further properties of the reconcilers *)

(** ** The calls of the read-only verbs *)

Ltac calls_step :=
  lazymatch goal with
  | |- emits _ (ret _) => apply emits_ret
  | |- emits _ (bind _ _) => apply emits_bind; [|intros ?]
  | |- emits _ (retry _ _) => apply emits_retry
  | |- emits _ (call _ _) => apply emits_call; cbn; auto
  | |- emits _ (match ?x with _ => _ end) => destruct x
  end.

Ltac calls_of :=
  unfold GetServer, PostServer, PatchServer, PostVolume, GetIPS, GetIP, NewIP,
    AttachIP, DetachIP, DeleteIP, GetUserdatas, GetUserdata, PatchUserdata,
    DeleteUserdata, poweronServer, deleteStoppedServer, deleteRunningServer;
  repeat calls_step.

Lemma calls_of_events (P : Call -> Prop) (t : list Event) :
  Forall (ev_calls P) t -> exists cs, t = map ECall cs /\ Forall P cs.
Proof.
  induction 1 as [|ev t Hev _ (cs & -> & Hcs)].
  - exists []. split; [reflexivity | constructor].
  - destruct ev as [| |c]; cbn in Hev; try contradiction.
    exists (c :: cs). split; [reflexivity | constructor; assumption].
Qed.

Lemma locked_calls_of {W A} (P : Call -> Prop) (body : M W A) w :
  emits (ev_calls P) body ->
  exists cs, trc (locked body w) = ELock :: map ECall cs ++ [EUnlock] /\
             Forall P cs.
Proof.
  intros Hbody. rewrite locked_run. cbn.
  destruct (calls_of_events P _ (Hbody w)) as (cs & -> & Hcs).
  exists cs. split; [reflexivity | exact Hcs].
Qed.

Section Alphabets.

Context {W : Type} (E : Env W).

Lemma readUserDatas_calls (P : Call -> Prop) id :
  P (CGetUserdatas id) -> (forall k, P (CGetUserdata id k)) ->
  emits (ev_calls P) (readUserDatas E id).
Proof.
  intros H1 H2. unfold readUserDatas. calls_of.
  generalize (∅ : gmap string string).
  induction a as [|k keys IH]; intros m; cbn [readUserDatas_range]; calls_of.
  apply IH.
Qed.

Lemma ServerRead_calls (P : Call -> Prop) d :
  P (CGetServer (Id d)) -> P (CGetUserdatas (Id d)) ->
  (forall k, P (CGetUserdata (Id d) k)) ->
  emits (ev_calls P) (resourceScalewayServerRead E d).
Proof.
  intros H1 H2 H3. unfold resourceScalewayServerRead.
  apply emits_bind; [calls_of|]. intros [server|err]; [|calls_of].
  destruct (EnableIPV6 server); [destruct (IPV6 server)|]; calls_of;
    apply readUserDatas_calls; assumption.
Qed.

Lemma IPRead_calls (P : Call -> Prop) d :
  P (CGetIP (Id d)) -> emits (ev_calls P) (resourceScalewayIPRead E d).
Proof. intros H1. unfold resourceScalewayIPRead. calls_of. Qed.

End Alphabets.

(** X1: the two Reads issue nothing but fetches of their own identifier:
    they never take the mutex and never change provider state. *)
Theorem reads_only_fetch_own_identifier :
  forall (W : Type) (E : Env W),
    (forall d w,
        Forall (ev_calls (read_call (Id d)))
               (trc (resourceScalewayServerRead E d w))) /\
    (forall d w,
        Forall (ev_calls (ip_read_call (Id d)))
               (trc (resourceScalewayIPRead E d w))).
Proof.
  intros W E. split; intros d w.
  - apply ServerRead_calls; cbn; auto.
  - apply IPRead_calls; cbn; auto.
Qed.

(** ** readUserDatas *)

Section ReadUserDatas.

Context {W : Type} (E : Env W).


End ReadUserDatas.



(** ** attachIP *)

(** X3: attachIP lists the pool once, without retry.  A failed listing is
    returned and nothing is attached.  Otherwise the first entry that
    carries the address is attached with a single AttachIP call, which is
    not retried, and the outcome of that call is the outcome of attachIP;
    later entries with the same address are not looked at. *)
Theorem attachIP_attaches_first_match_once :
  forall (W : Type) (E : Env W) serverID address w,
    (forall e w1,
        sdk_GetIPS E w = (Err e, w1) ->
        attachIP E serverID address w = (Some e, w1, [ECall CGetIPS])) /\
    (forall ips w1 ip r w2,
        sdk_GetIPS E w = (Ok ips, w1) ->
        first_with_address address ips = Some ip ->
        sdk_AttachIP E (IP_ID ip) serverID w1 = (r, w2) ->
        attachIP E serverID address w
        = (err_of r, w2,
           [ECall CGetIPS; ECall (CAttachIP (IP_ID ip) serverID)])).
Proof.
  intros W E serverID address w. split.
  - intros e w1 Hpool. unfold attachIP, bind, GetIPS.
    rewrite (call_run _ _ w _ _ Hpool). reflexivity.
  - intros ips w1 ip r w2 Hpool Hfirst Hattach. unfold attachIP, bind, GetIPS.
    rewrite (call_run _ _ w _ _ Hpool).
    assert (Hrange : attachIP_range E ips serverID address w1
                     = (err_of r, w2, [ECall (CAttachIP (IP_ID ip) serverID)])).
    { clear Hpool. induction ips as [|ip' ips IH];
        cbn [attachIP_range first_with_address List.find] in *; [discriminate|].
      destruct (decide (IP_Address ip' = address)) as [Heq|Hne].
      - rewrite bool_decide_eq_true_2 in Hfirst by exact Heq.
        injection Hfirst as ->. unfold bind, AttachIP.
        rewrite (call_run _ _ w1 _ _ Hattach). reflexivity.
      - rewrite bool_decide_eq_false_2 in Hfirst by exact Hne. exact (IH Hfirst). }
    rewrite Hrange. reflexivity.
Qed.

(** The pool lists the address twice; the attachment fails with a 500, which
    [retry] would retry: attachIP issues one AttachIP, for the first
    entry, and returns the 500. *)
Lemma attachIP_attaches_first_match_once_witness :
  let second := {| IP_ID := "ip-2"; IP_Address := "51.15.0.7"; IP_Server := None |} in
  let E := canned unit
             (answering (Ok a_server) (Ok [a_free_ip; second]) (Ok tt)
                (Err (APIError 500 "try again"))) in
  attachIP E "srv-1" "51.15.0.7" tt
  = (Some (APIError 500 "try again"), tt,
     [ECall CGetIPS; ECall (CAttachIP "ip-1" "srv-1")]).
Proof.
  intros second E.
  destruct (attachIP_attaches_first_match_once unit E "srv-1" "51.15.0.7" tt)
    as [_ Hattach].
  apply (Hattach [a_free_ip; second] tt a_free_ip
           (Err (APIError 500 "try again")) tt); reflexivity.
Defined.

(** ** What Read of a server writes *)

(** X4: a Read of a server that fetches a server carrying an ipv6 object
    whenever it reports IPv6 as enabled, and that reads the user data, keeps
    the identifier, mirrors the observed name, image, type, IPv6 flag,
    private and public address, state, state detail and tags, and points
    the connection at the public address.  It writes [public_ipv6] only when
    the provider reports IPv6 as enabled, so an address recorded earlier
    stays when IPv6 is disabled.  It never writes [bootscript],
    [security_group], [volume] or [dynamic_ip_required], and it leaves the
    recorded and the planned level of the resource data alone.  When the
    fetched server reports IPv6 as enabled and carries no ipv6 object, Read
    panics on the dereference, after the fetch of the server and before it
    reads any user data; the identifier and [public_ipv6] are as they
    were. *)
Theorem server_read_mirrors_observed_state :
  forall (W : Type) (E : Env W) d w server w1 t1,
    retry E (GetServer E (Id d)) w = (Ok server, w1, t1) ->
    (ipv6_reported server ->
     forall ud w2 t2,
       readUserDatas E (Id d) w1 = (ud, None, w2, t2) ->
       let d' := snd (val (resourceScalewayServerRead E d w)) in
       fst (val (resourceScalewayServerRead E d w)) = None /\
       Id d' = Id d /\ prior d' = prior d /\ planned d' = planned d /\
       Get srv_name d' = Name server /\
       Get srv_image d' = Image_Identifier server /\
       Get srv_type d' = CommercialType server /\
       Get srv_enable_ipv6 d' = EnableIPV6 server /\
       Get srv_private_ip d' = PrivateIP server /\
       Get srv_public_ip d' = PublicAddress_IP server /\
       Get srv_state d' = State server /\
       Get srv_state_detail d' = StateDetail server /\
       Get srv_tags d' = Tags server /\
       Get srv_public_ipv6 d'
       = (if EnableIPV6 server
          then match IPV6 server with
               | Some Address => Address
               | None => Get srv_public_ipv6 d
               end
          else Get srv_public_ipv6 d) /\
       Get srv_bootscript d' = Get srv_bootscript d /\
       Get srv_security_group d' = Get srv_security_group d /\
       Get srv_volume d' = Get srv_volume d /\
       Get srv_dynamic_ip_required d' = Get srv_dynamic_ip_required d /\
       ConnInfo d' !! "host" = Some (PublicAddress_IP server) /\
       ConnInfo d' !! "type" = Some "ssh") /\
    (EnableIPV6 server = true ->
     IPV6 server = None ->
     exists d',
       resourceScalewayServerRead E d w = (Some nil_dereference, d', w1, t1) /\
       Id d' = Id d /\
       Get srv_public_ipv6 d' = Get srv_public_ipv6 d).
Proof.
  intros W E d w server w1 t1 Hget. split.
  - intros Hv6 ud w2 t2 Hud d'. subst d'.
    unfold resourceScalewayServerRead, bind. rewrite Hget.
    destruct (EnableIPV6 server) eqn:Hen;
      [destruct (IPV6 server) as [address|] eqn:Hobj;
         [|exfalso; exact (Hv6 Hen Hobj)]|];
      cbn [Id SetConnInfo SetAttr];
      rewrite Hud; destruct (0 <? size ud)%nat; cbn; rewrite ?Hen;
      clear; destruct d as [? ? ? [] ?]; cbn;
      repeat split; try reflexivity;
      by rewrite ?lookup_insert_eq, ?lookup_insert_ne, ?lookup_insert_eq.
  - intros Hen Hobj.
    destruct (ServerRead_panics E d w server w1 t1 Hget Hen Hobj)
      as (d' & Hrun & Hid & _ & Hv6).
    exists d'. repeat split; assumption.
Qed.

(** The provider reports IPv6 as disabled: the IPv6 address recorded earlier
    is still recorded after a successful Read.  It reports IPv6 as enabled,
    with its address: the address is mirrored.  It reports IPv6 as enabled,
    with no ipv6 object: Read panics. *)
Lemma server_read_mirrors_observed_state_witness :
  (let d' := snd (val (resourceScalewayServerRead (canned unit all_well)
                         server_with_stale_ipv6 tt)) in
   Get srv_public_ipv6 d' = "2001:db8::1" /\ Get srv_public_ip d' = "51.15.0.7") /\
  (let E := canned unit (answering (Ok an_ipv6_server) (Ok []) (Ok tt) (Ok tt)) in
   Get srv_public_ipv6
     (snd (val (resourceScalewayServerRead E server_with_stale_ipv6 tt)))
   = "2001:db8::7") /\
  (let E := canned unit
              (answering (Ok a_server_without_ipv6_object) (Ok []) (Ok tt) (Ok tt)) in
   fst (val (resourceScalewayServerRead E server_with_stale_ipv6 tt))
   = Some nil_dereference).
Proof.
  split; [|split].
  - intros d'.
    destruct (server_read_mirrors_observed_state unit (canned unit all_well)
                server_with_stale_ipv6 tt a_server tt
                [ECall (CGetServer "srv-1")] eq_refl) as [Hok _].
    pose proof (Hok ltac:(intros H; discriminate H) ∅ tt
                  [ECall (CGetUserdatas "srv-1")] eq_refl) as H.
    cbv zeta in H. decompose [and] H. split; assumption.
  - intros E.
    destruct (server_read_mirrors_observed_state unit E
                server_with_stale_ipv6 tt an_ipv6_server tt
                [ECall (CGetServer "srv-1")] eq_refl) as [Hok _].
    pose proof (Hok ltac:(intros _; discriminate) ∅ tt
                  [ECall (CGetUserdatas "srv-1")] eq_refl) as H.
    cbv zeta in H. decompose [and] H. assumption.
  - intros E.
    destruct (server_read_mirrors_observed_state unit E
                server_with_stale_ipv6 tt a_server_without_ipv6_object tt
                [ECall (CGetServer "srv-1")] eq_refl) as [_ Hpanic].
    destruct (Hpanic eq_refl eq_refl) as (d' & -> & _).
    reflexivity.
Defined.

(** ** The calls of Update of a server *)

Section UpdateAlphabet.

Context {W : Type} (E : Env W) (P : Call -> Prop).

Lemma updatePatch_calls d :
  (forall req, P (CPatchServer (Id d) req)) ->
  emits (ev_calls P) (updatePatch E d).
Proof. intros H. unfold updatePatch. calls_of. Qed.

Lemma updateAttach_calls ips v id :
  (forall ipID, P (CAttachIP ipID id)) ->
  emits (ev_calls P) (updateAttach E ips v id).
Proof.
  intros H. induction ips as [|ip ips IH]; cbn [updateAttach]; calls_of.
  exact IH.
Qed.

Lemma updateDetach_calls ips id :
  (forall ipID, P (CDetachIP ipID)) ->
  emits (ev_calls P) (updateDetach E ips id).
Proof.
  intros H. induction ips as [|ip ips IH]; cbn [updateDetach]; calls_of;
    exact IH.
Qed.

Lemma updatePublicIP_calls d :
  P CGetIPS -> (forall ipID, P (CAttachIP ipID (Id d))) ->
  (forall ipID, P (CDetachIP ipID)) ->
  emits (ev_calls P) (updatePublicIP E d).
Proof.
  intros H1 H2 H3. unfold updatePublicIP. calls_of;
    first [apply updateAttach_calls, H2 | apply updateDetach_calls, H3].
Qed.

Lemma updateUserdataDelete_calls id am m :
  (forall k, P (CDeleteUserdata id k)) ->
  emits (ev_calls P) (updateUserdataDelete E id am m).
Proof.
  intros H. induction am as [|[ak av] am IH]; cbn [updateUserdataDelete];
    calls_of; exact IH.
Qed.

Lemma updateUserdataPatch_calls id m am :
  (forall k v, P (CPatchUserdata id k v)) ->
  emits (ev_calls P) (updateUserdataPatch E id m am).
Proof.
  intros H. induction m as [|[k v] m IH]; cbn [updateUserdataPatch];
    calls_of; exact IH.
Qed.

Lemma updateUserdata_calls_of d :
  P (CGetUserdatas (Id d)) -> (forall k, P (CGetUserdata (Id d) k)) ->
  (forall k, P (CDeleteUserdata (Id d) k)) ->
  (forall k v, P (CPatchUserdata (Id d) k v)) ->
  emits (ev_calls P) (updateUserdata E d).
Proof.
  intros H1 H2 H3 H4. unfold updateUserdata. calls_of;
    first [ apply readUserDatas_calls; assumption
          | apply updateUserdataDelete_calls, H3
          | apply updateUserdataPatch_calls, H4 ].
Qed.

End UpdateAlphabet.

(** X5: every provider call of an Update that names a server names the
    server being updated: Update patches, attaches to, reads and edits the
    user data of its own server only, and it never creates, powers on or
    deletes a server, a volume or an address. *)
Theorem update_calls_own_server_only :
  forall (W : Type) (E : Env W) d w,
    exists cs,
      trc (resourceScalewayServerUpdate E d w) = ELock :: map ECall cs ++ [EUnlock] /\
      Forall (update_call (Id d)) cs.
Proof.
  intros W E d w. unfold resourceScalewayServerUpdate. apply locked_calls_of.
  apply emits_bind; [apply updatePatch_calls; cbn; auto|].
  intros [err|]; [apply emits_ret|].
  apply emits_bind; [apply updatePublicIP_calls; cbn; auto|].
  intros [err|]; [apply emits_ret|].
  apply emits_bind; [apply updateUserdata_calls_of; cbn; auto|].
  intros [err|]; [apply emits_ret|].
  apply ServerRead_calls; cbn; auto.
Qed.

(** ** The patch request of Update *)

Section UpdatePatch.

Context {W : Type} (E : Env W).

Lemma updatePatch_first_call d w :
  exists t, trc (updatePatch E d w)
            = ECall (CPatchServer (Id d) (updateRequest d)) :: t.
Proof.
  unfold updatePatch. rewrite bind_trc. unfold PatchServer.
  destruct (retry_call_trace E (CPatchServer (Id d) (updateRequest d))
              (sdk_PatchServer E (Id d) (updateRequest d)) w) as (k & -> & Hk).
  destruct k as [|k]; [lia|]. cbn. eexists. reflexivity.
Qed.

End UpdatePatch.

(** X6: Update always opens with a PatchServer of its own server, whatever
    changed.  The request is empty when no attribute changed, and it carries
    no tags when the declared list of tags is empty, even if tags were
    recorded before: the removal of the last tag is not sent. *)
Theorem update_always_patches_first :
  forall (W : Type) (E : Env W) d w,
    (exists t,
        trc (resourceScalewayServerUpdate E d w)
        = ELock :: ECall (CPatchServer (Id d) (updateRequest d)) :: t) /\
    (prior d = planned d -> updateRequest d = empty_patch) /\
    (Get srv_tags d = [] -> SP_Tags (updateRequest d) = None).
Proof.
  intros W E d w. split; [|split].
  - rewrite ServerUpdate_run. cbn zeta.
    destruct (updatePatch_first_call E d w) as [t Ht].
    destruct (val (updatePatch E d w)); cbn [trc snd]; [rewrite Ht; eauto|].
    destruct (val (updatePublicIP E d (world (updatePatch E d w))));
      cbn [trc snd]; [rewrite Ht; eauto|].
    destruct (val (updateUserdata E d _)); cbn [trc snd]; rewrite Ht; eauto.
  - intros Hsame. unfold updateRequest, empty_patch, HasChange.
    rewrite Hsame, !bool_decide_eq_true_2 by reflexivity. reflexivity.
  - intros Htags. unfold updateRequest, GetOk_list. cbn [SP_Tags].
    rewrite Htags. destruct (HasChange srv_tags d); reflexivity.
Qed.

(** The only tag of the server is removed from the declaration: the request
    Update sends carries no tags. *)
Lemma update_always_patches_first_witness :
  let E := canned unit all_well in
  HasChange srv_tags server_losing_tags = true /\
  exists t,
    trc (resourceScalewayServerUpdate E server_losing_tags tt)
    = ELock :: ECall (CPatchServer "srv-1" empty_patch) :: t.
Proof.
  intros E. split; [reflexivity|].
  destruct (update_always_patches_first unit E server_losing_tags tt)
    as ([t Ht] & _ & Htags).
  specialize (Htags eq_refl).
  exists t. rewrite Ht. reflexivity.
Defined.

(** X7: when the patch of the server fails, Update returns the failure
    wrapped in its own message and stops: the resource data is returned as
    it was, and the address pool, the user data and the server are not
    looked at. *)
Theorem update_patch_failure_aborts :
  forall (W : Type) (E : Env W) d w e w1 t1,
    retry E (PatchServer E (Id d) (updateRequest d)) w = (Err e, w1, t1) ->
    resourceScalewayServerUpdate E d w
    = (Some (ErrorfErr "Failed patching scaleway server: %q" e), d, w1,
       ELock :: t1 ++ [EUnlock]) /\
    Forall (fun ev => ev = ECall (CPatchServer (Id d) (updateRequest d))) t1.
Proof.
  intros W E d w e w1 t1 Hpatch. split.
  - rewrite ServerUpdate_run. cbn zeta. unfold updatePatch, bind.
    rewrite Hpatch. cbn. rewrite app_nil_r. reflexivity.
  - pose proof (emits_retry (fun ev => ev = ECall (CPatchServer (Id d) (updateRequest d)))
                  E (PatchServer E (Id d) (updateRequest d))
                  (emits_call _ _ _ eq_refl) w) as H.
    rewrite Hpatch in H. exact H.
Qed.

(** The provider refuses the patch with a 400. *)
Lemma update_patch_failure_aborts_witness :
  let E := canned unit (patch_failing (APIError 400 "bad request")) in
  resourceScalewayServerUpdate E server_gaining_public_ip tt
  = (Some (ErrorfErr "Failed patching scaleway server: %q"
             (APIError 400 "bad request")),
     server_gaining_public_ip, tt,
     [ELock; ECall (CPatchServer "srv-1" empty_patch); EUnlock]).
Proof.
  intros E.
  destruct (update_patch_failure_aborts unit E server_gaining_public_ip tt
              (APIError 400 "bad request") tt
              [ECall (CPatchServer "srv-1" empty_patch)] eq_refl) as [Hrun _].
  exact Hrun.
Defined.

(** ** The detach branch of Update *)

Section UpdateDetach.

Context {W : Type} (E : Env W).

Lemma updateDetach_first ips id w :
  updateDetach E ips id w
  = match first_attached_to id ips with
    | Some ip =>
        let r := retry E (DetachIP E (IP_ID ip)) w in
        (err_of (val r), world r, trc r)
    | None => (None, w, [])
    end.
Proof.
  induction ips as [|ip ips IH]; cbn [updateDetach first_attached_to List.find];
    [reflexivity|].
  destruct (match IP_Server ip with
            | Some identifier => bool_decide (identifier = id)
            | None => false
            end); [|exact IH].
  unfold bind. destruct (retry E (DetachIP E (IP_ID ip)) w) as [[r w1] t1].
  cbn. rewrite app_nil_r. reflexivity.
Qed.

Lemma updatePublicIP_detach d w ips :
  HasChange srv_public_ip d = true ->
  Get srv_public_ip d = "" ->
  val (retry E (GetIPS E) w) = Ok ips ->
  List.filter (of_kind KIP) (trc (updatePublicIP E d w))
  = match first_attached_to (Id d) ips with
    | Some ip => trc (retry E (DetachIP E (IP_ID ip)) (world (retry E (GetIPS E) w)))
    | None => []
    end.
Proof.
  intros Hchange Hnone Hpool. unfold updatePublicIP.
  rewrite Hchange, bind_trc, List.filter_app, Hpool.
  rewrite (no_call_of_kind [KRead] KIP (retry E (GetIPS E)) w);
    [|apply emits_retry, emits_call; cbn; tauto | cbn; intuition congruence].
  unfold GetOk_string. rewrite Hnone. cbn [app negb bool_decide].
  rewrite bool_decide_eq_true_2 by reflexivity. cbn [negb].
  rewrite updateDetach_first.
  destruct (first_attached_to (Id d) ips) as [ip|]; [|reflexivity].
  cbn [trc snd]. unfold DetachIP.
  destruct (retry_call_trace E (CDetachIP (IP_ID ip)) (sdk_DetachIP E (IP_ID ip))
              (world (retry E (GetIPS E) w))) as (n & -> & _).
  apply filter_repeat_call. reflexivity.
Qed.

End UpdateDetach.

(** X8: an Update that removes the declared public address detaches the
    first pool entry attached to this server, and nothing else; when the
    pool lists no entry attached to this server it issues no attach and no
    detach call at all.  Entries attached to other servers are never
    detached. *)
Theorem update_detaches_own_address_only :
  forall (W : Type) (E : Env W) d w ips,
    val (updatePatch E d w) = None ->
    HasChange srv_public_ip d = true ->
    Get srv_public_ip d = "" ->
    val (retry E (GetIPS E) (world (updatePatch E d w))) = Ok ips ->
    (first_attached_to (Id d) ips = None ->
     List.filter (of_kind KIP) (trc (resourceScalewayServerUpdate E d w)) = []) /\
    (forall ip,
        first_attached_to (Id d) ips = Some ip ->
        IP_Server ip = Some (Id d) /\
        exists n, (1 <= n)%nat /\
          List.filter (of_kind KIP) (trc (resourceScalewayServerUpdate E d w))
          = repeat (ECall (CDetachIP (IP_ID ip))) n).
Proof.
  intros W E d w ips Hpatch Hchange Hnone Hpool.
  assert (Hud : forall w', List.filter (of_kind KIP)
                  (trc (updateUserdata E d w')) = []).
  { intros w'. apply (no_call_of_kind [KRead; KUserdata]);
      [apply emits_updateUserdata; cbn; tauto | cbn; intuition congruence]. }
  assert (Hall : List.filter (of_kind KIP) (trc (resourceScalewayServerUpdate E d w))
                 = List.filter (of_kind KIP)
                     (trc (updatePublicIP E d (world (updatePatch E d w))))).
  { rewrite (ServerUpdate_calls_of_kind E KIP) by discriminate. cbn zeta.
    rewrite Hpatch.
    destruct (val (updatePublicIP E d (world (updatePatch E d w))));
      rewrite ?Hud, app_nil_r; reflexivity. }
  rewrite Hall, (updatePublicIP_detach E d _ ips Hchange Hnone Hpool).
  split.
  - intros ->. reflexivity.
  - intros ip Hfirst. rewrite Hfirst. split.
    + unfold first_attached_to in Hfirst. apply find_some in Hfirst.
      destruct Hfirst as [_ Hip]. destruct (IP_Server ip) as [sid|]; [|discriminate].
      apply bool_decide_eq_true_1 in Hip. rewrite Hip. reflexivity.
    + unfold DetachIP.
      destruct (retry_call_trace E (CDetachIP (IP_ID ip)) (sdk_DetachIP E (IP_ID ip))
                  (world (retry E (GetIPS E) (world (updatePatch E d w)))))
        as (n & Hn & Hb).
      exists n. split; [lia | exact Hn].
Qed.

(** The pool lists one address attached to another server and then the
    address of this server: Update detaches the second one only. *)
Lemma update_detaches_own_address_only_witness :
  let other := {| IP_ID := "ip-9"; IP_Address := "51.15.0.9";
                  IP_Server := Some "srv-9" |} in
  let E := canned unit
             (answering (Ok a_server) (Ok [other; an_attached_ip]) (Ok tt) (Ok tt)) in
  List.filter (of_kind KIP)
    (trc (resourceScalewayServerUpdate E server_losing_public_ip tt))
  = [ECall (CDetachIP "ip-1")].
Proof.
  intros other E.
  destruct (update_detaches_own_address_only unit E server_losing_public_ip tt
              [other; an_attached_ip] eq_refl eq_refl eq_refl eq_refl)
    as [_ Hdetach].
  destruct (Hdetach an_attached_ip eq_refl) as (_ & n & Hn & Hcalls).
  rewrite Hcalls.
  assert (Hlen : length (List.filter (of_kind KIP)
                   (trc (resourceScalewayServerUpdate E server_losing_public_ip tt)))
                 = 1%nat) by reflexivity.
  rewrite Hcalls, repeat_length in Hlen. rewrite Hlen. reflexivity.
Defined.

(** ** The order of the user-data calls of Update *)

Section UserdataOrder.

Context {W : Type} (E : Env W).

Lemma is_DeleteUserdata_kind id cs :
  Forall (is_DeleteUserdata id) cs -> Forall (fun c => kind c = KUserdata) cs.
Proof.
  intros H. eapply Forall_impl; [exact H|].
  intros c Hc. destruct c; cbn in Hc; try contradiction. reflexivity.
Qed.

Lemma is_PatchUserdata_kind id cs :
  Forall (is_PatchUserdata id) cs -> Forall (fun c => kind c = KUserdata) cs.
Proof.
  intros H. eapply Forall_impl; [exact H|].
  intros c Hc. destruct c; cbn in Hc; try contradiction. reflexivity.
Qed.

Lemma updateUserdata_order d w :
  exists dels pats,
    List.filter (of_kind KUserdata) (trc (updateUserdata E d w))
    = map ECall (dels ++ pats) /\
    Forall (is_DeleteUserdata (Id d)) dels /\
    Forall (is_PatchUserdata (Id d)) pats.
Proof.
  assert (Hnone : exists dels pats,
             @nil Event = map ECall (dels ++ pats) /\
             Forall (is_DeleteUserdata (Id d)) dels /\
             Forall (is_PatchUserdata (Id d)) pats).
  { exists [], []. repeat split; constructor. }
  unfold updateUserdata. destruct (HasChange srv_user_data d); [|exact Hnone].
  rewrite bind_trc, List.filter_app.
  rewrite (no_call_of_kind [KRead] KUserdata (readUserDatas E (Id d)) w);
    [|apply emits_readUserDatas; cbn; tauto | cbn; intuition congruence].
  cbn [app].
  destruct (val (readUserDatas E (Id d) w)) as [am [err|]]; [exact Hnone|].
  rewrite declared_user_data, bind_trc, List.filter_app.
  set (w1 := world (readUserDatas E (Id d) w)).
  destruct (calls_of_events (is_DeleteUserdata (Id d)) _
              (updateUserdataDelete_calls E _ (Id d) (range E am)
                 (Get srv_user_data d) (fun k => eq_refl) w1))
    as (dels & Hdels & Hdel).
  rewrite Hdels, (filter_userdata_calls _ (is_DeleteUserdata_kind _ _ Hdel)).
  destruct (val (updateUserdataDelete E (Id d) (range E am)
                   (Get srv_user_data d) w1)).
  { exists dels, []. cbn. rewrite !app_nil_r.
    repeat split; [exact Hdel | constructor]. }
  set (w2 := world (updateUserdataDelete E (Id d) (range E am)
                      (Get srv_user_data d) w1)).
  destruct (calls_of_events (is_PatchUserdata (Id d)) _
              (updateUserdataPatch_calls E _ (Id d)
                 (range E (Get srv_user_data d)) am (fun k v => eq_refl) w2))
    as (pats & Hpats & Hpat).
  rewrite Hpats, (filter_userdata_calls _ (is_PatchUserdata_kind _ _ Hpat)).
  exists dels, pats. rewrite map_app. repeat split; assumption.
Qed.

End UserdataOrder.

(** X9: in every Update, the user-data calls that change provider state are
    deletions followed by patches, all of them for the server being
    updated: no key is patched before every deletion is done, and no
    deletion follows a patch. *)
Theorem update_deletes_user_data_before_patching :
  forall (W : Type) (E : Env W) d w,
    exists dels pats,
      List.filter (of_kind KUserdata) (trc (resourceScalewayServerUpdate E d w))
      = map ECall (dels ++ pats) /\
      Forall (is_DeleteUserdata (Id d)) dels /\
      Forall (is_PatchUserdata (Id d)) pats.
Proof.
  intros W E d w.
  rewrite (ServerUpdate_calls_of_kind E KUserdata) by discriminate. cbn zeta.
  assert (Hq : forall w', List.filter (of_kind KUserdata)
                 (trc (updatePublicIP E d w')) = []).
  { intros w'. apply (no_call_of_kind [KRead; KIP]);
      [apply emits_updatePublicIP; cbn; tauto | cbn; intuition congruence]. }
  rewrite Hq. cbn [app].
  destruct (val (updatePatch E d w));
    [exists [], []; repeat split; constructor|].
  destruct (val (updatePublicIP E d (world (updatePatch E d w))));
    [exists [], []; repeat split; constructor|].
  apply updateUserdata_order.
Qed.

(** ** Failures of Create before the server exists *)

Section CreateFailures.

Context {W : Type} (E : Env W).

Lemma retry_loop_always_fails {A} (f : M W (res A)) n :
  (forall w, exists e, val (f w) = Err e) ->
  forall w, exists e, val (retry_loop n f w) = Err e.
Proof.
  intros Hf. induction n as [|n IH]; intros w; cbn [retry_loop];
    rewrite bind_val; destruct (Hf w) as [e ->].
  - exists e. reflexivity.
  - destruct (retryable e); [apply IH | exists e; reflexivity].
Qed.

Lemma retry_always_fails {A} (f : M W (res A)) :
  (forall w, exists e, val (f w) = Err e) ->
  forall w, exists e, val (retry E f w) = Err e.
Proof. apply retry_loop_always_fails. Qed.

Lemma call_always_fails {A} c (f : W -> res A * W) :
  (forall w, exists e w', f w = (Err e, w')) ->
  forall w, exists e, val (call c f w) = Err e.
Proof.
  intros Hf w. destruct (Hf w) as (e & w' & Hw). exists e.
  rewrite (call_run c f w _ _ Hw). reflexivity.
Qed.

Lemma createVolumes_calls (P : Call -> Prop) serverName volumes :
  (forall def, P (CPostVolume def)) ->
  forall i done Volumes,
    emits (ev_calls P) (createVolumes E serverName i volumes done Volumes).
Proof.
  intros H. induction volumes as [|volume volumes IH]; intros i done Volumes;
    cbn [createVolumes]; calls_of; apply IH.
Qed.

Lemma createUserdata_calls (P : Call -> Prop) id ud :
  (forall k v, P (CPatchUserdata id k v)) ->
  emits (ev_calls P) (createUserdata E id ud).
Proof.
  intros H. induction ud as [|[k v] ud IH]; cbn [createUserdata]; calls_of.
  exact IH.
Qed.

Lemma createServer_calls (P : Call -> Prop) d :
  (forall def, P (CPostVolume def)) ->
  (forall def, P (CPostServer def)) ->
  (forall id k v, P (CPatchUserdata id k v)) ->
  emits (ev_calls P) (createServer E d).
Proof.
  intros H1 H2 H3. unfold createServer. calls_of.
  - apply createVolumes_calls, H1.
  - apply createUserdata_calls. intros k v. apply H3.
Qed.

Lemma createVolumes_all_fail serverName volumes :
  (forall def w, exists e w', sdk_PostVolume E def w = (Err e, w')) ->
  Exists (fun v => uint64 (size_in_gb v) <> 0) volumes ->
  forall i done Volumes w,
    exists e, val (createVolumes E serverName i volumes done Volumes w) = Err e.
Proof.
  intros Hfail. induction 1 as [volume volumes Hnz|volume volumes _ IH];
    intros i done Volumes w; cbn [createVolumes].
  - assert (Hpos : (0 <? uint64 (size_in_gb volume)) = true).
    { apply Z.ltb_lt. unfold uint64 in *.
      pose proof (Z.mod_pos_bound (size_in_gb volume) (2 ^ 64) ltac:(lia)). lia. }
    rewrite Hpos, bind_val.
    match goal with
    | |- context [val (retry E ?f w)] =>
        destruct (retry_always_fails f (call_always_fails _ _ (Hfail _)) w)
          as [e ->]
    end.
    exists e. reflexivity.
  - destruct (0 <? uint64 (size_in_gb volume)); [|apply IH].
    rewrite bind_val.
    match goal with
    | |- context [val (retry E ?f w)] =>
        destruct (retry_always_fails f (call_always_fails _ _ (Hfail _)) w)
          as [e ->]
    end.
    exists e. reflexivity.
Qed.

Lemma createServer_volumes_fail d w e :
  snd (GetOk_list srv_volume d) = true ->
  val (createVolumes E (Get srv_name d) 0 (Get srv_volume d) [] ∅ w) = Err e ->
  createServer E d w
  = (Err e, d,
     world (createVolumes E (Get srv_name d) 0 (Get srv_volume d) [] ∅ w),
     trc (createVolumes E (Get srv_name d) 0 (Get srv_volume d) [] ∅ w)).
Proof.
  intros Hok Hval. unfold createServer.
  assert (Hname : forall s : ServerDefinition,
             SD_Name (let '(bootscript, ok) := GetOk_string srv_bootscript d in
                      if ok then with_Bootscript (Some bootscript) s else s)
             = SD_Name s).
  { intros s. unfold GetOk_string. destruct (negb _); reflexivity. }
  rewrite Hname. cbn [SD_Name].
  unfold GetOk_list in *. cbn [snd] in Hok. rewrite Hok. unfold bind.
  destruct (createVolumes E (Get srv_name d) 0 (Get srv_volume d) [] ∅ w)
    as [[r w1] t1].
  cbn in Hval. subst r. cbn. rewrite !app_nil_r. reflexivity.
Qed.

End CreateFailures.

(** X10: when the provider refuses to create volumes and the declaration has
    a volume of non-zero size, Create returns the error and the resource
    data untouched, the identifier included; it has issued volume creations
    only, so the server was never requested. *)
Theorem create_aborts_when_volume_creation_fails :
  forall (W : Type) (E : Env W) d w,
    (forall def w', exists e w'', sdk_PostVolume E def w' = (Err e, w'')) ->
    Exists (fun v => uint64 (size_in_gb v) <> 0) (Get srv_volume d) ->
    exists e w1 cs,
      resourceScalewayServerCreate E d w
      = (Some e, d, w1, ELock :: map ECall cs ++ [EUnlock]) /\
      Forall is_PostVolume cs.
Proof.
  intros W E d w Hfail Hsome.
  destruct (createVolumes_all_fail E (Get srv_name d) (Get srv_volume d)
              Hfail Hsome 0%nat [] ∅ w) as [e He].
  assert (Hok : snd (GetOk_list srv_volume d) = true).
  { unfold GetOk_list. cbn. destruct (Get srv_volume d); [inversion Hsome | reflexivity]. }
  pose proof (createServer_volumes_fail E d w e Hok He) as Hrun.
  destruct (calls_of_events is_PostVolume _
              (createVolumes_calls E is_PostVolume (Get srv_name d)
                 (Get srv_volume d) (fun _ => I) 0%nat [] ∅ w))
    as (cs & Hcs & Hall).
  rewrite Hcs in Hrun.
  exists e, (world (createVolumes E (Get srv_name d) 0 (Get srv_volume d) [] ∅ w)), cs.
  split; [|exact Hall].
  rewrite (ServerCreate_run E d w _ _ _ _ Hrun). reflexivity.
Qed.

(** The provider answers every volume creation with a 400. *)
Lemma create_aborts_when_volume_creation_fails_witness :
  let E := canned unit
             (creation_failing (Err (APIError 400 "no quota")) (Ok "srv-1")) in
  exists e w1 cs,
    resourceScalewayServerCreate E server_with_volume tt
    = (Some e, server_with_volume, w1, ELock :: map ECall cs ++ [EUnlock]) /\
    Forall is_PostVolume cs.
Proof.
  intros E.
  apply (create_aborts_when_volume_creation_fails unit E server_with_volume tt).
  - intros def w'. exists (APIError 400 "no quota"), w'. reflexivity.
  - constructor. vm_compute. discriminate.
Defined.

Section CreateServerFails.

Context {W : Type} (E : Env W).

Hypothesis PostServer_fails :
  forall def w, exists e w', sdk_PostServer E def w = (Err e, w').

Lemma PostServer_retry_fails def w :
  exists e, val (retry E (PostServer E def) w) = Err e /\
            Forall (ev_calls is_PostVolume_or_PostServer)
                   (trc (retry E (PostServer E def) w)).
Proof.
  destruct (retry_always_fails E (PostServer E def)
              (call_always_fails _ _ (PostServer_fails def)) w) as [e He].
  exists e. split; [exact He|].
  apply emits_retry, emits_call. exact I.
Qed.

Lemma createServer_server_fails d w :
  exists e,
    fst (val (createServer E d w)) = Err e /\
    Id (snd (val (createServer E d w))) = Id d /\
    Forall (ev_calls is_PostVolume_or_PostServer) (trc (createServer E d w)).
Proof.
  unfold createServer.
  destruct (GetOk_string srv_bootscript d) as [b okb].
  destruct (GetOk_list srv_volume d) as [vs ok].
  rewrite bind_val, bind_trc.
  destruct ok.
  - rewrite bind_val, bind_world, bind_trc.
    match goal with
    | |- context [createVolumes E ?n 0 vs [] ∅ w] =>
        pose proof (createVolumes_calls E is_PostVolume_or_PostServer
                      n vs (fun _ => I) 0%nat [] ∅ w) as Hvol;
        destruct (createVolumes E n 0 vs [] ∅ w) as [[r w1] t1]
    end.
    cbn [val world trc fst snd] in *.
    destruct r as [[volumes Volumes]|err]; cbn [val world trc fst snd ret].
    + rewrite bind_val, bind_trc.
      match goal with
      | |- context [retry E (PostServer E ?def) ?w'] =>
          destruct (PostServer_retry_fails def w') as (e & -> & Hpost)
      end.
      exists e. cbn. rewrite !app_nil_r.
      repeat split. apply Forall_app. split; assumption.
    + exists err. cbn. rewrite !app_nil_r. repeat split. exact Hvol.
  - cbn [val world trc fst snd ret]. rewrite bind_val, bind_trc.
    match goal with
    | |- context [retry E (PostServer E ?def) ?w'] =>
        destruct (PostServer_retry_fails def w') as (e & -> & Hpost)
    end.
    exists e. cbn. rewrite !app_nil_r. repeat split. exact Hpost.
Qed.

End CreateServerFails.

(** X11: when the provider refuses to create the server, Create returns an
    error and leaves the identifier as it was: the caller sees a resource
    that never existed.  Create has then issued volume and server creations
    only: no user data is written, nothing is powered on, no address is
    attached and nothing is read back. *)
Theorem create_sets_no_identifier_when_server_creation_fails :
  forall (W : Type) (E : Env W) d w,
    (forall def w', exists e w'', sdk_PostServer E def w' = (Err e, w'')) ->
    exists e cs,
      fst (val (resourceScalewayServerCreate E d w)) = Some e /\
      Id (snd (val (resourceScalewayServerCreate E d w))) = Id d /\
      trc (resourceScalewayServerCreate E d w) = ELock :: map ECall cs ++ [EUnlock] /\
      Forall is_PostVolume_or_PostServer cs.
Proof.
  intros W E d w Hfail.
  destruct (createServer_server_fails E Hfail d w) as (e & Herr & Hid & Hcalls).
  destruct (calls_of_events _ _ Hcalls) as (cs & Hcs & Hall).
  destruct (createServer E d w) as [[[r d1] w1] t1] eqn:Hrun.
  cbn in Herr, Hid, Hcs. subst r t1.
  rewrite (ServerCreate_run E d w _ _ _ _ Hrun).
  exists e, cs. cbn. repeat split; assumption.
Qed.

(** The provider answers every server creation with a 403; the volume is
    created first, and then Create stops. *)
Lemma create_sets_no_identifier_when_server_creation_fails_witness :
  let E := canned unit
             (creation_failing (Ok "vol-1") (Err (APIError 403 "forbidden"))) in
  exists e cs,
    fst (val (resourceScalewayServerCreate E server_with_volume tt)) = Some e /\
    Id (snd (val (resourceScalewayServerCreate E server_with_volume tt))) = "" /\
    trc (resourceScalewayServerCreate E server_with_volume tt)
    = ELock :: map ECall cs ++ [EUnlock] /\
    Forall is_PostVolume_or_PostServer cs.
Proof.
  intros E.
  apply (create_sets_no_identifier_when_server_creation_fails unit E
           server_with_volume tt).
  intros def w'. exists (APIError 403 "forbidden"), w'. reflexivity.
Defined.

(** ** Create of a server declared as stopped *)

Section CreateStopped.

Context {W : Type} (E : Env W).

Lemma with_volume_state vols a : srv_state (with_volume vols a) = srv_state a.
Proof. destruct a. reflexivity. Qed.

Lemma createServer_state d w :
  Get srv_state (snd (val (createServer E d w))) = Get srv_state d.
Proof.
  unfold createServer.
  destruct (GetOk_string srv_bootscript d) as [b okb].
  destruct (GetOk_list srv_volume d) as [vs ok].
  rewrite bind_val.
  assert (Hrest : forall (d0 : ResourceData ServerAttrs) server w',
             Get srv_state d0 = Get srv_state d ->
             Get srv_state
               (snd (val
                  ((let server :=
                      let '(raw, ok) := GetOk_list srv_tags d0 in
                      if ok then with_Tags (SD_Tags server ++ raw) server
                      else server in
                    let* r := retry E (PostServer E server) in
                    match r with
                    | Err err => ret (Err err, d0)
                    | Ok id =>
                        let d := SetId id d0 in
                        let* err :=
                          (let '(ud, ok) := GetOk_map srv_user_data d in
                           if ok then createUserdata E id (range E ud)
                           else ret None) in
                        match err with
                        | Some err => ret (Err err, d)
                        | None => ret (Ok id, d)
                        end
                    end) w')))
             = Get srv_state d).
  { intros d0 server w' Hd0. cbv zeta. rewrite bind_val.
    match goal with
    | |- context [val (retry E ?f w')] =>
        destruct (val (retry E f w')) as [id|err]; [|exact Hd0];
        generalize (world (retry E f w'))
    end.
    intros w2. rewrite bind_val.
    match goal with
    | |- context [val (?m w2)] => destruct (val (m w2)) as [err|]
    end; exact Hd0. }
  destruct ok.
  - rewrite bind_val.
    match goal with
    | |- context [createVolumes E ?n 0 vs [] ∅ w] =>
        destruct (val (createVolumes E n 0 vs [] ∅ w)) as [[volumes Volumes]|err];
        generalize (world (createVolumes E n 0 vs [] ∅ w))
    end; intros w1; cbn [ret val fst snd]; [|reflexivity].
    apply Hrest. unfold Get. cbn. apply with_volume_state.
  - cbn [ret val fst snd]. apply Hrest. reflexivity.
Qed.

Lemma createStart_stopped id d w :
  Get srv_state d = "stopped" ->
  createStart E id d w = resourceScalewayServerRead E d w.
Proof.
  intros Hstate. unfold createStart.
  rewrite bool_decide_eq_true_2 by exact Hstate. reflexivity.
Qed.

End CreateStopped.

(** X12: Create of a server declared as [stopped] creates the volumes and
    the server, writes the user data and reads the server back; it never
    powers the server on and never lists the pool or attaches an address,
    whatever public address is declared. *)
Theorem create_stopped_never_powers_on :
  forall (W : Type) (E : Env W) d w,
    Get srv_state d = "stopped" ->
    exists cs,
      trc (resourceScalewayServerCreate E d w) = ELock :: map ECall cs ++ [EUnlock] /\
      Forall create_stopped_call cs.
Proof.
  intros W E d w Hstate.
  pose proof (createServer_state E d w) as Hkeep.
  pose proof (createServer_calls E create_stopped_call d
                (fun _ => I) (fun _ => I) (fun _ _ _ => I) w) as Hcalls.
  destruct (createServer E d w) as [[[r d1] w1] t1] eqn:Hrun.
  cbn in Hkeep, Hcalls. rewrite Hstate in Hkeep.
  rewrite (ServerCreate_run E d w _ _ _ _ Hrun).
  destruct r as [id|err].
  - rewrite (createStart_stopped E id d1 w1 Hkeep). cbn [trc snd].
    pose proof (ServerRead_calls E create_stopped_call d1 I I (fun _ => I) w1)
      as Hread.
    destruct (calls_of_events _ _ (proj2 (Forall_app _ _ _) (conj Hcalls Hread)))
      as (cs & Hcs & Hall).
    exists cs. rewrite app_assoc, Hcs. split; [reflexivity | exact Hall].
  - cbn [trc snd]. destruct (calls_of_events _ _ Hcalls) as (cs & -> & Hall).
    exists cs. split; [reflexivity | exact Hall].
Qed.

(** A server declared as stopped and with a public address. *)
Lemma create_stopped_never_powers_on_witness :
  let E := canned unit (answering (Ok a_stopped_server) (Ok [a_free_ip]) (Ok tt) (Ok tt)) in
  exists cs,
    trc (resourceScalewayServerCreate E stopped_server_with_public_ip tt)
    = ELock :: map ECall cs ++ [EUnlock] /\
    Forall create_stopped_call cs.
Proof.
  intros E.
  apply (create_stopped_never_powers_on unit E stopped_server_with_public_ip tt).
  reflexivity.
Defined.

(** ** The volumes of Create *)

Section Volumes.

Context {W : Type} (E : Env W).

Lemma createVolumes_zero serverName volumes :
  Forall (fun v => size_in_gb v = 0) volumes ->
  forall i done Volumes w,
    createVolumes E serverName i volumes done Volumes w
    = (Ok (done ++ volumes, Volumes), w, []).
Proof.
  induction 1 as [|volume volumes Hz _ IH]; intros i done Volumes w;
    cbn [createVolumes].
  - rewrite app_nil_r. reflexivity.
  - replace (0 <? uint64 (size_in_gb volume)) with false
      by (rewrite Hz; reflexivity).
    rewrite IH, <- app_assoc. reflexivity.
Qed.

Lemma uint64_negative v :
  - 2 ^ 63 <= v < 0 -> uint64 v = 2 ^ 64 + v.
Proof.
  intros Hv. unfold uint64.
  rewrite <- (Z.mod_small (2 ^ 64 + v) (2 ^ 64)) by lia.
  rewrite <- (Z_mod_plus_full v 1 (2 ^ 64)). f_equal. lia.
Qed.

Lemma createVolumes_first_call serverName i volume volumes done Volumes w :
  0 < uint64 (size_in_gb volume) ->
  exists t,
    trc (createVolumes E serverName i (volume :: volumes) done Volumes w)
    = ECall (CPostVolume
               {| VD_Size := uint64 (uint64 (size_in_gb volume) * gb E);
                  VD_Type := volume_type volume;
                  VD_Name := serverName +:+ "-" +:+ pretty (uint64 (size_in_gb volume)) |})
        :: t.
Proof.
  intros Hpos. cbn [createVolumes].
  rewrite (proj2 (Z.ltb_lt _ _) Hpos), bind_trc. unfold PostVolume.
  match goal with
  | |- context [retry E (call ?c ?f) w] =>
      destruct (retry_call_trace E c f w) as (k & -> & Hk)
  end.
  destruct k as [|k]; [lia|]. cbn. eexists. reflexivity.
Qed.

(** The volumes of the result and the keys of [server.Volumes]. *)
Lemma createVolumes_invariant serverName volumes :
  forall i done Volumes w volumes' Volumes',
    val (createVolumes E serverName i volumes done Volumes w)
    = Ok (volumes', Volumes') ->
    exists rest,
      volumes' = done ++ rest /\
      map size_in_gb rest = map size_in_gb volumes /\
      map volume_type rest = map volume_type volumes /\
      (forall j v', rest !! j = Some v' -> 0 < uint64 (size_in_gb v') ->
         Volumes' !! pretty (i + j + 1)%nat = Some (volume_id v')) /\
      (forall j v v', volumes !! j = Some v -> rest !! j = Some v' ->
         uint64 (size_in_gb v) = 0 -> v' = v) /\
      (forall k, (k <= i)%nat -> Volumes' !! pretty k = Volumes !! pretty k) /\
      (forall key id, Volumes' !! key = Some id ->
         Volumes !! key = Some id \/
         exists j v', rest !! j = Some v' /\ 0 < uint64 (size_in_gb v') /\
                      key = pretty (i + j + 1)%nat /\ volume_id v' = id).
Proof.
  induction volumes as [|volume volumes IH];
    intros i done Volumes w volumes' Volumes'; cbn [createVolumes].
  - intros [= <- <-]. exists []. rewrite app_nil_r.
    repeat split; try reflexivity; try (intros; discriminate). auto.
  - destruct (0 <? uint64 (size_in_gb volume)) eqn:Hpos.
    + apply Z.ltb_lt in Hpos. rewrite bind_val.
      match goal with
      | |- context [val (retry E ?f w)] =>
          destruct (val (retry E f w)) as [volumeID|err];
          [generalize (world (retry E f w)) | discriminate]
      end.
      intros w1 Hval.
      destruct (IH _ _ _ _ _ _ Hval)
        as (rest & -> & Hsize & Htype & Hkeys & Hzero & Hframe & Honly).
      exists (with_volume_id volumeID volume :: rest).
      rewrite <- app_assoc. cbn [app map]. rewrite Hsize, Htype.
      split; [reflexivity|]. split; [reflexivity|]. split; [reflexivity|].
      split; [|split; [|split]].
      * intros [|j] v' Hj Hv'.
        -- injection Hj as <-. rewrite Nat.add_0_r.
           rewrite (Hframe (i + 1)%nat) by lia. apply lookup_insert_eq.
        -- replace (i + S j + 1)%nat with (S i + j + 1)%nat by lia.
           exact (Hkeys j v' Hj Hv').
      * intros [|j] v v' Hv Hj Hz.
        -- injection Hv as <-. lia.
        -- exact (Hzero j v v' Hv Hj Hz).
      * intros k Hk. rewrite (Hframe k) by lia.
        apply lookup_insert_ne. intros Heq. apply (inj pretty) in Heq. lia.
      * intros key id Hkey. destruct (Honly key id Hkey) as [Hin|Hnew].
        -- destruct (decide (key = pretty (i + 1)%nat)) as [->|Hne].
           ++ rewrite lookup_insert_eq in Hin. injection Hin as <-.
              right. exists 0%nat, (with_volume_id volumeID volume).
              rewrite Nat.add_0_r. repeat split. exact Hpos.
           ++ rewrite lookup_insert_ne in Hin by congruence. left. exact Hin.
        -- destruct Hnew as (j & v' & Hj & Hv' & -> & Hid).
           right. exists (S j), v'.
           replace (i + S j + 1)%nat with (S i + j + 1)%nat by lia.
           repeat split; assumption.
    + apply Z.ltb_ge in Hpos. intros Hval.
      destruct (IH _ _ _ _ _ _ Hval)
        as (rest & -> & Hsize & Htype & Hkeys & Hzero & Hframe & Honly).
      exists (volume :: rest).
      rewrite <- app_assoc. cbn [app map]. rewrite Hsize, Htype.
      split; [reflexivity|]. split; [reflexivity|]. split; [reflexivity|].
      split; [|split; [|split]].
      * intros [|j] v' Hj Hv'.
        -- injection Hj as <-. lia.
        -- replace (i + S j + 1)%nat with (S i + j + 1)%nat by lia.
           exact (Hkeys j v' Hj Hv').
      * intros [|j] v v' Hv Hj Hz.
        -- injection Hv as <-. injection Hj as <-. reflexivity.
        -- exact (Hzero j v v' Hv Hj Hz).
      * intros k Hk. apply Hframe. lia.
      * intros key id Hkey. destruct (Honly key id Hkey) as [Hin|Hnew];
          [left; exact Hin|].
        destruct Hnew as (j & v' & Hj & Hv' & -> & Hid).
        right. exists (S j), v'.
        replace (i + S j + 1)%nat with (S i + j + 1)%nat by lia.
        repeat split; assumption.
Qed.

End Volumes.

(** X13: a declared volume of size zero passes the validator and is then
    skipped by Create: for volumes that all have size zero the loop issues
    no call, leaves every volume without a volume id of its own and adds
    nothing to the volumes of the server definition. *)
Theorem create_skips_volumes_of_size_zero :
  forall (W : Type) (E : Env W) serverName volumes i done Volumes w,
    Forall (fun v => size_in_gb v = 0) volumes ->
    Forall (fun v => accepted (size_in_gb_ValidateFunc (size_in_gb v) "size_in_gb")
                     = true) volumes /\
    createVolumes E serverName i volumes done Volumes w
    = (Ok (done ++ volumes, Volumes), w, []).
Proof.
  intros W E serverName volumes i done Volumes w Hzero. split.
  - eapply Forall_impl; [exact Hzero|]. intros v ->. reflexivity.
  - apply createVolumes_zero, Hzero.
Qed.

Lemma create_skips_volumes_of_size_zero_witness :
  let zero := {| size_in_gb := 0; volume_type := "l_ssd"; volume_id := "" |} in
  createVolumes (canned unit all_well) "web" 0 [zero] [] ∅ tt
  = (Ok ([zero], ∅), tt, []).
Proof.
  intros zero.
  apply (create_skips_volumes_of_size_zero unit (canned unit all_well) "web"
           [zero] 0%nat [] ∅ tt).
  constructor; [reflexivity | constructor].
Defined.

Lemma size_validator_accepts_le v k :
  v <= 150 -> accepted (size_in_gb_ValidateFunc v k) = true.
Proof.
  intros Hv. unfold size_in_gb_ValidateFunc, accepted.
  rewrite Z.gtb_ltb. destruct (Z.ltb_spec 150 v); [lia | reflexivity].
Qed.

(** X14: a negative size passes the validator, and the conversion to an
    unsigned integer turns it into a huge positive one: Create then requests
    a volume of [2^64 + size] gigabytes (the byte count wraps around once
    more), named after that number. *)
Theorem create_requests_volume_for_negative_size :
  forall (W : Type) (E : Env W) serverName i volume volumes done Volumes w,
    - 2 ^ 63 <= size_in_gb volume < 0 ->
    accepted (size_in_gb_ValidateFunc (size_in_gb volume) "size_in_gb") = true /\
    exists t,
      trc (createVolumes E serverName i (volume :: volumes) done Volumes w)
      = ECall (CPostVolume
                 {| VD_Size := uint64 ((2 ^ 64 + size_in_gb volume) * gb E);
                    VD_Type := volume_type volume;
                    VD_Name := serverName +:+ "-"
                               +:+ pretty (2 ^ 64 + size_in_gb volume) |})
          :: t.
Proof.
  intros W E serverName i volume volumes done Volumes w Hneg. split.
  - apply size_validator_accepts_le. lia.
  - rewrite <- (uint64_negative _ Hneg).
    apply createVolumes_first_call. rewrite (uint64_negative _ Hneg). lia.
Qed.

(** The size [-1] asks for a volume of 18446744073709551615 gigabytes. *)
Lemma create_requests_volume_for_negative_size_witness :
  exists t,
    trc (createVolumes (canned unit all_well) "web" 0 [a_negative_volume] [] ∅ tt)
    = ECall (CPostVolume
               {| VD_Size := 18446744072709551616;
                  VD_Type := "l_ssd";
                  VD_Name := "web-18446744073709551615" |})
        :: t.
Proof.
  destruct (create_requests_volume_for_negative_size unit (canned unit all_well)
              "web" 0%nat a_negative_volume [] [] ∅ tt ltac:(cbn; lia))
    as [_ [t Ht]].
  exists t. rewrite Ht. vm_compute. reflexivity.
Defined.

(** X15: when the loop over the declared volumes succeeds, the volumes it
    writes back are the declared ones, in order, with their size and type;
    a volume of non-zero size at position [j] carries the volume id that the
    server definition lists under the key [j + 1], the server definition
    lists nothing else, and a volume of size zero is written back as
    declared. *)
Theorem create_volumes_match_server_definition :
  forall (W : Type) (E : Env W) serverName volumes w volumes' Volumes',
    val (createVolumes E serverName 0 volumes [] ∅ w) = Ok (volumes', Volumes') ->
    map size_in_gb volumes' = map size_in_gb volumes /\
    map volume_type volumes' = map volume_type volumes /\
    (forall j v', volumes' !! j = Some v' -> 0 < uint64 (size_in_gb v') ->
       Volumes' !! pretty (j + 1)%nat = Some (volume_id v')) /\
    (forall j v v', volumes !! j = Some v -> volumes' !! j = Some v' ->
       uint64 (size_in_gb v) = 0 -> v' = v) /\
    (forall key id, Volumes' !! key = Some id ->
       exists j v', volumes' !! j = Some v' /\ 0 < uint64 (size_in_gb v') /\
                    key = pretty (j + 1)%nat /\ volume_id v' = id).
Proof.
  intros W E serverName volumes w volumes' Volumes' Hval.
  destruct (createVolumes_invariant E serverName volumes _ _ _ _ _ _ Hval)
    as (rest & -> & Hsize & Htype & Hkeys & Hzero & _ & Honly).
  cbn [app]. repeat split; try assumption.
  intros key id Hkey. destruct (Honly key id Hkey) as [Hin|Hnew].
  - rewrite lookup_empty in Hin. discriminate.
  - exact Hnew.
Qed.

(** Two volumes, the first of size zero: the second is listed under the key
    [2], and the key [1] is not used. *)
Lemma create_volumes_match_server_definition_witness :
  let r := val (createVolumes (canned unit all_well) "web" 0 two_volumes [] ∅ tt) in
  exists volumes' Volumes',
    r = Ok (volumes', Volumes') /\
    map size_in_gb volumes' = [0; 50] /\
    Volumes' !! "2" = Some "vol-1" /\
    Volumes' !! "1" = None.
Proof.
  intros r.
  exists [ {| size_in_gb := 0; volume_type := "l_ssd"; volume_id := "" |};
           {| size_in_gb := 50; volume_type := "l_ssd"; volume_id := "vol-1" |} ],
         (<["2" := "vol-1"]> ∅).
  assert (Hr : r = Ok ([ {| size_in_gb := 0; volume_type := "l_ssd"; volume_id := "" |};
                         {| size_in_gb := 50; volume_type := "l_ssd"; volume_id := "vol-1" |} ],
                       <["2" := "vol-1"]> ∅)) by (vm_compute; reflexivity).
  destruct (create_volumes_match_server_definition unit (canned unit all_well)
              "web" two_volumes tt _ _ Hr) as (Hsize & _ & Hkeys & _ & Honly).
  split; [exact Hr|]. split; [exact Hsize|]. split.
  - apply (Hkeys 1%nat {| size_in_gb := 50; volume_type := "l_ssd";
                          volume_id := "vol-1" |}); [reflexivity | reflexivity].
  - destruct ((<["2" := "vol-1"]> ∅ : gmap string string) !! "1") as [id|] eqn:Hone;
      [|reflexivity].
    destruct (Honly "1" id Hone) as (j & v' & Hj & Hpos & Hkey & _).
    destruct j as [|[|j]]; cbn in Hj; try discriminate Hj.
    + injection Hj as <-. cbn in Hpos. discriminate Hpos.
    + vm_compute in Hkey. discriminate Hkey.
Defined.

(** ** The IP resource *)

(** X16: Update of an IP whose declared server did not change only reads
    the address back.  When the declared server changed to the empty
    string, Update detaches the address and returns the outcome of the
    detachment at once: the address is not read back and the resource data
    is returned as it was.  When it changed to a server, a failed attachment
    is returned with the resource data as it was, and a successful one is
    followed by the read. *)
Theorem ip_update_branches :
  forall (W : Type) (E : Env W) d w,
    (HasChange ip_server d = false ->
     resourceScalewayIPUpdate E d w
     = (val (resourceScalewayIPRead E d w), world (resourceScalewayIPRead E d w),
        ELock :: trc (resourceScalewayIPRead E d w) ++ [EUnlock])) /\
    (forall r w1 t1,
        HasChange ip_server d = true ->
        Get ip_server d = "" ->
        retry E (DetachIP E (Id d)) w = (r, w1, t1) ->
        resourceScalewayIPUpdate E d w
        = (err_of r, d, w1, ELock :: t1 ++ [EUnlock]) /\
        Forall (fun ev => ev = ECall (CDetachIP (Id d))) t1) /\
    (forall r w1 t1,
        HasChange ip_server d = true ->
        Get ip_server d <> "" ->
        retry E (AttachIP E (Id d) (Get ip_server d)) w = (r, w1, t1) ->
        resourceScalewayIPUpdate E d w
        = match r with
          | Err e => (Some e, d, w1, ELock :: t1 ++ [EUnlock])
          | Ok _ =>
              (val (resourceScalewayIPRead E d w1),
               world (resourceScalewayIPRead E d w1),
               ELock :: t1 ++ trc (resourceScalewayIPRead E d w1) ++ [EUnlock])
          end).
Proof.
  intros W E d w. split; [|split].
  - intros Hsame. unfold resourceScalewayIPUpdate. rewrite locked_run, Hsame.
    reflexivity.
  - intros r w1 t1 Hchange Hempty Hdetach.
    unfold resourceScalewayIPUpdate. rewrite locked_run, Hchange, Hempty.
    cbn [bool_decide negb]. rewrite bool_decide_eq_true_2 by reflexivity.
    cbn [negb]. unfold bind. rewrite Hdetach. cbn. rewrite app_nil_r.
    split; [reflexivity|].
    pose proof (emits_retry (fun ev => ev = ECall (CDetachIP (Id d))) E
                  (DetachIP E (Id d)) (emits_call _ _ _ eq_refl) w) as H.
    rewrite Hdetach in H. exact H.
  - intros r w1 t1 Hchange Hserver Hattach.
    unfold resourceScalewayIPUpdate. rewrite locked_run, Hchange.
    rewrite bool_decide_eq_false_2 by exact Hserver. cbn [negb].
    unfold bind. rewrite Hattach.
    destruct r as [[]|e]; cbn.
    + destruct (resourceScalewayIPRead E d w1) as [[x w2] t2]. cbn.
      rewrite <- app_assoc. reflexivity.
    + rewrite app_nil_r. reflexivity.
Qed.

(** The server of the address is removed from the declaration: Update
    detaches and does not read the address back. *)
Lemma ip_update_branches_witness :
  resourceScalewayIPUpdate (canned unit all_well) ip_losing_server tt
  = (None, ip_losing_server, tt, [ELock; ECall (CDetachIP "ip-1"); EUnlock]).
Proof.
  destruct (ip_update_branches unit (canned unit all_well) ip_losing_server tt)
    as (_ & Hdetach & _).
  destruct (Hdetach (Ok tt) tt [ECall (CDetachIP "ip-1")] eq_refl eq_refl eq_refl)
    as [Hrun _].
  exact Hrun.
Defined.

Lemma IPUpdate_Id {W} (E : Env W) d w :
  Id (snd (val (resourceScalewayIPUpdate E d w))) = Id d \/
  Id (snd (val (resourceScalewayIPUpdate E d w))) = "".
Proof.
  unfold resourceScalewayIPUpdate. rewrite locked_run. cbn [val fst snd].
  assert (Hread : forall w',
             Id (snd (val (resourceScalewayIPRead E d w'))) = Id d \/
             Id (snd (val (resourceScalewayIPRead E d w'))) = "").
  { intros w'. unfold resourceScalewayIPRead. rewrite bind_val.
    destruct (val (retry E (GetIP E (Id d)) w')) as [resp|err].
    - cbn. destruct (IP_Server resp); left; reflexivity.
    - destruct err as [code msg| | | |]; cbn; auto.
      destruct (decide (code = 404)); cbn; auto. }
  destruct (HasChange ip_server d); [|apply Hread].
  destruct (negb _); rewrite bind_val.
  - destruct (val (retry E _ w)) as [[]|err]; [apply Hread | left; reflexivity].
  - left. reflexivity.
Qed.

(** X17: Create of an IP that cannot allocate an address returns the error
    and leaves the identifier as it was, after the attempts at allocation
    and nothing else.  When the allocation succeeds, the identifier is the
    one of the allocated address and Create goes on exactly as an Update of
    that address; on return the identifier is that one, or empty. *)
Theorem ip_create_allocates_then_updates :
  forall (W : Type) (E : Env W) d w r w1 t1,
    retry E (NewIP E) w = (r, w1, t1) ->
    Forall (fun ev => ev = ECall CNewIP) t1 /\
    resourceScalewayIPCreate E d w
    = match r with
      | Err e => (Some e, d, w1, ELock :: t1 ++ [EUnlock])
      | Ok resp =>
          let u := resourceScalewayIPUpdate E (SetId (IP_ID resp) d) w1 in
          (val u, world u, ELock :: t1 ++ EUnlock :: trc u)
      end /\
    match r with
    | Err _ => Id (snd (val (resourceScalewayIPCreate E d w))) = Id d
    | Ok resp =>
        Id (SetId (IP_ID resp) d) = IP_ID resp /\
        (Id (snd (val (resourceScalewayIPCreate E d w))) = IP_ID resp \/
         Id (snd (val (resourceScalewayIPCreate E d w))) = "")
    end.
Proof.
  intros W E d w r w1 t1 Hnew.
  assert (Hid : match r with
                | Err _ => Id (snd (val (resourceScalewayIPCreate E d w))) = Id d
                | Ok resp =>
                    Id (SetId (IP_ID resp) d) = IP_ID resp /\
                    (Id (snd (val (resourceScalewayIPCreate E d w))) = IP_ID resp \/
                     Id (snd (val (resourceScalewayIPCreate E d w))) = "")
                end).
  { unfold resourceScalewayIPCreate, bind, Lock, Unlock, emit. rewrite Hnew.
    destruct r as [resp|e]; [|reflexivity].
    split; [reflexivity|].
    pose proof (IPUpdate_Id E (SetId (IP_ID resp) d) w1) as Hupd.
    destruct (resourceScalewayIPUpdate E (SetId (IP_ID resp) d) w1)
      as [[x w2] t2]. exact Hupd. }
  split; [|split; [|exact Hid]].
  - pose proof (emits_retry (fun ev => ev = ECall CNewIP) E (NewIP E)
                  (emits_call _ _ _ eq_refl) w) as H.
    rewrite Hnew in H. exact H.
  - unfold resourceScalewayIPCreate, bind, Lock, Unlock, emit. rewrite Hnew.
    destruct r as [resp|e].
    + cbv zeta.
      destruct (resourceScalewayIPUpdate E (SetId (IP_ID resp) d) w1)
        as [[x w2] t2]. reflexivity.
    + reflexivity.
Qed.

(** The allocation is refused with a 403. *)
Lemma ip_create_allocates_then_updates_witness :
  let E := canned unit
             {| on_GetServer := Ok a_server; on_PostServer := Ok "srv-1";
                on_PatchServer := Ok tt; on_PostVolume := Ok "vol-1";
                on_GetIPS := Ok []; on_GetIP := on_GetIP all_well;
                on_NewIP := Err (APIError 403 "quota");
                on_AttachIP := Ok tt; on_DetachIP := Ok tt; on_DeleteIP := Ok tt;
                on_Userdata := Ok ∅; on_PatchUserdata := Ok tt;
                on_DeleteUserdata := Ok tt; on_poweronServer := Ok tt;
                on_deleteStoppedServer := Ok tt;
                on_deleteRunningServer := Ok tt |} in
  let d := resource "" {| ip_server := ""; ip_ip := "" |}
                       {| ip_server := ""; ip_ip := "" |} in
  resourceScalewayIPCreate E d tt
  = (Some (APIError 403 "quota"), d, tt, [ELock; ECall CNewIP; EUnlock]).
Proof.
  intros E d.
  destruct (ip_create_allocates_then_updates unit E d tt
              (Err (APIError 403 "quota")) tt [ECall CNewIP] eq_refl)
    as (_ & Hrun & _).
  exact Hrun.
Defined.

(** X18: Delete of an IP issues attempts of one DeleteIP of its own
    identifier and nothing else; the identifier is the empty string on
    return exactly when the deletion succeeds, and the error is returned
    with the identifier kept when it fails. *)
Theorem ip_delete_clears_identifier_on_success :
  forall (W : Type) (E : Env W) d w r w1 t1,
    retry E (DeleteIP E (Id d)) w = (r, w1, t1) ->
    Forall (fun ev => ev = ECall (CDeleteIP (Id d))) t1 /\
    resourceScalewayIPDelete E d w
    = (err_of r, match r with Ok _ => SetId "" d | Err _ => d end, w1,
       ELock :: t1 ++ [EUnlock]) /\
    Id (snd (val (resourceScalewayIPDelete E d w)))
    = match r with Ok _ => "" | Err _ => Id d end.
Proof.
  intros W E d w r w1 t1 Hdel.
  assert (Hrun : resourceScalewayIPDelete E d w
                 = (err_of r, match r with Ok _ => SetId "" d | Err _ => d end,
                    w1, ELock :: t1 ++ [EUnlock])).
  { unfold resourceScalewayIPDelete. rewrite locked_run. unfold bind.
    rewrite Hdel. destruct r as [[]|e]; cbn; rewrite app_nil_r; reflexivity. }
  split; [|split; [exact Hrun|]].
  - pose proof (emits_retry (fun ev => ev = ECall (CDeleteIP (Id d))) E
                  (DeleteIP E (Id d)) (emits_call _ _ _ eq_refl) w) as H.
    rewrite Hdel in H. exact H.
  - rewrite Hrun. destruct r; reflexivity.
Qed.

(** The provider answers the deletion with a 409: the identifier stays. *)
Lemma ip_delete_clears_identifier_on_success_witness :
  let E := canned unit (deletion_ending (Err (APIError 409 "attached"))) in
  resourceScalewayIPDelete E ip_losing_server tt
  = (Some (APIError 409 "attached"), ip_losing_server, tt,
     [ELock; ECall (CDeleteIP "ip-1"); EUnlock]).
Proof.
  intros E.
  destruct (ip_delete_clears_identifier_on_success unit E ip_losing_server tt
              (Err (APIError 409 "attached")) tt [ECall (CDeleteIP "ip-1")]
              eq_refl) as (_ & Hrun & _).
  exact Hrun.
Defined.

(** ** Delete of a server that is not stopped *)

(** X19: Delete of a server first fetches it.  When the fetch fails, the
    error is returned, the identifier is kept and no deletion is attempted.
    When the server is not reported as [stopped], Delete takes the path for
    running servers once, for the server as fetched; the identifier is the
    empty string on return exactly when that path succeeds, and it is kept,
    with the error returned, when it fails. *)
Theorem server_delete_running_path :
  forall (W : Type) (E : Env W) d w,
    (forall e w1 t1,
        retry E (GetServer E (Id d)) w = (Err e, w1, t1) ->
        resourceScalewayServerDelete E d w
        = (Some e, d, w1, ELock :: t1 ++ [EUnlock]) /\
        Forall (fun ev => ev = ECall (CGetServer (Id d))) t1) /\
    (forall s w1 t1 r w2,
        retry E (GetServer E (Id d)) w = (Ok s, w1, t1) ->
        State s <> "stopped" ->
        hlp_deleteRunningServer E s w1 = (r, w2) ->
        resourceScalewayServerDelete E d w
        = (err_of r, match r with Ok _ => SetId "" d | Err _ => d end, w2,
           ELock :: t1 ++ [ECall (CDeleteRunningServer (Identifier s)); EUnlock]) /\
        Id (snd (val (resourceScalewayServerDelete E d w)))
        = match r with Ok _ => "" | Err _ => Id d end).
Proof.
  intros W E d w. split.
  - intros e w1 t1 Hget. split; [apply ServerDelete_fetch_error, Hget|].
    pose proof (emits_retry (fun ev => ev = ECall (CGetServer (Id d))) E
                  (GetServer E (Id d)) (emits_call _ _ _ eq_refl) w) as H.
    rewrite Hget in H. exact H.
  - intros s w1 t1 r w2 Hget Hstate Hdel.
    pose proof (ServerDelete_run E d w s w1 t1 r w2 Hget) as Hrun.
    rewrite bool_decide_eq_false_2 in Hrun by exact Hstate.
    specialize (Hrun Hdel). split; [exact Hrun|].
    rewrite Hrun. destruct r; reflexivity.
Qed.

(** The deletion of a running server fails with a 500: the identifier
    stays. *)
Lemma server_delete_running_path_witness :
  let E := canned unit (deletion_ending (Err (APIError 500 "try later"))) in
  let d := resource "srv-1" no_attrs no_attrs in
  resourceScalewayServerDelete E d tt
  = (Some (APIError 500 "try later"), d, tt,
     [ELock; ECall (CGetServer "srv-1"); ECall (CDeleteRunningServer "srv-1");
      EUnlock]).
Proof.
  intros E d.
  destruct (server_delete_running_path unit E d tt) as [_ Hrun].
  destruct (Hrun a_server tt [ECall (CGetServer "srv-1")]
              (Err (APIError 500 "try later")) tt) as [Heq _];
    [reflexivity | discriminate | reflexivity | exact Heq].
Defined.

(** ** The identifier *)

Section Identifier.

Context {W : Type} (E : Env W).

Lemma ServerRead_Id d w :
  Id (snd (val (resourceScalewayServerRead E d w))) = Id d \/
  Id (snd (val (resourceScalewayServerRead E d w))) = "".
Proof.
  unfold resourceScalewayServerRead. rewrite bind_val.
  destruct (val (retry E (GetServer E (Id d)) w)) as [server|err].
  - destruct (EnableIPV6 server); [destruct (IPV6 server)|];
      try (left; reflexivity);
      rewrite bind_val;
      match goal with
      | |- context [val (readUserDatas E ?i ?w')] =>
          destruct (val (readUserDatas E i w')) as [ud [e|]]
      end; cbn; try destruct (size ud); left; reflexivity.
  - destruct err as [code msg| | | |]; cbn; auto.
    destruct (decide (code = 404)); cbn; auto.
Qed.

Lemma IPRead_Id d w :
  Id (snd (val (resourceScalewayIPRead E d w))) = Id d \/
  Id (snd (val (resourceScalewayIPRead E d w))) = "".
Proof.
  unfold resourceScalewayIPRead. rewrite bind_val.
  destruct (val (retry E (GetIP E (Id d)) w)) as [resp|err].
  - cbn. destruct (IP_Server resp); left; reflexivity.
  - destruct err as [code msg| | | |]; cbn; auto.
    destruct (decide (code = 404)); cbn; auto.
Qed.

End Identifier.

(** X20: Read, Update and Delete, of a server and of an IP, never replace
    the identifier by another one: on return it is the identifier the verb
    was called with, or it is empty. *)
Theorem identifier_kept_or_cleared :
  forall (W : Type) (E : Env W),
    (forall d w,
        Id (snd (val (resourceScalewayServerRead E d w))) = Id d \/
        Id (snd (val (resourceScalewayServerRead E d w))) = "") /\
    (forall d w,
        Id (snd (val (resourceScalewayServerUpdate E d w))) = Id d \/
        Id (snd (val (resourceScalewayServerUpdate E d w))) = "") /\
    (forall d w,
        Id (snd (val (resourceScalewayServerDelete E d w))) = Id d \/
        Id (snd (val (resourceScalewayServerDelete E d w))) = "") /\
    (forall d w,
        Id (snd (val (resourceScalewayIPRead E d w))) = Id d \/
        Id (snd (val (resourceScalewayIPRead E d w))) = "") /\
    (forall d w,
        Id (snd (val (resourceScalewayIPUpdate E d w))) = Id d \/
        Id (snd (val (resourceScalewayIPUpdate E d w))) = "") /\
    (forall d w,
        Id (snd (val (resourceScalewayIPDelete E d w))) = Id d \/
        Id (snd (val (resourceScalewayIPDelete E d w))) = "").
Proof.
  intros W E. repeat apply conj; intros d w.
  - apply ServerRead_Id.
  - rewrite ServerUpdate_run. cbn zeta.
    destruct (val (updatePatch E d w)); [left; reflexivity|].
    destruct (val (updatePublicIP E d _)); [left; reflexivity|].
    destruct (val (updateUserdata E d _)); [left; reflexivity|].
    apply ServerRead_Id.
  - unfold resourceScalewayServerDelete. rewrite locked_run. cbn [val fst].
    rewrite bind_val.
    destruct (val (retry E (GetServer E (Id d)) w)) as [s|err];
      [|left; reflexivity].
    destruct (bool_decide (State s = "stopped")); rewrite bind_val; cbn;
      [left; reflexivity|].
    destruct (err_of _); auto.
  - apply IPRead_Id.
  - unfold resourceScalewayIPUpdate. rewrite locked_run. cbn [val fst].
    destruct (HasChange ip_server d); [|apply IPRead_Id].
    destruct (negb _); rewrite bind_val.
    + destruct (val (retry E _ w)) as [[]|err]; [apply IPRead_Id | left; reflexivity].
    + left. reflexivity.
  - unfold resourceScalewayIPDelete. rewrite locked_run. cbn [val fst].
    rewrite bind_val. destruct (val (retry E _ w)); cbn; auto.
Qed.

(** ** The user data written by Create *)

Section CreateUserdata.

Context {W : Type} (E : Env W).

Lemma createUserdata_run id ud : forall w,
  val (createUserdata E id ud w) = None ->
  trc (createUserdata E id ud w) = map (patch_entry id) ud.
Proof.
  induction ud as [|[k v] ud IH]; intros w; cbn [createUserdata]; [reflexivity|].
  destruct (sdk_PatchUserdata E id k v w) as [r w1] eqn:Hsdk.
  rewrite bind_val, bind_trc. unfold PatchUserdata.
  rewrite (call_run _ _ w r w1 Hsdk). cbn [val world trc fst snd].
  destruct r as [[]|err]; [|discriminate].
  intros Hval. rewrite (IH w1 Hval). reflexivity.
Qed.

Lemma filter_patch_entries id ud :
  List.filter (of_kind KUserdata) (map (patch_entry id) ud)
  = map (patch_entry id) ud.
Proof. induction ud as [|kv ud IH]; cbn; [reflexivity | f_equal; exact IH]. Qed.

Lemma with_volume_user_data vols a :
  srv_user_data (with_volume vols a) = srv_user_data a.
Proof. destruct a. reflexivity. Qed.

Lemma createServer_userdata d w id :
  fst (val (createServer E d w)) = Ok id ->
  List.filter (of_kind KUserdata) (trc (createServer E d w))
  = if snd (GetOk_map srv_user_data d)
    then map (patch_entry id) (range E (Get srv_user_data d))
    else [].
Proof.
  unfold createServer.
  destruct (GetOk_string srv_bootscript d) as [b okb].
  destruct (GetOk_list srv_volume d) as [vs ok].
  assert (Hrest : forall (d0 : ResourceData ServerAttrs) server w',
             Get srv_user_data d0 = Get srv_user_data d ->
             let tail :=
               (let server :=
                  let '(raw, ok) := GetOk_list srv_tags d0 in
                  if ok then with_Tags (SD_Tags server ++ raw) server
                  else server in
                let* r := retry E (PostServer E server) in
                match r with
                | Err err => ret (Err err, d0)
                | Ok id =>
                    let d := SetId id d0 in
                    let* err :=
                      (let '(ud, ok) := GetOk_map srv_user_data d in
                       if ok then createUserdata E id (range E ud)
                       else ret None) in
                    match err with
                    | Some err => ret (Err err, d)
                    | None => ret (Ok id, d)
                    end
                end) w' in
             fst (val tail) = Ok id ->
             List.filter (of_kind KUserdata) (trc tail)
             = if snd (GetOk_map srv_user_data d)
               then map (patch_entry id) (range E (Get srv_user_data d))
               else []).
  { intros d0 server w' Hd0. cbv zeta. rewrite bind_val, bind_trc, List.filter_app.
    match goal with
    | |- context [retry E ?f w'] =>
        rewrite (no_call_of_kind [KServer] KUserdata (retry E f) w');
        [|apply emits_retry, emits_call; cbn; tauto | cbn; intuition congruence];
        destruct (val (retry E f w')) as [id'|err]; [|discriminate];
        generalize (world (retry E f w'))
    end.
    intros w2. cbn [app]. rewrite bind_val, bind_trc.
    unfold GetOk_map.
    change (Get srv_user_data (SetId id' d0)) with (Get srv_user_data d0).
    rewrite Hd0. cbn [snd].
    destruct (negb (bool_decide (Get srv_user_data d = ∅))).
    - destruct (val (createUserdata E id' (range E (Get srv_user_data d)) w2))
        eqn:Hud; [discriminate|].
      cbn. intros [= <-]. rewrite (createUserdata_run _ _ _ Hud).
      rewrite app_nil_r. apply filter_patch_entries.
    - cbn. intros _. reflexivity. }
  rewrite bind_val, bind_trc, List.filter_app.
  destruct ok.
  - rewrite bind_val, bind_world, bind_trc.
    match goal with
    | |- context [createVolumes E ?n 0 vs [] ∅ w] =>
        pose proof (no_call_of_kind [KServer] KUserdata
                      (createVolumes E n 0 vs [] ∅) w
                      (emits_createVolumes E [KServer] n vs 0%nat [] ∅
                         ltac:(cbn; tauto))
                      ltac:(cbn; intuition congruence)) as Hvol;
        destruct (createVolumes E n 0 vs [] ∅ w) as [[r w1] t1]
    end.
    cbn [val world trc fst snd] in *.
    destruct r as [[volumes Volumes]|err]; cbn [val world trc fst snd ret];
      [|discriminate].
    rewrite app_nil_r, Hvol. cbn [app].
    apply Hrest. unfold Get. cbn. apply with_volume_user_data.
  - cbn [val world trc fst snd ret List.filter app]. apply Hrest. reflexivity.
Qed.

End CreateUserdata.

(** X21: once Create has created the server and written its user data, it
    has written every declared user-data entry exactly once, under the
    identifier the server creation returned, and it writes no user data in
    its later steps. *)
Theorem create_writes_each_user_data_entry_once :
  forall (W : Type) (E : Env W) d w id d1 w1 t1,
    range_ok E ->
    createServer E d w = (Ok id, d1, w1, t1) ->
    exists entries,
      entries ≡ₚ map_to_list (Get srv_user_data d) /\
      List.filter (of_kind KUserdata) (trc (resourceScalewayServerCreate E d w))
      = map (fun kv => ECall (CPatchUserdata id (fst kv) (snd kv))) entries.
Proof.
  intros W E d w id d1 w1 t1 Hrange Hrun.
  pose proof (createServer_userdata E d w id) as Hud.
  rewrite Hrun in Hud. specialize (Hud eq_refl). cbn [trc snd] in Hud.
  rewrite (ServerCreate_run E d w _ _ _ _ Hrun). cbn [trc snd List.filter of_kind].
  rewrite !List.filter_app, Hud.
  rewrite (no_call_of_kind [KRead; KServer; KIP] KUserdata (createStart E id d1) w1);
    [|apply emits_createStart; cbn; tauto | cbn; intuition congruence].
  cbn. rewrite app_nil_r.
  unfold GetOk_map. cbn [snd].
  destruct (decide (Get srv_user_data d = ∅)) as [Hempty|Hne].
  - rewrite bool_decide_eq_true_2 by exact Hempty. cbn.
    exists []. rewrite Hempty, map_to_list_empty. split; reflexivity.
  - rewrite bool_decide_eq_false_2 by exact Hne. cbn.
    exists (range E (Get srv_user_data d)). split; [apply Hrange | reflexivity].
Qed.

(** Two declared entries: two patches, for the new server. *)
Lemma create_writes_each_user_data_entry_once_witness :
  let E := canned unit all_well in
  exists entries,
    length entries = 2%nat /\
    List.filter (of_kind KUserdata)
      (trc (resourceScalewayServerCreate E server_with_two_entries tt))
    = map (fun kv => ECall (CPatchUserdata "srv-1" (fst kv) (snd kv))) entries.
Proof.
  intros E.
  assert (Hrange : range_ok E) by (intros m; reflexivity).
  destruct (createServer E server_with_two_entries tt) as [[[r d1] w1] t1] eqn:Hrun.
  assert (Hr : r = Ok "srv-1") by (apply (f_equal (fun x => fst (val x))) in Hrun;
                                   vm_compute in Hrun; symmetry; exact Hrun).
  subst r.
  destruct (create_writes_each_user_data_entry_once unit E server_with_two_entries
              tt "srv-1" d1 w1 t1 Hrange Hrun) as (entries & Hperm & Hcalls).
  exists entries. split; [|exact Hcalls].
  rewrite (Permutation_length Hperm). vm_compute. reflexivity.
Defined.

(** ** What Read of an IP writes *)

(** X22: a successful Read of an IP keeps the identifier and mirrors the
    observed address.  It writes [server] only when the provider reports the
    address as attached; when the provider reports it as unattached, the
    server recorded earlier stays in the resource data. *)
Theorem ip_read_mirrors_observed_state :
  forall (W : Type) (E : Env W) d w resp w1 t1,
    retry E (GetIP E (Id d)) w = (Ok resp, w1, t1) ->
    exists d',
      resourceScalewayIPRead E d w = (None, d', w1, t1) /\
      Id d' = Id d /\ prior d' = prior d /\ planned d' = planned d /\
      Get ip_ip d' = IP_Address resp /\
      Get ip_server d'
      = match IP_Server resp with
        | Some identifier => identifier
        | None => Get ip_server d
        end.
Proof.
  intros W E d w resp w1 t1 Hget.
  unfold resourceScalewayIPRead, bind. rewrite Hget. cbn.
  rewrite app_nil_r. eexists. split; [reflexivity|].
  destruct (IP_Server resp); repeat split.
Qed.

(** The provider reports the address as free, the resource data records it
    as attached to [srv-1]: after Read it still does. *)
Lemma ip_read_mirrors_observed_state_witness :
  let E := canned unit all_well in
  Get ip_server (snd (val (resourceScalewayIPRead E ip_recorded_attached tt)))
  = "srv-1".
Proof.
  intros E.
  destruct (ip_read_mirrors_observed_state unit E ip_recorded_attached tt
              a_free_ip tt [ECall (CGetIP "ip-1")] eq_refl)
    as (d' & Hrun & _ & _ & _ & _ & Hserver).
  rewrite Hrun. exact Hserver.
Defined.
